(** * Scheduling core of the workflow engine: a shallow embedding

    The development follows the Python sources under [airflow/models]:
    [__init__.py] ([clear_task_instances]), [dag.py] ([DAG]), [dag_bag.py]
    ([DagBag]), [pool.py] ([Pool]) and [x_com.py] ([XCom]).  Every Python
    class becomes a module holding a record for its attributes and one
    function per method; the database session is an explicit store that is
    threaded through the calls, and a raised exception is a value of
    [result].  The first part of the file holds the definitions, the second
    part the statements proved about them. *)

From Stdlib Require Import ZArith Lia.
From stdpp Require Import gmap strings list fin_maps sorting.

(* ===================================================================== *)
(** * Part I: definitions                                                 *)
(* ===================================================================== *)

(** ** Python values shared by all modules *)

(** Exceptions that the modelled code raises. *)
Inductive exn : Type :=
| AirflowException (msg : string)
| OverflowError (msg : string)
| ValueError (msg : string)
| IOError (msg : string).

(** The outcome of a call: a returned value or a raised exception. *)
Inductive result (A : Type) : Type :=
| Ok (a : A)
| Raise (e : exn).
Arguments Ok {A} a.
Arguments Raise {A} e.

(** Sequencing: an exception raised by the first call is propagated. *)
#[global] Instance result_bind : MBind result := λ A B k m,
  match m with
  | Ok a => k a
  | Raise e => Raise e
  end.

(** [for x in l: x' = f(x)] collecting the results, stopping at the first
    exception. *)
Fixpoint mapM {A B : Type} (f : A -> result B) (l : list A) : result (list B) :=
  match l with
  | [] => Ok []
  | a :: l' => b ← f a; bs ← mapM f l'; Ok (b :: bs)
  end.

(** A loop [for x in l: acc = f(acc, x)] whose body may raise. *)
Fixpoint foldM {A B : Type} (f : B -> A -> result B) (acc : B) (l : list A)
  : result B :=
  match l with
  | [] => Ok acc
  | a :: l' => acc' ← f acc a; foldM f acc' l'
  end.

(** A [bytes] value. *)
Definition bytes : Type := list Byte.byte.

(** Truth value of a Python string: the empty string is false. *)
Definition str_truthy (s : string) : bool :=
  match s with
  | EmptyString => false
  | String _ _ => true
  end.

(** Truth value of an [Optional[str]]. *)
Definition opt_str_truthy (o : option string) : bool :=
  match o with
  | None => false
  | Some s => str_truthy s
  end.

(** ** Task-instance states *)

Module State.

(** Modelled from the spec: [airflow.utils.state.State] is imported by every
    source file but is not among them.  The states are the ones of the
    instance state machine (section 4.2); [NONE] is Python's [None]. *)
Inductive t : Type :=
| NONE | SCHEDULED | QUEUED | RUNNING | SUCCESS | FAILED | SHUTDOWN
| UP_FOR_RETRY | SKIPPED.

#[global] Instance eq_dec : EqDecision t.
Proof. solve_decision. Defined.

(** Modelled from the spec: the states of a DagRun (section 3), the value
    of [State.dag_states]. *)
Definition dag_states : list t := [SUCCESS; RUNNING; FAILED].

End State.

(** ** Rows of the persisted state *)

Module TaskInstance.

(** Modelled from the spec: [airflow.models.task_instance] is not among the
    sources; the attributes are those of the persisted layout (section 6)
    that the modelled functions read or write.  Dates are instants, counted
    in microseconds. *)
Record t : Type := mk {
  dag_id : string;
  task_id : string;
  execution_date : Z;
  state : State.t;
  try_number : Z;
  max_tries : Z;
  job_id : option Z;
  pool : option string }.

Definition set_state (s : State.t) (ti : t) : t :=
  mk (dag_id ti) (task_id ti) (execution_date ti) s (try_number ti)
     (max_tries ti) (job_id ti) (pool ti).

Definition set_max_tries (m : Z) (ti : t) : t :=
  mk (dag_id ti) (task_id ti) (execution_date ti) (state ti) (try_number ti)
     m (job_id ti) (pool ti).

(** The composite primary key. *)
Definition same_key (a b : t) : bool :=
  bool_decide (dag_id a = dag_id b) && bool_decide (task_id a = task_id b)
  && bool_decide (execution_date a = execution_date b).

End TaskInstance.

Module BaseJob.

(** Modelled from the spec: [airflow.jobs.BaseJob] is not among the sources;
    a job record has an id and a state (section 4.2). *)
Record t : Type := mk {
  id : Z;
  state : State.t }.

End BaseJob.

Module DagRun.

(** Modelled from the spec: [airflow.models.dag_run] is not among the
    sources; the attributes are those of the persisted layout (section 6). *)
Record t : Type := mk {
  dag_id : string;
  execution_date : Z;
  run_id : string;
  state : State.t;
  external_trigger : bool;
  start_date : option Z }.

End DagRun.

Module DagModel.

(** The columns of [dag_model.py] that the modelled code reads. *)
Record t : Type := mk {
  dag_id : string;
  is_paused : bool;
  is_subdag : bool;
  is_active : bool;
  fileloc : string }.

End DagModel.

Module DagStatRow.

(** The columns of [DagStat] in [dag_stat.py]. *)
Record t : Type := mk {
  dag_id : string;
  state : State.t;
  count : Z;
  dirty : bool }.

End DagStatRow.

Module XComRow.

(** The columns of [XCom] in [x_com.py].  A stored row holds [bytes]; a row
    returned by [get_many] holds the deserialised value, hence the
    parameter.  [key] is the only nullable column. *)
Record t (V : Type) : Type := mk {
  id : Z;
  key : option string;
  value : V;
  timestamp : Z;
  execution_date : Z;
  task_id : string;
  dag_id : string }.
Arguments mk {V}.
Arguments id {V}.
Arguments key {V}.
Arguments value {V}.
Arguments timestamp {V}.
Arguments execution_date {V}.
Arguments task_id {V}.
Arguments dag_id {V}.

Definition set_value {V W : Type} (w : W) (r : t V) : t W :=
  mk (id r) (key r) w (timestamp r) (execution_date r) (task_id r) (dag_id r).

End XComRow.

Module PoolRow.

(** The columns of [Pool] in [pool.py]. *)
Record t : Type := mk {
  id : Z;
  pool : option string;
  slots : Z;
  description : string }.

End PoolRow.

(** ** The database session

    One list per table, in storage order.  [xcom_seq] is the autoincrement
    counter of the [xcom] table. *)
Module Session.

Record t : Type := mk {
  task_instances : list TaskInstance.t;
  jobs : list BaseJob.t;
  dag_runs : list DagRun.t;
  dag_models : list DagModel.t;
  dag_stats : list DagStatRow.t;
  xcoms : list (XComRow.t bytes);
  xcom_seq : Z }.

Definition set_task_instances (v : list TaskInstance.t) (s : t) : t :=
  mk v (jobs s) (dag_runs s) (dag_models s) (dag_stats s) (xcoms s) (xcom_seq s).

Definition set_jobs (v : list BaseJob.t) (s : t) : t :=
  mk (task_instances s) v (dag_runs s) (dag_models s) (dag_stats s) (xcoms s)
     (xcom_seq s).

Definition set_dag_runs (v : list DagRun.t) (s : t) : t :=
  mk (task_instances s) (jobs s) v (dag_models s) (dag_stats s) (xcoms s)
     (xcom_seq s).

Definition set_dag_stats (v : list DagStatRow.t) (s : t) : t :=
  mk (task_instances s) (jobs s) (dag_runs s) (dag_models s) v (xcoms s)
     (xcom_seq s).

Definition set_xcoms (v : list (XComRow.t bytes)) (seq : Z) (s : t) : t :=
  mk (task_instances s) (jobs s) (dag_runs s) (dag_models s) (dag_stats s) v seq.

Definition set_dag_models (v : list DagModel.t) (s : t) : t :=
  mk (task_instances s) (jobs s) (dag_runs s) v (dag_stats s) (xcoms s)
     (xcom_seq s).

(** [session.merge(ti)]: the row with the key of [ti] takes the attributes
    of [ti]; without such a row, [ti] is inserted. *)
Fixpoint merge_ti (ti : TaskInstance.t) (rows : list TaskInstance.t)
  : list TaskInstance.t :=
  match rows with
  | [] => [ti]
  | r :: rows' =>
      if TaskInstance.same_key r ti then ti :: rows'
      else r :: merge_ti ti rows'
  end.

End Session.

(** SQL equality of a nullable column with a Python value: SQLAlchemy turns
    [col == None] into [col IS NULL], and [col = 'x'] never holds of a
    NULL. Both are equality of options. *)
Definition sql_eq {A : Type} `{EqDecision A} (col v : option A) : bool :=
  bool_decide (col = v).

(** ** pool.py *)

Module Pool.

(** [used_slots]: the count of instances in RUNNING bound to the pool. *)
Definition used_slots (self : PoolRow.t) (session : Session.t) : Z :=
  let running :=
    filter (fun ti => TaskInstance.state ti = State.RUNNING)
      (filter (fun ti => sql_eq (TaskInstance.pool ti) (PoolRow.pool self) = true)
         (Session.task_instances session)) in
  Z.of_nat (length running).

(** [queued_slots]: the count of instances in QUEUED bound to the pool. *)
Definition queued_slots (self : PoolRow.t) (session : Session.t) : Z :=
  Z.of_nat (length
    (filter (fun ti => TaskInstance.state ti = State.QUEUED)
      (filter (fun ti => sql_eq (TaskInstance.pool ti) (PoolRow.pool self) = true)
         (Session.task_instances session)))).

Definition open_slots (self : PoolRow.t) (session : Session.t) : Z :=
  let used_slots := used_slots self session in
  let queued_slots := queued_slots self session in
  (PoolRow.slots self - used_slots - queued_slots)%Z.

End Pool.

(** ** x_com.py *)

(** The serialisers the module calls ([pickle], [json]) and the
    configuration flag [core.enable_xcom_pickling]. *)
Class XComCodec (V : Type) : Type := {
  pickle_dumps : V -> result bytes;
  pickle_loads : bytes -> result V;
  json_dumps_utf8 : V -> result bytes;
  json_loads_utf8 : bytes -> result V;
  conf_enable_xcom_pickling : bool }.

(** A [task_ids] or [dag_ids] argument: absent, one identifier, or a
    container of identifiers. *)
Inductive ids_arg : Type :=
| NoIds
| OneId (s : string)
| ManyIds (l : list string).

Definition ids_truthy (a : ids_arg) : bool :=
  match a with
  | NoIds => false
  | OneId s => str_truthy s
  | ManyIds [] => false
  | ManyIds (_ :: _) => true
  end.

(** Modelled from the spec: [airflow.utils.helpers.as_tuple] is not among
    the sources; a container is taken as it is and a single identifier
    becomes a one-element tuple. *)
Definition as_tuple (a : ids_arg) : list string :=
  match a with
  | NoIds => []
  | OneId s => [s]
  | ManyIds l => l
  end.

Module XCom.

Section WithCodec.
Context {V : Type} `{XComCodec V}.

Definition serialize (enable_pickling : option bool) (value : V) : result bytes :=
  let enable_pickling :=
    match enable_pickling with
    | None => conf_enable_xcom_pickling
    | Some b => b
    end in
  if enable_pickling then pickle_dumps value else json_dumps_utf8 value.

Definition deserialize (enable_pickling : option bool) (b : bytes) : result V :=
  let enable_pickling :=
    match enable_pickling with
    | None => conf_enable_xcom_pickling
    | Some b => b
    end in
  if enable_pickling then pickle_loads b else json_loads_utf8 b.

(** The filter of [set]: the rows of one (key, execution_date, task_id,
    dag_id) scope. *)
Definition in_scope (key : option string) (execution_date : Z)
    (task_id dag_id : string) (r : XComRow.t bytes) : bool :=
  sql_eq (XComRow.key r) key
  && bool_decide (XComRow.execution_date r = execution_date)
  && bool_decide (XComRow.task_id r = task_id)
  && bool_decide (XComRow.dag_id r = dag_id).

(** [XCom.set].  [now] is the value of [timezone.utcnow()] that the column
    default gives to [timestamp]; the new row takes the next value of the
    autoincrement counter as its id.  [session.expunge_all()] and the two
    commits leave the tables as they are; an exception of the serialiser
    leaves the method before it touches the table. *)
Definition set (key : option string) (value : V) (execution_date : Z)
    (task_id dag_id : string) (enable_pickling : option bool)
    (now : Z) (session : Session.t) : result Session.t :=
  value ← serialize enable_pickling value;
  (* remove any duplicate XComs *)
  let kept :=
    filter (fun r => in_scope key execution_date task_id dag_id r = false)
      (Session.xcoms session) in
  (* insert new XCom *)
  let row :=
    XComRow.mk (Session.xcom_seq session) key value now execution_date
      task_id dag_id in
  Ok (Session.set_xcoms (kept ++ [row]) (Session.xcom_seq session + 1)%Z session).

(** The conjunction of filters that [get_many] builds. *)
Definition get_many_filter (execution_date : Z) (key : option string)
    (task_ids dag_ids : ids_arg) (include_prior_dates : bool)
    (r : XComRow.t bytes) : bool :=
  (if opt_str_truthy key then sql_eq (XComRow.key r) key else true)
  && (if ids_truthy task_ids
      then bool_decide (XComRow.task_id r ∈ as_tuple task_ids) else true)
  && (if ids_truthy dag_ids
      then bool_decide (XComRow.dag_id r ∈ as_tuple dag_ids) else true)
  && (if include_prior_dates
      then bool_decide (XComRow.execution_date r <= execution_date)%Z
      else bool_decide (XComRow.execution_date r = execution_date)).

(** [ORDER BY execution_date DESC, timestamp DESC]: [r1] may come before
    [r2]. *)
Definition order_by_desc {W : Type} (r1 r2 : XComRow.t W) : Prop :=
  (XComRow.execution_date r2 < XComRow.execution_date r1)%Z
  ∨ (XComRow.execution_date r2 = XComRow.execution_date r1
     ∧ (XComRow.timestamp r2 <= XComRow.timestamp r1)%Z).

#[global] Instance order_by_desc_dec {W : Type} : RelDecision (@order_by_desc W).
Proof. intros r1 r2. unfold order_by_desc. apply _. Defined.

(** [.limit(limit)]; [None] puts no bound. *)
Definition sql_limit {A : Type} (limit : option nat) (l : list A) : list A :=
  match limit with
  | None => l
  | Some n => take n l
  end.

(** The default of the [limit] keyword of [get_many]. *)
Definition limit_default : option nat := Some 100.

(** The query of [get_many]: filter, order, limit. *)
Definition get_many_query (execution_date : Z) (key : option string)
    (task_ids dag_ids : ids_arg) (include_prior_dates : bool)
    (limit : option nat) (session : Session.t) : list (XComRow.t bytes) :=
  sql_limit limit
    (merge_sort order_by_desc
       (filter (fun r => get_many_filter execution_date key task_ids dag_ids
                           include_prior_dates r = true)
          (Session.xcoms session))).

Definition get_many (execution_date : Z) (key : option string)
    (task_ids dag_ids : ids_arg) (include_prior_dates : bool)
    (limit : option nat) (enable_pickling : option bool)
    (session : Session.t) : result (list (XComRow.t V)) :=
  let results :=
    get_many_query execution_date key task_ids dag_ids include_prior_dates
      limit session in
  mapM (fun r => v ← deserialize enable_pickling (XComRow.value r);
                 Ok (XComRow.set_value v r))
       results.

(** The conjunction of filters that [get_one] builds: [task_id] and
    [dag_id] are compared by equality, each only when it is truthy. *)
Definition get_one_filter (execution_date : Z) (key task_id dag_id : option string)
    (include_prior_dates : bool) (r : XComRow.t bytes) : bool :=
  (if opt_str_truthy key then sql_eq (XComRow.key r) key else true)
  && (if opt_str_truthy task_id
      then sql_eq (Some (XComRow.task_id r)) task_id else true)
  && (if opt_str_truthy dag_id
      then sql_eq (Some (XComRow.dag_id r)) dag_id else true)
  && (if include_prior_dates
      then bool_decide (XComRow.execution_date r <= execution_date)%Z
      else bool_decide (XComRow.execution_date r = execution_date)).

(** [XCom.get_one]: the value of the first row of the ordered query,
    deserialised; [None] when the query has no row. *)
Definition get_one (execution_date : Z) (key task_id dag_id : option string)
    (include_prior_dates : bool) (enable_pickling : option bool)
    (session : Session.t) : result (option V) :=
  let query :=
    merge_sort order_by_desc
      (filter (fun r => get_one_filter execution_date key task_id dag_id
                          include_prior_dates r = true)
         (Session.xcoms session)) in
  match head query with
  | Some result => v ← deserialize enable_pickling (XComRow.value result); Ok (Some v)
  | None => Ok None
  end.

End WithCodec.

End XCom.

(** ** Time zones, cron and schedule intervals *)

(** Instants are counted in microseconds from 0001-01-01T00:00 UTC, wall
    clock ("naive") times in microseconds from local 0001-01-01T00:00.  A
    [datetime] holds the values from [datetime.min] to [datetime.max]. *)
Definition datetime_max : Z := 315537897599999999.

(** [dttm + delta] on datetimes: the sum, or [OverflowError] outside the
    range of [datetime]. *)
Definition datetime_add (dttm delta : Z) : result Z :=
  let r := (dttm + delta)%Z in
  if bool_decide (0 <= r <= datetime_max)%Z then Ok r
  else Raise (OverflowError "date value out of range").

(** A [tzinfo] object: the offset of the zone at an instant, and the
    instant that the zone assigns to a wall clock time ([localize] of pytz,
    [convert] of pendulum). *)
Record tzinfo : Type := mk_tzinfo {
  utcoffset : Z -> Z;
  localize : Z -> Z }.

(** Modelled from the spec: [airflow.utils.timezone] is not among the
    sources.  [make_naive] converts the instant to the local time of the
    zone and drops the zone (section 4.1). *)
Definition make_naive (dttm : Z) (tz : tzinfo) : Z :=
  (dttm + utcoffset tz dttm)%Z.

(** Modelled from the spec: [make_aware] followed by [convert_to_utc]
    converts a wall clock time of the zone back to an absolute instant
    (section 4.1). *)
Definition make_aware_utc (naive : Z) (tz : tzinfo) : Z :=
  localize tz naive.

(** The [croniter] library: for a cron expression and a wall clock time,
    the next and the previous firing of the expression. *)
Class Croniter : Type := {
  cron_get_next : string -> Z -> Z;
  cron_get_prev : string -> Z -> Z }.

(** The value of [DAG._schedule_interval]: a cron expression, a
    [timedelta] (in microseconds), or anything else ([None] for ["@once"],
    a [relativedelta]). *)
Inductive schedule_interval : Type :=
| CronExpr (expr : string)
| Timedelta (delta : Z)
| OtherInterval.

(** ** Tasks and DAGs *)

Module DAG.

(** Modelled from the spec: the task class [BaseOperator]
    ([airflow.models.base_operator]) is not among the sources.  A task has
    an identifier, upstream and downstream identifier lists and a retry
    count (section 3); a sub-DAG operator carries its nested DAG
    (section 9).

    The second type, [t], holds the attributes of [DAG] in [dag.py] that
    the modelled methods use.  [task_dict] is a Python [dict]: a list of
    entries with distinct keys, in insertion order. *)
Inductive BaseOperator : Type := mkBaseOperator {
  task_id : string;
  _upstream_task_ids : list string;
  _downstream_task_ids : list string;
  retries : Z;
  subdag : option t }
with t : Type := mk {
  dag_id : string;
  task_dict : list (string * BaseOperator);
  partial : bool;
  _schedule_interval : schedule_interval;
  timezone : tzinfo;
  full_filepath : string;
  fileloc : string;
  is_subdag : bool;
  parent_dag : option string;
  last_loaded : Z }.

Definition set_relatives (ups downs : list string) (task : BaseOperator)
  : BaseOperator :=
  mkBaseOperator (task_id task) ups downs (retries task) (subdag task).

Definition set_task_dict (td : list (string * BaseOperator)) (d : t) : t :=
  mk (dag_id d) td (partial d) (_schedule_interval d) (timezone d)
     (full_filepath d) (fileloc d) (is_subdag d) (parent_dag d) (last_loaded d).

Definition set_partial (b : bool) (d : t) : t :=
  mk (dag_id d) (task_dict d) b (_schedule_interval d) (timezone d)
     (full_filepath d) (fileloc d) (is_subdag d) (parent_dag d) (last_loaded d).

Definition set_full_filepath (p : string) (d : t) : t :=
  mk (dag_id d) (task_dict d) (partial d) (_schedule_interval d) (timezone d)
     p (fileloc d) (is_subdag d) (parent_dag d) (last_loaded d).

Definition set_fileloc (p : string) (d : t) : t :=
  mk (dag_id d) (task_dict d) (partial d) (_schedule_interval d) (timezone d)
     (full_filepath d) p (is_subdag d) (parent_dag d) (last_loaded d).

Definition set_is_subdag (b : bool) (d : t) : t :=
  mk (dag_id d) (task_dict d) (partial d) (_schedule_interval d) (timezone d)
     (full_filepath d) (fileloc d) b (parent_dag d) (last_loaded d).

Definition set_parent_dag (p : option string) (d : t) : t :=
  mk (dag_id d) (task_dict d) (partial d) (_schedule_interval d) (timezone d)
     (full_filepath d) (fileloc d) (is_subdag d) p (last_loaded d).

Definition set_last_loaded (now : Z) (d : t) : t :=
  mk (dag_id d) (task_dict d) (partial d) (_schedule_interval d) (timezone d)
     (full_filepath d) (fileloc d) (is_subdag d) (parent_dag d) now.

(** [d[k]] for a dict [d]. *)
Fixpoint dict_get {A : Type} (d : list (string * A)) (k : string) : option A :=
  match d with
  | [] => None
  | (k', v) :: d' => if decide (k' = k) then Some v else dict_get d' k
  end.

(** [d[k] = v]: an existing key keeps its position. *)
Fixpoint dict_set {A : Type} (d : list (string * A)) (k : string) (v : A)
  : list (string * A) :=
  match d with
  | [] => [(k, v)]
  | (k', v') :: d' =>
      if decide (k' = k) then (k, v) :: d' else (k', v') :: dict_set d' k v
  end.

(** The property [tasks]: [list(self.task_dict.values())]. *)
Definition tasks (self : t) : list BaseOperator := map snd (task_dict self).

(** The property [task_ids]: [list(self.task_dict.keys())]. *)
Definition task_ids (self : t) : list string := map fst (task_dict self).

(** The property [subdags]. *)
Fixpoint subdags (self : t) : list t :=
  flat_map (fun kv : string * BaseOperator =>
              match subdag (snd kv) with
              | Some sd => sd :: subdags sd
              | None => []
              end)
           (task_dict self).

(** The depth to which sub-DAGs are nested in a DAG. *)
Fixpoint depth (self : t) : nat :=
  foldr (fun (kv : string * BaseOperator) acc =>
           Nat.max (match subdag (snd kv) with
                    | Some sd => S (depth sd)
                    | None => 0
                    end) acc)
        0 (task_dict self).

Definition has_task (self : t) (task_id_ : string) : bool :=
  bool_decide (task_id_ ∈ map task_id (tasks self)).

Definition get_task (self : t) (task_id_ : string) : result BaseOperator :=
  match dict_get (task_dict self) task_id_ with
  | Some task => Ok task
  | None => Raise (AirflowException ("Task " +:+ task_id_ +:+ " not found"))
  end.

(** Modelled from the spec: the properties [upstream_list] and
    [downstream_list] of a task resolve its upstream and downstream
    identifiers in the owning DAG. *)
Definition upstream_list (dag : t) (task : BaseOperator)
  : result (list BaseOperator) :=
  mapM (get_task dag) (_upstream_task_ids task).

Definition downstream_list (dag : t) (task : BaseOperator)
  : result (list BaseOperator) :=
  mapM (get_task dag) (_downstream_task_ids task).

(** Modelled from the spec: two tasks of one DAG are the same task when
    their identifiers are equal (identifiers are unique within a DAG,
    section 3).  [task_in x l] is [x in l]. *)
Definition task_in (x : BaseOperator) (l : list BaseOperator) : bool :=
  bool_decide (task_id x ∈ map task_id l).

(** [l.remove(x)]: drops the first element equal to [x]; [ValueError]
    without one. *)
Fixpoint list_remove (x : BaseOperator) (l : list BaseOperator)
  : result (list BaseOperator) :=
  match l with
  | [] => Raise (ValueError "list.remove(x): x not in list")
  | y :: l' =>
      if decide (task_id y = task_id x) then Ok l'
      else (r ← list_remove x l'; Ok (y :: r))
  end.

(** The property [roots]: the tasks whose [downstream_list] is empty. *)
Definition roots (self : t) : result (list BaseOperator) :=
  foldM (fun acc t =>
           downstream_list ← downstream_list self t;
           Ok (match downstream_list with
               | [] => acc ++ [t]
               | _ :: _ => acc
               end))
        [] (tasks self).

End DAG.


(** ** __init__.py: clear_task_instances *)

(** The body of the loop of [clear_task_instances] for one instance [ti]:
    the instance after the iteration, the grown [job_ids] and the session
    after [session.merge(ti)]. *)
Definition clear_task_instance (dag : option DAG.t) (ti : TaskInstance.t)
    (job_ids : list Z) (session : Session.t)
  : result (TaskInstance.t * list Z * Session.t) :=
  if decide (TaskInstance.state ti = State.RUNNING) then
    match TaskInstance.job_id ti with
    | Some job_id =>
        (* [if ti.job_id:] holds of an id other than 0 *)
        if negb (Z.eqb job_id 0) then
          Ok (TaskInstance.set_state State.SHUTDOWN ti, job_ids ++ [job_id], session)
        else Ok (ti, job_ids, session)
    | None => Ok (ti, job_ids, session)
    end
  else
    let task_id := TaskInstance.task_id ti in
    ti ← match dag with
         | Some dag =>
             if DAG.has_task dag task_id then
               task ← DAG.get_task dag task_id;
               let task_retries := DAG.retries task in
               Ok (TaskInstance.set_max_tries
                     (TaskInstance.try_number ti + task_retries - 1)%Z ti)
             else
               Ok (TaskInstance.set_max_tries
                     (Z.max (TaskInstance.max_tries ti)
                            (TaskInstance.try_number ti - 1)) ti)
         | None =>
             Ok (TaskInstance.set_max_tries
                   (Z.max (TaskInstance.max_tries ti)
                          (TaskInstance.try_number ti - 1)) ti)
         end;
    let ti := TaskInstance.set_state State.NONE ti in
    Ok (ti, job_ids,
        Session.set_task_instances
          (Session.merge_ti ti (Session.task_instances session)) session).

(** The loop [for ti in tis]. *)
Fixpoint clear_task_instances_loop (dag : option DAG.t)
    (tis : list TaskInstance.t) (job_ids : list Z) (session : Session.t)
  : result (list TaskInstance.t * list Z * Session.t) :=
  match tis with
  | [] => Ok ([], job_ids, session)
  | ti :: tis' =>
      '(ti', job_ids, session) ← clear_task_instance dag ti job_ids session;
      '(rest, job_ids, session) ← clear_task_instances_loop dag tis' job_ids session;
      Ok (ti' :: rest, job_ids, session)
  end.

(** [for job in session.query(BJ).filter(BJ.id.in_(job_ids)).all():
    job.state = State.SHUTDOWN]. *)
Definition shutdown_jobs (job_ids : list Z) (jobs : list BaseJob.t)
  : list BaseJob.t :=
  map (fun job => if bool_decide (BaseJob.id job ∈ job_ids)
                  then BaseJob.mk (BaseJob.id job) State.SHUTDOWN
                  else job)
      jobs.

(** The DagRuns whose dag_id is the dag_id of an instance and whose
    execution_date is the execution_date of an instance are set to RUNNING
    and restarted at [now]. *)
Definition activate_runs (tis : list TaskInstance.t) (now : Z)
    (runs : list DagRun.t) : list DagRun.t :=
  map (fun dr =>
         if bool_decide (DagRun.dag_id dr ∈ map TaskInstance.dag_id tis)
            && bool_decide (DagRun.execution_date dr
                            ∈ map TaskInstance.execution_date tis)
         then DagRun.mk (DagRun.dag_id dr) (DagRun.execution_date dr)
                (DagRun.run_id dr) State.RUNNING (DagRun.external_trigger dr)
                (Some now)
         else dr)
      runs.

(** [clear_task_instances]: the instances as the call leaves them (one per
    element of [tis], in order), the collected [job_ids] and the session.
    [now] is the value of [timezone.utcnow()]. *)
Definition clear_task_instances (tis : list TaskInstance.t) (session : Session.t)
    (activate_dag_runs : bool) (dag : option DAG.t) (now : Z)
  : result (list TaskInstance.t * list Z * Session.t) :=
  '(tis', job_ids, session) ← clear_task_instances_loop dag tis [] session;
  let session :=
    match job_ids with
    | [] => session
    | _ :: _ => Session.set_jobs (shutdown_jobs job_ids (Session.jobs session)) session
    end in
  let session :=
    if activate_dag_runs && negb (bool_decide (tis = []))
    then Session.set_dag_runs (activate_runs tis now (Session.dag_runs session)) session
    else session in
  Ok (tis', job_ids, session).

(** ** dag.py: topological_sort *)

Module TopSort.

(** One pass [for node in list(graph_unsorted)]: [snapshot] is what is left
    of the copy, [acyclic] the flag, [graph_unsorted] and [graph_sorted] the
    two lists that the pass updates. *)
Fixpoint sort_pass (dag : DAG.t) (snapshot : list DAG.BaseOperator)
    (acyclic : bool) (graph_unsorted graph_sorted : list DAG.BaseOperator)
  : result (bool * list DAG.BaseOperator * list DAG.BaseOperator) :=
  match snapshot with
  | [] => Ok (acyclic, graph_unsorted, graph_sorted)
  | node :: snapshot' =>
      upstream ← DAG.upstream_list dag node;
      if existsb (fun edge => DAG.task_in edge graph_unsorted) upstream then
        (* [break]: an upstream task is still unsorted *)
        sort_pass dag snapshot' acyclic graph_unsorted graph_sorted
      else
        graph_unsorted ← DAG.list_remove node graph_unsorted;
        sort_pass dag snapshot' true graph_unsorted (graph_sorted ++ [node])
  end.

Definition cycle_error (dag : DAG.t) : exn :=
  AirflowException ("A cyclic dependency occurred in dag: " +:+ DAG.dag_id dag).

(** The loop [while graph_unsorted], for at most [fuel] passes; [None]
    when the passes are used up. *)
Fixpoint sort_loop (dag : DAG.t) (fuel : nat)
    (graph_unsorted graph_sorted : list DAG.BaseOperator)
  : option (result (list DAG.BaseOperator)) :=
  match graph_unsorted with
  | [] => Some (Ok graph_sorted)
  | _ :: _ =>
      match fuel with
      | O => None
      | S fuel' =>
          match sort_pass dag graph_unsorted false graph_unsorted graph_sorted with
          | Raise e => Some (Raise e)
          | Ok (acyclic, graph_unsorted', graph_sorted') =>
              if acyclic then sort_loop dag fuel' graph_unsorted' graph_sorted'
              else Some (Raise (cycle_error dag))
          end
      end
  end.

(** [DAG.topological_sort]; one pass per task is allowed. *)
Definition topological_sort (self : DAG.t)
  : option (result (list DAG.BaseOperator)) :=
  let graph_unsorted := DAG.tasks self in
  let graph_sorted := [] in
  if Nat.eqb (length (DAG.tasks self)) 0 then Some (Ok graph_sorted)
  else sort_loop self (length graph_unsorted) graph_unsorted graph_sorted.

(** The state after [n] passes that each resolved a task; [None] when one
    of them raised or resolved nothing. *)
Fixpoint after_passes (dag : DAG.t) (n : nat)
    (graph_unsorted graph_sorted : list DAG.BaseOperator)
  : option (list DAG.BaseOperator * list DAG.BaseOperator) :=
  match n with
  | O => Some (graph_unsorted, graph_sorted)
  | S n' =>
      match graph_unsorted with
      | [] => None
      | _ :: _ =>
          match sort_pass dag graph_unsorted false graph_unsorted graph_sorted with
          | Ok (true, u, s) => after_passes dag n' u s
          | _ => None
          end
      end
  end.

End TopSort.

(** ** dag.py: sub_dag *)

(** The [re] module: [re_findall pattern s] holds when
    [re.findall(pattern, s)] is a non-empty list. *)
Class Regex : Type := {
  re_findall : string -> string -> bool }.

Module SubDag.

(** Modelled from the spec: [get_flat_relatives] belongs to the task class,
    which is not among the sources.  It lists the transitive upstream (or
    downstream) closure of a task (section 4.1), depth first, each task
    once, in order of discovery.  [fuel] bounds the depth of the search;
    a path without repetition is no longer than the number of tasks. *)
Fixpoint flat_relatives (fuel : nat) (dag : DAG.t) (upstream : bool)
    (task : DAG.BaseOperator) (l : list DAG.BaseOperator)
  : result (list DAG.BaseOperator) :=
  match fuel with
  | O => Ok l
  | S fuel' =>
      direct ← (if upstream then DAG.upstream_list dag task
                else DAG.downstream_list dag task);
      foldM (fun l t =>
               if DAG.task_in t l then Ok l
               else flat_relatives fuel' dag upstream t (l ++ [t]))
            l direct
  end.

Definition get_flat_relatives (dag : DAG.t) (upstream : bool)
    (task : DAG.BaseOperator) : result (list DAG.BaseOperator) :=
  flat_relatives (S (length (DAG.task_dict dag))) dag upstream task [].

(** [{t.task_id: t for t in l}]. *)
Definition dict_of_tasks (l : list DAG.BaseOperator)
  : list (string * DAG.BaseOperator) :=
  fold_left (fun d t => DAG.dict_set d (DAG.task_id t) t) l [].

(** [[tid for tid in l if tid in keep]]. *)
Definition only_ids (keep l : list string) : list string :=
  filter (fun tid => tid ∈ keep) l.

(** [DAG.sub_dag].  [copy.deepcopy(self)] is [self]: a value shares
    nothing with the values built from it, so the receiver is left as it
    was. *)
Definition sub_dag `{Regex} (self : DAG.t) (task_regex : string)
    (include_downstream include_upstream : bool) : result DAG.t :=
  let dag := self in
  let regex_match :=
    filter (fun t => re_findall task_regex (DAG.task_id t) = true)
           (DAG.tasks dag) in
  also_include ←
    foldM (fun also_include t =>
             also_include ←
               (if include_downstream
                then r ← get_flat_relatives dag false t; Ok (also_include ++ r)
                else Ok also_include);
             (if include_upstream
              then r ← get_flat_relatives dag true t; Ok (also_include ++ r)
              else Ok also_include))
          [] regex_match;
  (* Compiling the unique list of tasks that made the cut *)
  let dag := DAG.set_task_dict (dict_of_tasks (regex_match ++ also_include)) dag in
  (* Removing upstream/downstream references to tasks that did not made
     the cut *)
  let task_ids := DAG.task_ids dag in
  let dag :=
    DAG.set_task_dict
      (map (fun kv : string * DAG.BaseOperator =>
              (fst kv,
               DAG.set_relatives
                 (only_ids task_ids (DAG._upstream_task_ids (snd kv)))
                 (only_ids task_ids (DAG._downstream_task_ids (snd kv)))
                 (snd kv)))
           (DAG.task_dict dag))
      dag in
  let dag :=
    if Nat.ltb (length (DAG.tasks dag)) (length (DAG.tasks self))
    then DAG.set_partial true dag else dag in
  Ok dag.

End SubDag.

(** ** dag_stat.py *)

Module DagStat.

(** [session.merge(DagStat(...))]: the row with the same (dag_id, state)
    key is replaced, a new row is added otherwise. *)
Fixpoint merge (row : DagStatRow.t) (rows : list DagStatRow.t)
  : list DagStatRow.t :=
  match rows with
  | [] => [row]
  | r :: rows' =>
      if bool_decide (DagStatRow.dag_id r = DagStatRow.dag_id row)
         && bool_decide (DagStatRow.state r = DagStatRow.state row)
      then row :: rows'
      else r :: merge row rows'
  end.

(** [DagStat.update].  The Python sets are walked in the order of first
    occurrence; the failure of the store, which the method answers with a
    rollback, is not modelled. *)
Definition update (dag_ids : list string) (dirty_only : bool)
    (session : Session.t) : Session.t :=
  let qry := Session.dag_stats session in
  let qry :=
    match dag_ids with
    | [] => qry
    | _ :: _ => filter (fun r => DagStatRow.dag_id r ∈ dag_ids) qry
    end in
  let qry :=
    if dirty_only then filter (fun r => DagStatRow.dirty r = true) qry else qry in
  let ids := remove_dups (map DagStatRow.dag_id qry) in
  (* avoid querying with an empty IN clause *)
  if Nat.eqb (length ids) 0 then session
  else
    let count dag_id state :=
      Z.of_nat (length
        (filter (fun dr => DagRun.dag_id dr = dag_id ∧ DagRun.state dr = state)
                (Session.dag_runs session))) in
    Session.set_dag_stats
      (fold_left
         (fun rows key =>
            merge (DagStatRow.mk (fst key) (snd key) (count (fst key) (snd key))
                     false)
                  rows)
         (list_prod ids State.dag_states)
         (Session.dag_stats session))
      session.

(** [DagStat.create]: a row with count 0 for every DagRun state of which
    the DAG had no row when the method started.  The failure of the store
    is not modelled. *)
Definition create (dag_id : string) (session : Session.t) : Session.t :=
  let qry :=
    filter (fun r => DagStatRow.dag_id r = dag_id) (Session.dag_stats session) in
  let states := map DagStatRow.state qry in
  Session.set_dag_stats
    (fold_left
       (fun rows state =>
          if bool_decide (state ∉ states)
          then merge (DagStatRow.mk dag_id state 0 false) rows
          else rows)
       State.dag_states
       (Session.dag_stats session))
    session.

(** [DagStat.set_dirty].  The failure of the store is not modelled. *)
Definition set_dirty (dag_id : string) (session : Session.t) : Session.t :=
  let session := create dag_id session in
  Session.set_dag_stats
    (map (fun stat =>
            if bool_decide (DagStatRow.dag_id stat = dag_id)
            then DagStatRow.mk (DagStatRow.dag_id stat) (DagStatRow.state stat)
                   (DagStatRow.count stat) true
            else stat)
         (Session.dag_stats session))
    session.

End DagStat.

(** ** dag.py: clear *)

(** The store's [LIKE] operator: [sql_like s pattern]. *)
Class SqlLike : Type := {
  sql_like : string -> string -> bool }.

(** The answer of the user at the prompt of [utils.helpers.ask_yesno],
    for the instances that the question lists. *)
Class Console : Type := {
  ask_yesno : list TaskInstance.t -> bool }.

Module DagClear.

(** [clear] returns the selected instances in dry-run mode, the number of
    cleared instances otherwise. *)
Inductive clear_return : Type :=
| Selection (tis : list TaskInstance.t)
| Count (count : Z).

(** [DAG.set_dag_runs_state]: the attribute [state] that it assigns is not
    a column of [DagModel]; the stat rows are what it changes. *)
Definition set_dag_runs_state (self : DAG.t) (state : State.t)
    (session : Session.t) : Session.t :=
  let drs :=
    filter (fun dr => DagModel.dag_id dr = DAG.dag_id self)
           (Session.dag_models session) in
  let dirty_ids := map DagModel.dag_id drs in
  DagStat.update dirty_ids true session.

(** The filters that [clear] puts on the query of task instances. *)
Definition selected `{SqlLike} (self : DAG.t) (start_date end_date : option Z)
    (only_failed only_running include_subdags : bool) (ti : TaskInstance.t)
  : bool :=
  (if include_subdags then
     (* Crafting the right filter for dag_id and task_ids combo *)
     existsb (fun dag =>
                sql_like (TaskInstance.dag_id ti) (DAG.dag_id dag)
                && bool_decide (TaskInstance.task_id ti ∈ DAG.task_ids dag))
             (DAG.subdags self ++ [self])
   else
     bool_decide (TaskInstance.dag_id ti = DAG.dag_id self)
     && bool_decide (TaskInstance.task_id ti ∈ DAG.task_ids self))
  && match start_date with
     | Some start_date => bool_decide (start_date <= TaskInstance.execution_date ti)%Z
     | None => true
     end
  && match end_date with
     | Some end_date => bool_decide (TaskInstance.execution_date ti <= end_date)%Z
     | None => true
     end
  && (if only_failed then bool_decide (TaskInstance.state ti = State.FAILED)
      else true)
  && (if only_running then bool_decide (TaskInstance.state ti = State.RUNNING)
      else true).

(** The instances returned by a query are the rows of the session: what
    [clear_task_instances] did to them is in the session at the commit. *)
Definition write_back (tis : list TaskInstance.t) (session : Session.t)
  : Session.t :=
  Session.set_task_instances
    (fold_left (fun rows ti => Session.merge_ti ti rows) tis
               (Session.task_instances session))
    session.

(** [DAG.clear].  [now] is the value of [timezone.utcnow()]. *)
Definition clear `{SqlLike} `{Console} (self : DAG.t)
    (start_date end_date : option Z)
    (only_failed only_running confirm_prompt include_subdags reset_dag_runs
       dry_run : bool)
    (now : Z) (session : Session.t) : result (clear_return * Session.t) :=
  let tis :=
    filter (fun ti => selected self start_date end_date only_failed only_running
                        include_subdags ti = true)
           (Session.task_instances session) in
  if dry_run then
    (* [tis.all()], [session.expunge_all()] *)
    Ok (Selection tis, session)
  else
    let count := Z.of_nat (length tis) in
    if Z.eqb count 0 then Ok (Count 0, session)
    else
      let do_it := if confirm_prompt then ask_yesno tis else true in
      if do_it then
        '(tis', _, session) ←
          clear_task_instances tis session true (Some self) now;
        let session := write_back tis' session in
        let session :=
          if reset_dag_runs then set_dag_runs_state self State.RUNNING session
          else session in
        Ok (Count count, session)
      else
        Ok (Count 0, session).

End DagClear.

(** ** dag.py: following_schedule and previous_schedule *)

Module Schedule.

(** [DAG.following_schedule]: [None] is returned for an interval that is
    neither a cron expression nor a [timedelta]. *)
Definition following_schedule `{Croniter} (self : DAG.t) (dttm : Z)
  : result (option Z) :=
  match DAG._schedule_interval self with
  | CronExpr expr =>
      let dttm := make_naive dttm (DAG.timezone self) in
      let following :=
        make_aware_utc (cron_get_next expr dttm) (DAG.timezone self) in
      Ok (Some following)
  | Timedelta delta =>
      r ← datetime_add dttm delta; Ok (Some r)
  | OtherInterval => Ok None
  end.

(** [DAG.previous_schedule]. *)
Definition previous_schedule `{Croniter} (self : DAG.t) (dttm : Z)
  : result (option Z) :=
  match DAG._schedule_interval self with
  | CronExpr expr =>
      let dttm := make_naive dttm (DAG.timezone self) in
      let prev :=
        make_aware_utc (cron_get_prev expr dttm) (DAG.timezone self) in
      Ok (Some prev)
  | Timedelta delta =>
      r ← datetime_add dttm (- delta); Ok (Some r)
  | OtherInterval => Ok None
  end.

(** [following_schedule(previous_schedule(dttm))]. *)
Definition following_of_previous `{Croniter} (self : DAG.t) (dttm : Z)
  : result (option Z) :=
  prev ← previous_schedule self dttm;
  match prev with
  | Some prev => following_schedule self prev
  | None => Ok None
  end.

(** [DAG.normalize_schedule]: [dttm] when it is on the schedule or the
    schedule has no following instant, the following instant otherwise. *)
Definition normalize_schedule `{Croniter} (self : DAG.t) (dttm : Z) : result Z :=
  following ← following_schedule self dttm;
  match following with
  | None => Ok dttm   (* in case of @once *)
  | Some following =>
      prev ← previous_schedule self following;
      if bool_decide (prev ≠ Some dttm) then Ok following else Ok dttm
  end.

(** The [while] loop of [get_run_dates]; [None] when the fuel is used up. *)
Fixpoint run_dates_loop `{Croniter} (fuel : nat) (self : DAG.t)
    (next_run_date : option Z) (using_end_date : Z) (run_dates : list Z)
  : option (result (list Z)) :=
  match fuel with
  | O => None
  | S fuel =>
      match next_run_date with
      | Some d =>
          if bool_decide (d <= using_end_date)%Z then
            match following_schedule self d with
            | Ok next =>
                run_dates_loop fuel self next using_end_date (run_dates ++ [d])
            | Raise e => Some (Raise e)
            end
          else Some (Ok run_dates)
      | None => Some (Ok run_dates)
      end
  end.

(** [DAG.get_run_dates].  [min_task_start_date] is what
    [min([t.start_date for t in self.tasks])] gives (it raises on a DAG
    without tasks) and [utcnow] the value of [timezone.utcnow()]; each is
    used only when the argument it stands in for is missing. *)
Definition get_run_dates `{Croniter} (fuel : nat) (self : DAG.t)
    (start_date end_date : option Z)
    (min_task_start_date : result Z) (utcnow : Z)
  : option (result (list Z)) :=
  let using_start_date :=
    match start_date with
    | Some d => Ok d
    | None => min_task_start_date
    end in
  match using_start_date with
  | Raise e => Some (Raise e)
  | Ok using_start_date =>
      let using_end_date := default utcnow end_date in
      let next_run_date :=
        if negb (DAG.is_subdag self)
        then normalize_schedule self using_start_date
        else Ok using_start_date in
      match next_run_date with
      | Raise e => Some (Raise e)
      | Ok next_run_date =>
          run_dates_loop fuel self (Some next_run_date) using_end_date []
      end
  end.

End Schedule.

(** ** dag_bag.py *)

(** What importing a module gives: an exception with its message (a
    timeout of the import is one), or the module, of which the model keeps
    the DAG objects among the values of [m.__dict__], in order. *)
Inductive import_outcome : Type :=
| ImportRaises (msg : string)
| Imported (module_dags : list DAG.t).

(** An entry of [zip_file.infolist()]: the directory part and the two
    parts of [os.path.splitext] of its name, whether its content holds the
    markers [b'DAG'] and [b'airflow'], and what importing it gives. *)
Record zip_member : Type := mk_zip_member {
  zm_head : string;
  zm_mod_name : string;
  zm_ext : string;
  zm_markers : bool;
  zm_import : import_outcome }.

(** A regular file as [dag_bag.py] sees it: the modification time
    ([None] when [os.path.getmtime] raises), [zipfile.is_zipfile], whether
    the content holds both markers, the non-empty lines of the content,
    what [imp.load_source] gives, and the members of the archive. *)
Record file_info : Type := mk_file {
  f_mtime : option Z;
  f_is_zipfile : bool;
  f_markers : bool;
  f_lines : list string;
  f_load_source : import_outcome;
  f_infolist : list zip_member }.

(** The file system and the [os.path] functions: the regular files by
    path, [os.path.isdir], the (root, files) pairs that
    [os.walk(top, followlinks=True)] yields, [os.path.join], and the
    extension that [os.path.splitext] finds in the last component. *)
Record OS : Type := mk_os {
  os_files : gmap string file_info;
  os_isdir : string -> bool;
  os_walk : string -> list (string * list string);
  os_path_join : string -> string -> string;
  os_file_ext : string -> string }.

(** The hook [settings.policy], applied to every task of a bagged DAG.  A
    policy sets defaults on a task; it does not replace the DAG nested in
    a sub-DAG operator. *)
Class Settings : Type := {
  policy : DAG.BaseOperator -> DAG.BaseOperator;
  policy_subdag : forall task, DAG.subdag (policy task) = DAG.subdag task }.

Module DagBag.

(** An entry of [dagbag_stats]; the measured duration, and with it the
    order of the entries, is left out. *)
Record FileLoadStat : Type := mk_stat {
  stat_file : string;
  stat_dag_num : nat;
  stat_task_num : nat;
  stat_dags : list string }.

Record t : Type := mk {
  dag_folder : string;
  dags : gmap string DAG.t;
  file_last_changed : gmap string Z;
  import_errors : gmap string string;
  dagbag_stats : list FileLoadStat }.

Definition set_dags (v : gmap string DAG.t) (self : t) : t :=
  mk (dag_folder self) v (file_last_changed self) (import_errors self)
     (dagbag_stats self).

Definition set_file_last_changed (v : gmap string Z) (self : t) : t :=
  mk (dag_folder self) (dags self) v (import_errors self) (dagbag_stats self).

Definition set_import_errors (v : gmap string string) (self : t) : t :=
  mk (dag_folder self) (dags self) (file_last_changed self) v (dagbag_stats self).

Definition set_dagbag_stats (v : list FileLoadStat) (self : t) : t :=
  mk (dag_folder self) (dags self) (file_last_changed self) (import_errors self) v.

(** The bag before the first [collect_dags] of [__init__]. *)
Definition new (dag_folder : string) : t := mk dag_folder ∅ ∅ ∅ [].

Section WithSettings.
Context `{Settings} `{Regex}.

(** [DagBag.bag_dag].  The entry of a DAG shows the attributes of the DAG
    itself; the attributes that the recursion gives to a nested sub-DAG
    are in the entry of that sub-DAG.  [fuel] bounds the depth of the
    recursion, [None] is returned when it is used up. *)
Fixpoint bag_dag (fuel : nat) (self : t) (dag : DAG.t) (now : Z) : option t :=
  match fuel with
  | O => None
  | S fuel' =>
      let dag := DAG.set_last_loaded now dag in
      let dag :=
        DAG.set_task_dict
          (map (fun kv : string * DAG.BaseOperator => (fst kv, policy (snd kv)))
               (DAG.task_dict dag))
          dag in
      let self := set_dags (<[DAG.dag_id dag := dag]> (dags self)) self in
      foldl (fun acc subdag =>
               self ← acc;
               let subdag := DAG.set_full_filepath (DAG.full_filepath dag) subdag in
               let subdag := DAG.set_parent_dag (Some (DAG.dag_id dag)) subdag in
               let subdag := DAG.set_is_subdag true subdag in
               bag_dag fuel' self subdag now)
            (Some self) (DAG.subdags dag)
  end.

(** The loop [for dag in list(m.__dict__.values())] of [process_file] over
    the DAG objects of one module. *)
Definition bag_module (filepath : string) (now : Z)
    (acc : option (list DAG.t * t)) (dag : DAG.t) : option (list DAG.t * t) :=
  '(found_dags, self) ← acc;
  let dag :=
    if negb (str_truthy (DAG.full_filepath dag)) then
      let dag := DAG.set_full_filepath filepath dag in
      if bool_decide (DAG.fileloc dag ≠ filepath)
      then DAG.set_fileloc filepath dag else dag
    else dag in
  let dag := DAG.set_is_subdag false dag in
  self ← bag_dag (S (DAG.depth dag)) self dag now;
  Some (found_dags ++ [dag] ++ DAG.subdags dag, self).

(** What the import of the members of an archive leaves: the imported
    modules and the bag, or the early [return] of the content check. *)
Inductive zip_scan : Type :=
| ZipReturn (self : t)
| ZipMods (mods : list (list DAG.t)) (self : t).

Fixpoint scan_zip (filepath : string) (safe_mode : bool)
    (file_last_changed_on_disk : Z) (members : list zip_member)
    (mods : list (list DAG.t)) (self : t) : zip_scan :=
  match members with
  | [] => ZipMods mods self
  | mod_ :: members' =>
      if negb (str_truthy (zm_head mod_))
         && (bool_decide (zm_ext mod_ = ".py") || bool_decide (zm_ext mod_ = ".pyc"))
      then
        if safe_mode && negb (zm_markers mod_) then
          ZipReturn (set_file_last_changed
                       (<[filepath := file_last_changed_on_disk]>
                          (file_last_changed self)) self)
        else
          match zm_import mod_ with
          | Imported m =>
              scan_zip filepath safe_mode file_last_changed_on_disk members'
                (mods ++ [m]) self
          | ImportRaises e =>
              let self :=
                set_import_errors (<[filepath := e]> (import_errors self)) self in
              let self :=
                set_file_last_changed
                  (<[filepath := file_last_changed_on_disk]>
                     (file_last_changed self)) self in
              scan_zip filepath safe_mode file_last_changed_on_disk members'
                mods self
          end
      else
        scan_zip filepath safe_mode file_last_changed_on_disk members' mods self
  end.

(** [DagBag.process_file]: the found DAGs and the bag; [None] only when
    [bag_dag] runs out of fuel.  [now] is the value of
    [timezone.utcnow()]. *)
Definition process_file (os : OS) (self : t) (filepath : option string)
    (only_if_updated safe_mode : bool) (now : Z) : option (list DAG.t * t) :=
  let found_dags : list DAG.t := [] in
  match filepath with
  | None => Some (found_dags, self)
  | Some filepath =>
      match os_files os !! filepath with
      | None => Some (found_dags, self)
      | Some file =>
          match f_mtime file with
          | None => Some (found_dags, self)
          | Some file_last_changed_on_disk =>
              if only_if_updated
                 && bool_decide (file_last_changed self !! filepath
                                 = Some file_last_changed_on_disk)
              then Some (found_dags, self)
              else
                let finish (mods : list (list DAG.t)) (self : t) :=
                  '(found_dags, self) ←
                    foldl (bag_module filepath now) (Some (found_dags, self))
                          (concat mods);
                  Some (found_dags,
                        set_file_last_changed
                          (<[filepath := file_last_changed_on_disk]>
                             (file_last_changed self)) self) in
                if negb (f_is_zipfile file) then
                  if safe_mode && negb (f_markers file) then
                    Some (found_dags,
                          set_file_last_changed
                            (<[filepath := file_last_changed_on_disk]>
                               (file_last_changed self)) self)
                  else
                    match f_load_source file with
                    | Imported m => finish [m] self
                    | ImportRaises e =>
                        let self :=
                          set_import_errors (<[filepath := e]> (import_errors self))
                            self in
                        let self :=
                          set_file_last_changed
                            (<[filepath := file_last_changed_on_disk]>
                               (file_last_changed self)) self in
                        finish [] self
                    end
                else
                  match scan_zip filepath safe_mode file_last_changed_on_disk
                          (f_infolist file) [] self with
                  | ZipReturn self => Some (found_dags, self)
                  | ZipMods mods self => finish mods self
                  end
          end
      end
  end.

(** The body of the loop [for f in files] of [collect_dags]. *)
Definition collect_file (os : OS) (only_if_updated : bool) (now : Z)
    (root : string) (patterns : list string)
    (acc : option (list FileLoadStat * t)) (f : string)
  : option (list FileLoadStat * t) :=
  '(stats, self) ← acc;
  let filepath := os_path_join os root f in
  match os_files os !! filepath with
  | None => Some (stats, self)
  | Some file =>
      if bool_decide (os_file_ext os filepath ≠ ".py") && negb (f_is_zipfile file)
      then Some (stats, self)
      else if existsb (fun p => re_findall p filepath) patterns
      then Some (stats, self)
      else
        '(found_dags, self) ←
          process_file os self (Some filepath) only_if_updated true now;
        Some (stats ++
                [mk_stat filepath (length found_dags)
                   (sum_list (map (fun dag => length (DAG.tasks dag)) found_dags))
                   (map DAG.dag_id found_dags)],
              self)
  end.

(** The loop [for root, dirs, files in os.walk(dag_folder)]. *)
Fixpoint collect_walk (os : OS) (only_if_updated : bool) (now : Z)
    (entries : list (string * list string)) (patterns : list string)
    (stats : list FileLoadStat) (self : t)
  : option (result (list FileLoadStat * t)) :=
  match entries with
  | [] => Some (Ok (stats, self))
  | (root, files) :: entries' =>
      let ignore_file := filter (fun f => f = ".airflowignore") files in
      let patterns' :=
        match ignore_file with
        | [] => Ok patterns
        | f0 :: _ =>
            match os_files os !! os_path_join os root f0 with
            | Some file => Ok (patterns ++ f_lines file)
            | None => Raise (IOError "No such file or directory")
            end
        end in
      match patterns' with
      | Raise e => Some (Raise e)
      | Ok patterns =>
          '(stats, self) ←
            foldl (collect_file os only_if_updated now root patterns)
                  (Some (stats, self)) files;
          collect_walk os only_if_updated now entries' patterns stats self
      end
  end.

(** [DagBag.collect_dags]: the bag after the call; [None] only when
    [bag_dag] runs out of fuel. *)
Definition collect_dags (os : OS) (self : t) (dag_folder : option string)
    (only_if_updated : bool) (now : Z) : option (result t) :=
  let dag_folder :=
    if opt_str_truthy dag_folder then default "" dag_folder
    else DagBag.dag_folder self in
  (* Used to store stats around DagBag processing *)
  let stats : list FileLoadStat := [] in
  if bool_decide (is_Some (os_files os !! dag_folder)) then
    '(_, self) ← process_file os self (Some dag_folder) only_if_updated true now;
    Some (Ok (set_dagbag_stats stats self))
  else if os_isdir os dag_folder then
    r ← collect_walk os only_if_updated now (os_walk os dag_folder) [] stats self;
    match r with
    | Raise e => Some (Raise e)
    | Ok (stats, self) => Some (Ok (set_dagbag_stats stats self))
    end
  else Some (Ok (set_dagbag_stats stats self)).

End WithSettings.

End DagBag.

(** ** dag.py: the static queries of DAG *)

Module DagQuery.

(** SQL's [col IN (values)] on the nullable column [state]: a NULL state
    matches nothing, and neither does a NULL among the values. *)
Definition state_in (col : State.t) (values : list State.t) : Prop :=
  col ≠ State.NONE ∧ col ∈ values.

#[global] Instance state_in_dec col values : Decision (state_in col values).
Proof. unfold state_in. apply _. Defined.

(** [DAG.get_num_task_instances]. *)
Definition get_num_task_instances (dag_id : string) (task_ids : list string)
    (states : option (list State.t)) (session : Session.t) : Z :=
  let qry :=
    filter (fun ti => TaskInstance.dag_id ti = dag_id
                      ∧ TaskInstance.task_id ti ∈ task_ids)
           (Session.task_instances session) in
  let qry :=
    match states with
    | Some states =>
        if bool_decide (State.NONE ∈ states) then
          filter (fun ti => state_in (TaskInstance.state ti) states
                            ∨ TaskInstance.state ti = State.NONE) qry
        else
          filter (fun ti => state_in (TaskInstance.state ti) states) qry
    | None => qry
    end in
  Z.of_nat (length qry).

(** [DAG.deactivate_unknown_dags]: the rows that the query returns are
    rows of the session, so the assignment is what [session.merge]
    stores. *)
Definition deactivate_unknown_dags (active_dag_ids : list string)
    (session : Session.t) : Session.t :=
  if Nat.eqb (length active_dag_ids) 0 then session
  else
    Session.set_dag_models
      (map (fun dag =>
              if bool_decide (DagModel.dag_id dag ∉ active_dag_ids)
              then DagModel.mk (DagModel.dag_id dag) (DagModel.is_paused dag)
                     (DagModel.is_subdag dag) false (DagModel.fileloc dag)
              else dag)
           (Session.dag_models session))
      session.

End DagQuery.

(** ** Specification-side counts and concrete collaborators

    The definitions below are not translations of source functions: they
    state what the specification counts, and give concrete values on which
    the embedded functions are run. *)

(** The number of instances in state [st] bound to the pool named as
    [self], in the words of the specification (section 3, Pool). *)
Definition spec_bound_count (st : State.t) (self : PoolRow.t)
    (session : Session.t) : Z :=
  Z.of_nat (length
    (filter (fun ti => TaskInstance.pool ti = PoolRow.pool self
                       ∧ TaskInstance.state ti = st)
       (Session.task_instances session))).

Definition empty_session : Session.t :=
  Session.mk [] [] [] [] [] [] 1.

(** An instance of the DAG ["etl"] at logical time 0. *)
Definition example_ti (task : string) (st : State.t) (job : option Z)
    (pool : option string) : TaskInstance.t :=
  TaskInstance.mk "etl" task 0 st 1 0 job pool.

(** Three RUNNING and one QUEUED instance bound to the pool ["db"], among
    instances in other states, of another pool and of no pool. *)
Definition example_pool_session : Session.t :=
  Session.set_task_instances
    [ example_ti "a" State.RUNNING (Some 1%Z) (Some "db");
      example_ti "b" State.SUCCESS None (Some "db");
      example_ti "c" State.RUNNING (Some 2%Z) (Some "db");
      example_ti "d" State.QUEUED None (Some "db");
      example_ti "e" State.RUNNING (Some 3%Z) (Some "web");
      example_ti "f" State.RUNNING (Some 4%Z) (Some "db");
      example_ti "g" State.QUEUED None None ]
    empty_session.

Definition example_pool (slots : Z) : PoolRow.t :=
  PoolRow.mk 1 (Some "db") slots "database connections".

(** A codec whose values are the stored bytes themselves; it never fails. *)
Definition bytes_codec : XComCodec bytes :=
  {| pickle_dumps := Ok;
     pickle_loads := Ok;
     json_dumps_utf8 := Ok;
     json_loads_utf8 := Ok;
     conf_enable_xcom_pickling := false |}.

(** An [xcom] table with two entries of the scope (["rows"], 7, ["load"],
    ["etl"]) and one entry of another task. *)
Definition example_xcom_session : Session.t :=
  Session.set_xcoms
    [ XComRow.mk 1 (Some "rows") [Byte.x0a] 10 7 "load" "etl";
      XComRow.mk 2 (Some "rows") [Byte.x0b] 20 7 "extract" "etl";
      XComRow.mk 3 (Some "rows") [Byte.x0c] 30 7 "load" "etl" ]
    4 empty_session.

(** An [xcom] table of 150 entries, one per logical time 0..149. *)
Definition example_xcom_many : Session.t :=
  Session.set_xcoms
    (map (fun i : nat =>
            XComRow.mk (Z.of_nat i) (Some "rows") [] 0 (Z.of_nat i) "load" "etl")
         (seq 0 150))
    150 empty_session.

(** *** Clearing instances, in the words of the specification *)

(** The task that owns the instance, when it is found in the supplied DAG. *)
Definition spec_owning_task (dag : option DAG.t) (ti : TaskInstance.t)
  : option DAG.BaseOperator :=
  match dag with
  | Some d => DAG.dict_get (DAG.task_dict d) (TaskInstance.task_id ti)
  | None => None
  end.

(** The recomputed [max_tries] (section 4.2). *)
Definition spec_max_tries (dag : option DAG.t) (ti : TaskInstance.t) : Z :=
  match spec_owning_task dag ti with
  | Some task => (TaskInstance.try_number ti + DAG.retries task - 1)%Z
  | None => Z.max (TaskInstance.max_tries ti) (TaskInstance.try_number ti - 1)
  end.

(** The clearing rule as the specification words it: a RUNNING instance
    with a bound job becomes SHUTDOWN, every other instance is reset to
    NONE with the recomputed [max_tries]. *)
Definition spec_cleared_as_stated (dag : option DAG.t) (ti ti' : TaskInstance.t)
  : Prop :=
  if decide (TaskInstance.state ti = State.RUNNING
             ∧ is_Some (TaskInstance.job_id ti))
  then TaskInstance.state ti' = State.SHUTDOWN
  else TaskInstance.state ti' = State.NONE
       ∧ TaskInstance.max_tries ti' = spec_max_tries dag ti.

(** The job id that a RUNNING instance is bound to: set and not 0. *)
Definition bound_job (ti : TaskInstance.t) : option Z :=
  match TaskInstance.job_id ti with
  | Some j => if Z.eqb j 0 then None else Some j
  | None => None
  end.

(** The clearing rule with the RUNNING instances without a job left as
    they are. *)
Definition cleared (dag : option DAG.t) (ti : TaskInstance.t) : TaskInstance.t :=
  if decide (TaskInstance.state ti = State.RUNNING) then
    match bound_job ti with
    | Some _ => TaskInstance.set_state State.SHUTDOWN ti
    | None => ti
    end
  else
    TaskInstance.set_state State.NONE
      (TaskInstance.set_max_tries (spec_max_tries dag ti) ti).

(** The job ids collected from a list of instances, in order. *)
Definition collected_job_ids (tis : list TaskInstance.t) : list Z :=
  flat_map (fun ti =>
              if decide (TaskInstance.state ti = State.RUNNING)
              then option_list (bound_job ti) else [])
           tis.

(** Every key of [task_dict] is the identifier of the task stored under it,
    as [add_task] and [sub_dag] build the dict. *)
Definition keys_are_task_ids (d : DAG.t) : Prop :=
  Forall (fun kv => DAG.task_id (snd kv) = fst kv) (DAG.task_dict d).

(** *** Concrete DAGs and instances *)

Definition utc : tzinfo := mk_tzinfo (fun _ => 0%Z) (fun naive => naive).

Definition one_day : Z := 86400000000.

(** The chain A -> B -> C; every task has retries = 3. *)
Definition chain_dag : DAG.t :=
  DAG.mk "chain"
    [ ("A", DAG.mkBaseOperator "A" [] ["B"] 3 None);
      ("B", DAG.mkBaseOperator "B" ["A"] ["C"] 3 None);
      ("C", DAG.mkBaseOperator "C" ["B"] [] 3 None) ]
    false (Timedelta one_day) utc "/dags/chain.py" "/dags/chain.py" false None 0.

(** A RUNNING instance of task A bound to job [job], and a FAILED instance
    of task B at its second try. *)
Definition running_ti (job : option Z) : TaskInstance.t :=
  TaskInstance.mk "chain" "A" 0 State.RUNNING 1 0 job None.

Definition failed_ti : TaskInstance.t :=
  TaskInstance.mk "chain" "B" 0 State.FAILED 2 0 None None.

Definition chain_session (job : Z) : Session.t :=
  Session.mk [running_ti (Some job); failed_ti]
    [BaseJob.mk job State.RUNNING] [] [] [] [] 1.

(** *** The graph of a DAG, in the words of the specification *)

(** [u] is an upstream task of [t]: the task registered as [t] lists [u].
    The downstream lists mirror the upstream lists (the relation is set on
    both ends at once), and [topological_sort] reads the upstream ones. *)
Definition upstream_edge (dag : DAG.t) (u t : string) : Prop :=
  exists task, (t, task) ∈ DAG.task_dict dag ∧ u ∈ DAG._upstream_task_ids task.

Definition has_cycle (dag : DAG.t) : Prop :=
  exists t, tc (upstream_edge dag) t t.

Definition acyclic (dag : DAG.t) : Prop :=
  forall t, ¬ tc (upstream_edge dag) t t.

(** Every upstream identifier names a task of the DAG. *)
Definition edges_closed (dag : DAG.t) : Prop :=
  Forall (fun kv => Forall (fun u => u ∈ DAG.task_ids dag)
                      (DAG._upstream_task_ids (snd kv)))
         (DAG.task_dict dag).

(** What the construction of a DAG guarantees: [task_dict] is a dict (its
    keys are distinct), a task is stored under its identifier, and tasks
    are related to tasks of the same DAG only. *)
Definition wf_dag (dag : DAG.t) : Prop :=
  NoDup (DAG.task_ids dag) ∧ keys_are_task_ids dag ∧ edges_closed dag.

#[global] Instance wf_dag_dec (dag : DAG.t) : Decision (wf_dag dag).
Proof. unfold wf_dag, keys_are_task_ids, edges_closed. apply _. Defined.

(** Every task of [sorted] comes after all of its upstream tasks. *)
Definition after_upstream (sorted : list DAG.BaseOperator) : Prop :=
  forall i t u, sorted !! i = Some t -> u ∈ DAG._upstream_task_ids t ->
    exists j tu, j < i ∧ sorted !! j = Some tu ∧ DAG.task_id tu = u.

(** The invariant of the loop of [topological_sort]: the two lists hold
    the tasks of the DAG, and the sorted ones are in dependency order. *)
Definition sort_invariant (dag : DAG.t)
    (graph_unsorted graph_sorted : list DAG.BaseOperator) : Prop :=
  graph_sorted ++ graph_unsorted ≡ₚ DAG.tasks dag ∧ after_upstream graph_sorted.

(** The two-task loop X <-> Y followed by Z. *)
Definition cyclic_dag : DAG.t :=
  DAG.mk "loop"
    [ ("X", DAG.mkBaseOperator "X" ["Y"] ["Y"; "Z"] 0 None);
      ("Y", DAG.mkBaseOperator "Y" ["X"] ["X"] 0 None);
      ("Z", DAG.mkBaseOperator "Z" ["X"] [] 0 None) ]
    false (Timedelta one_day) utc "/dags/loop.py" "/dags/loop.py" false None 0.

(** A matcher for patterns of the form [^name$]: the pattern selects the
    task called [name] and no other. *)
Definition exact_regex : Regex :=
  {| re_findall := fun pattern s => bool_decide (pattern = "^" +:+ s +:+ "$") |}.

(** *** Schedules, in the words of the specification *)

(** The wall clock time [naive] is a firing of the cron expression: it is
    the firing that follows the firing before it. *)
Definition cron_fires `{Croniter} (expr : string) (naive : Z) : Prop :=
  cron_get_next expr (cron_get_prev expr naive) = naive.

(** The instant [t] is a valid schedule firing of the DAG: any instant for
    a fixed duration, an instant whose wall clock time in the zone of the
    DAG is a firing of the expression for a cron interval. *)
Definition valid_firing `{Croniter} (dag : DAG.t) (t : Z) : Prop :=
  match DAG._schedule_interval dag with
  | CronExpr expr => cron_fires expr (make_naive t (DAG.timezone dag))
  | Timedelta _ => True
  | OtherInterval => False
  end.

(** The zone maps the wall clock time [naive] to an instant at which the
    wall clock shows [naive] again: [naive] is not in a skipped hour. *)
Definition wall_clock_exists (tz : tzinfo) (naive : Z) : Prop :=
  make_naive (make_aware_utc naive tz) tz = naive.

(** The instant [t] is the one that the zone assigns to its own wall clock
    time: [t] is not the first pass of a repeated hour. *)
Definition instant_of_its_wall_clock (tz : tzinfo) (t : Z) : Prop :=
  make_aware_utc (make_naive t tz) tz = t.

(** *** A zone with daylight saving and an hourly cron *)

Definition hour : Z := 3600000000.

(** 2018-10-28T01:00:00Z, the end of summer time in Amsterdam. *)
Definition amsterdam_fall_back : Z := 63676285200000000.

(** Europe/Amsterdam in October 2018: two hours ahead of UTC before the
    transition, one hour after it.  The wall clock hour from 02:00 to 03:00
    occurs twice; as pytz and pendulum do, [localize] reads a time of that
    hour as standard time. *)
Definition amsterdam : tzinfo :=
  mk_tzinfo
    (fun utc => if bool_decide (utc < amsterdam_fall_back)%Z
                then (2 * hour)%Z else hour)
    (fun naive => if bool_decide (naive < amsterdam_fall_back + hour)%Z
                  then (naive - 2 * hour)%Z else (naive - hour)%Z).

(** The expression ["0 * * * *"]: the firings are the full hours. *)
Definition hourly_croniter : Croniter :=
  {| cron_get_next := fun _ naive => ((naive / hour + 1) * hour)%Z;
     cron_get_prev := fun _ naive => (((naive - 1) / hour) * hour)%Z |}.

Definition hourly_dag : DAG.t :=
  DAG.mk "hourly" [] false (CronExpr "0 * * * *") amsterdam
    "/dags/hourly.py" "/dags/hourly.py" false None 0.

(** 2018-10-28T00:00:00Z, which is 02:00 summer time in Amsterdam. *)
Definition two_oclock_summer_time : Z := (amsterdam_fall_back - hour)%Z.

(** *** Loading a folder, in the words of the specification *)

(** [self'] is [self] with further DAGs bagged: nothing else differs. *)
Definition bag_extends (self self' : DagBag.t) : Prop :=
  DagBag.import_errors self' = DagBag.import_errors self
  ∧ DagBag.file_last_changed self' = DagBag.file_last_changed self
  ∧ DagBag.dag_folder self' = DagBag.dag_folder self
  ∧ DagBag.dagbag_stats self' = DagBag.dagbag_stats self
  ∧ dom (DagBag.dags self) ⊆ dom (DagBag.dags self').

(** The file at [path] is a Python source, modified at [mtime], that holds
    both markers and whose import gives [outcome]. *)
Definition python_source (os : OS) (path : string) (mtime : Z)
    (outcome : import_outcome) : Prop :=
  exists file,
    os_files os !! path = Some file
    ∧ f_mtime file = Some mtime
    ∧ f_is_zipfile file = false
    ∧ f_markers file = true
    ∧ f_load_source file = outcome
    ∧ os_file_ext os path = ".py".

(** What a visit of [collect_dags] to the Python source at [path] does to
    the bag: nothing when the recorded modification time is the one on
    disk; otherwise the time is recorded, and either the message of the
    failed import is stored under [path] or the DAGs of the module are
    bagged. *)
Definition visited (path : string) (mtime : Z) (outcome : import_outcome)
    (self self' : DagBag.t) : Prop :=
  if decide (DagBag.file_last_changed self !! path = Some mtime) then self' = self
  else
    DagBag.file_last_changed self'
    = <[path := mtime]> (DagBag.file_last_changed self)
    ∧ match outcome with
      | ImportRaises msg =>
          DagBag.import_errors self' = <[path := msg]> (DagBag.import_errors self)
          ∧ DagBag.dags self' = DagBag.dags self
      | Imported ds =>
          DagBag.import_errors self' = DagBag.import_errors self
          ∧ dom (DagBag.dags self) ⊆ dom (DagBag.dags self')
          ∧ forall d, d ∈ ds -> DAG.dag_id d ∈ dom (DagBag.dags self')
      end.

(** [folder] is a directory that holds the two files [f1] and [f2], listed
    in this order, and nothing else. *)
Definition two_file_folder (os : OS) (folder f1 f2 : string) : Prop :=
  os_files os !! folder = None
  ∧ str_truthy folder = true
  ∧ os_isdir os folder = true
  ∧ os_walk os folder = [(folder, [f1; f2])]
  ∧ f1 ≠ ".airflowignore" ∧ f2 ≠ ".airflowignore"
  ∧ os_path_join os folder f1 ≠ os_path_join os folder f2.

(** *** A concrete folder *)

Definition posix_join (root f : string) : string := root +:+ "/" +:+ f.

(** The part of a name from its last dot on. *)
Fixpoint last_dot_suffix (s : string) : option string :=
  match s with
  | EmptyString => None
  | String c s' =>
      match last_dot_suffix s' with
      | Some e => Some e
      | None => if Ascii.eqb c (Ascii.ascii_of_nat 46) then Some s else None
      end
  end.

Definition posix_ext (path : string) : string :=
  default "" (last_dot_suffix path).

Definition source_file (mtime : Z) (outcome : import_outcome) : file_info :=
  mk_file (Some mtime) false true [] outcome [].

Definition fixed_dag : DAG.t :=
  DAG.mk "fixed" [("only", DAG.mkBaseOperator "only" [] [] 0 None)]
    false (Timedelta one_day) utc "" "" false None 0.

(** The folder /dags with good.py, which defines the chain, and bad.py,
    which raises when it is imported. *)
Definition broken_folder : OS :=
  mk_os
    (<["/dags/good.py" := source_file 100 (Imported [chain_dag])]>
       (<["/dags/bad.py" := source_file 200
            (ImportRaises "name undefined_name is not defined")]> ∅))
    (fun p => bool_decide (p = "/dags"))
    (fun top => if bool_decide (top = "/dags")
                then [("/dags", ["good.py"; "bad.py"])] else [])
    posix_join posix_ext.

(** The same folder after bad.py was rewritten to define a DAG. *)
Definition repaired_folder : OS :=
  mk_os
    (<["/dags/good.py" := source_file 100 (Imported [chain_dag])]>
       (<["/dags/bad.py" := source_file 300 (Imported [fixed_dag])]> ∅))
    (fun p => bool_decide (p = "/dags"))
    (fun top => if bool_decide (top = "/dags")
                then [("/dags", ["good.py"; "bad.py"])] else [])
    posix_join posix_ext.

Definition no_policy : Settings.
Proof. refine {| policy := fun task => task |}. reflexivity. Defined.

(** The chain A -> B -> C registered in the order C, B, A. *)
Definition reversed_chain_dag : DAG.t :=
  DAG.mk "reversed"
    [ ("C", DAG.mkBaseOperator "C" ["B"] [] 0 None);
      ("B", DAG.mkBaseOperator "B" ["A"] ["C"] 0 None);
      ("A", DAG.mkBaseOperator "A" [] ["B"] 0 None) ]
    false (Timedelta one_day) utc "" "" false None 0.

(** A source S followed by the loop X <-> Y. *)
Definition late_cycle_dag : DAG.t :=
  DAG.mk "late"
    [ ("X", DAG.mkBaseOperator "X" ["S"; "Y"] ["Y"] 0 None);
      ("S", DAG.mkBaseOperator "S" [] ["X"] 0 None);
      ("Y", DAG.mkBaseOperator "Y" ["X"] ["X"] 0 None) ]
    false (Timedelta one_day) utc "" "" false None 0.

(** A store whose [LIKE] has no wildcard in the patterns it is given. *)
Definition plain_like : SqlLike :=
  {| sql_like := fun s pattern => bool_decide (s = pattern) |}.

(** A user who answers yes. *)
Definition yes_console : Console :=
  {| ask_yesno := fun _ => true |}.

(** *** Further vocabulary for clearing *)

(** The primary key of a task instance. *)
Definition ti_key (ti : TaskInstance.t) : string * string * Z :=
  (TaskInstance.dag_id ti, TaskInstance.task_id ti, TaskInstance.execution_date ti).

(** The [task_instance] rows after the instances of [tis] that are not
    RUNNING were reset and merged, one after the other. *)
Definition merged_rows (dag : option DAG.t) (tis rows : list TaskInstance.t)
  : list TaskInstance.t :=
  fold_left (fun rows ti =>
               if decide (TaskInstance.state ti = State.RUNNING) then rows
               else Session.merge_ti (cleared dag ti) rows)
            tis rows.

(** A DagRun that the filter of [clear_task_instances] selects: its dag_id
    is the dag_id of an instance and its execution_date is the
    execution_date of an instance, not necessarily the same one. *)
Definition run_selected (tis : list TaskInstance.t) (dr : DagRun.t) : Prop :=
  (exists ti, ti ∈ tis ∧ TaskInstance.dag_id ti = DagRun.dag_id dr)
  ∧ (exists ti, ti ∈ tis ∧ TaskInstance.execution_date ti = DagRun.execution_date dr).

(** No task of the DAG has a negative retry count. *)
Definition retries_nonnegative (dag : option DAG.t) : Prop :=
  forall d, dag = Some d ->
    Forall (fun kv => (0 <= DAG.retries (snd kv))%Z) (DAG.task_dict d).

(** Two instances of one run of the chain, and a run of another day. *)
Definition chain_runs_session : Session.t :=
  Session.mk
    [ running_ti (Some 7%Z); failed_ti;
      TaskInstance.mk "chain" "C" 0 State.SUCCESS 1 0 None None ]
    [BaseJob.mk 7 State.RUNNING; BaseJob.mk 8 State.RUNNING]
    [ DagRun.mk "chain" 0 "scheduled__0" State.FAILED false (Some 1%Z);
      DagRun.mk "chain" one_day "scheduled__1" State.FAILED false (Some 2%Z);
      DagRun.mk "other" 0 "scheduled__0" State.SUCCESS false (Some 3%Z) ]
    [] [] [] 1.

(** A dict in which a task is stored under a key that is not its id. *)
Definition miskeyed_dag : DAG.t :=
  DAG.set_task_dict [("alias", DAG.mkBaseOperator "A" [] [] 0 None)] chain_dag.

(** *** Further vocabulary for sub-DAGs *)

(** Every downstream identifier names a task of the DAG. *)
Definition downstream_closed (dag : DAG.t) : Prop :=
  Forall (fun kv => Forall (fun u => u ∈ DAG.task_ids dag)
                      (DAG._downstream_task_ids (snd kv)))
         (DAG.task_dict dag).

#[global] Instance downstream_closed_dec (dag : DAG.t) :
  Decision (downstream_closed dag).
Proof. unfold downstream_closed. apply _. Defined.

(** The task [t'] of a sub-DAG with task ids [keep] is the task [t] with
    its relatives restricted to [keep]. *)
Definition pruned (keep : list string) (t t' : DAG.BaseOperator) : Prop :=
  t' = DAG.set_relatives
         (SubDag.only_ids keep (DAG._upstream_task_ids t))
         (SubDag.only_ids keep (DAG._downstream_task_ids t)) t.

(** An optional identifier of [get_one] as the [task_ids] or [dag_ids]
    argument of [get_many]. *)
Definition as_ids (o : option string) : ids_arg :=
  match o with
  | None => NoIds
  | Some s => OneId s
  end.

(** The instants [start], [start + delta], ... up to [end_date]. *)
Definition every (delta start end_date : Z) : list Z :=
  map (fun k : nat => (start + Z.of_nat k * delta)%Z)
      (seq 0 (Z.to_nat ((end_date - start) / delta + 1))).

(** A DAG that runs every [delta] microseconds. *)
Definition timedelta_dag (delta : Z) (is_subdag : bool) : DAG.t :=
  DAG.mk "every" [] false (Timedelta delta) utc "/dags/every.py" "/dags/every.py"
    is_subdag None 0.

(** *** The stats table *)

(** The primary key of a row of [dag_stats]. *)
Definition stat_key (r : DagStatRow.t) : string * State.t :=
  (DagStatRow.dag_id r, DagStatRow.state r).

(** The number of runs of [dag_id] in [state]. *)
Definition run_count (session : Session.t) (dag_id : string) (state : State.t) : Z :=
  Z.of_nat (length
    (filter (fun dr => DagRun.dag_id dr = dag_id ∧ DagRun.state dr = state)
            (Session.dag_runs session))).

(** [DagStat.update] refreshes [dag_id]: the DAG has a stat row that the
    arguments select. *)
Definition refreshed (dag_ids : list string) (dirty_only : bool)
    (session : Session.t) (dag_id : string) : Prop :=
  exists r, r ∈ Session.dag_stats session
    ∧ DagStatRow.dag_id r = dag_id
    ∧ (dag_ids = [] ∨ dag_id ∈ dag_ids)
    ∧ (dirty_only = true -> DagStatRow.dirty r = true).

(** A stats table with a stale dirty row of the DAG ["etl"] and a clean row
    of the DAG ["web"], and two successful runs of ["etl"]. *)
Definition example_stat_session : Session.t :=
  Session.mk []
    []
    [ DagRun.mk "etl" 1 "scheduled__1" State.SUCCESS false None;
      DagRun.mk "etl" 2 "scheduled__2" State.SUCCESS false None;
      DagRun.mk "web" 1 "scheduled__1" State.FAILED false None ]
    []
    [ DagStatRow.mk "etl" State.SUCCESS 0 true;
      DagStatRow.mk "web" State.FAILED 7 false ]
    [] 1.

(** A user who answers no. *)
Definition no_console : Console :=
  {| ask_yesno := fun _ => false |}.

(** *** What loading may change in a bag *)

(** Nothing is removed from [self]: every DAG id, every path with an
    import error and every path with a recorded modification time is still
    there in [self'], and the folder is the same. *)
Definition bag_grows (self self' : DagBag.t) : Prop :=
  dom (DagBag.dags self) ⊆ dom (DagBag.dags self')
  ∧ dom (DagBag.import_errors self) ⊆ dom (DagBag.import_errors self')
  ∧ dom (DagBag.file_last_changed self) ⊆ dom (DagBag.file_last_changed self')
  ∧ DagBag.dag_folder self' = DagBag.dag_folder self.

(** The import error and the modification time recorded for a path other
    than [path] are the same in [self'] as in [self], and so are the
    statistics. *)
Definition bag_touches_only (path : string) (self self' : DagBag.t) : Prop :=
  DagBag.dagbag_stats self' = DagBag.dagbag_stats self
  ∧ forall p, p ≠ path ->
      DagBag.import_errors self' !! p = DagBag.import_errors self !! p
      ∧ DagBag.file_last_changed self' !! p = DagBag.file_last_changed self !! p.

(** What loading the file at [path] may do to a bag. *)
Definition loaded (path : string) (self self' : DagBag.t) : Prop :=
  bag_grows self self' ∧ bag_touches_only path self self'.

(** An archive with a module that raises when it is imported and a module
    that defines the chain. *)
Definition example_zip : OS :=
  mk_os
    (<["/dags/pack.zip" :=
         mk_file (Some 400%Z) true false []
           (ImportRaises "not a source")
           [ mk_zip_member "" "broken" ".py" true (ImportRaises "boom");
             mk_zip_member "" "chain" ".py" true (Imported [chain_dag]);
             mk_zip_member "docs" "docs/readme" ".txt" false (Imported []) ]]> ∅)
    (fun p => bool_decide (p = "/dags"))
    (fun top => if bool_decide (top = "/dags")
                then [("/dags", ["pack.zip"])] else [])
    posix_join posix_ext.

(** The state [st] passes the optional list of states; Python's None is
    the state [NONE]. *)
Definition state_listed (states : option (list State.t)) (st : State.t) : Prop :=
  match states with
  | Some l => st ∈ l
  | None => True
  end.

#[global] Instance state_listed_dec states st : Decision (state_listed states st).
Proof. destruct states; unfold state_listed; apply _. Defined.

(** A table of DAG records: two active ones and an inactive one. *)
Definition example_models_session : Session.t :=
  Session.set_dag_models
    [ DagModel.mk "etl" false false true "/dags/etl.py";
      DagModel.mk "web" false false true "/dags/web.py";
      DagModel.mk "old" true false false "/dags/old.py" ]
    empty_session.

(** The downstream lists mirror the upstream lists: a task lists as
    downstream only tasks of the DAG that list it as upstream. *)
Definition mirrored (dag : DAG.t) : Prop :=
  forall k t d, (k, t) ∈ DAG.task_dict dag -> d ∈ DAG._downstream_task_ids t ->
    upstream_edge dag (DAG.task_id t) d.

(* ===================================================================== *)
(** * Part II: statements                                                 *)
(* ===================================================================== *)

(** ** Generic facts about the helpers *)

Lemma mapM_Ok_Forall2 {A B : Type} (f : A -> result B) (l : list A) (l' : list B) :
  mapM f l = Ok l' -> Forall2 (fun a b => f a = Ok b) l l'.
Proof.
  revert l'. induction l as [|a l IH]; intros l' Hm; simpl in Hm.
  - injection Hm as <-. constructor.
  - destruct (f a) as [b|e] eqn:Hfa; simpl in Hm; [|discriminate].
    destruct (mapM f l) as [bs|e] eqn:Hl; simpl in Hm; [|discriminate].
    injection Hm as <-. constructor; [exact Hfa | apply IH; reflexivity].
Qed.

Lemma mapM_total {A B : Type} (f : A -> result B) (l : list A) :
  Forall (fun a => exists b, f a = Ok b) l -> exists l', mapM f l = Ok l'.
Proof.
  induction 1 as [|a l [b Hb] _ [bs Hbs]]; simpl.
  - eexists; reflexivity.
  - rewrite Hb; simpl. rewrite Hbs; simpl. eexists; reflexivity.
Qed.

Lemma sql_eq_true {A : Type} `{EqDecision A} (col v : option A) :
  sql_eq col v = true <-> col = v.
Proof. unfold sql_eq. apply bool_decide_eq_true. Qed.

(** ** pool.py *)

Lemma pool_count_nested (st : State.t) (self : PoolRow.t) (l : list TaskInstance.t) :
  length (filter (fun ti => TaskInstance.state ti = st)
            (filter (fun ti => sql_eq (TaskInstance.pool ti) (PoolRow.pool self) = true) l))
  = length (filter (fun ti => TaskInstance.pool ti = PoolRow.pool self
                              ∧ TaskInstance.state ti = st) l).
Proof.
  induction l as [|ti l IH]; [reflexivity|].
  rewrite !filter_cons.
  destruct (decide (sql_eq (TaskInstance.pool ti) (PoolRow.pool self) = true)) as [Hp|Hp].
  - apply sql_eq_true in Hp. rewrite filter_cons.
    destruct (decide (TaskInstance.state ti = st)) as [Hs|Hs].
    + rewrite decide_True by (split; assumption). simpl. f_equal. exact IH.
    + rewrite decide_False by (intros [_ ?]; contradiction). exact IH.
  - rewrite decide_False; [exact IH|].
    intros [Hp' _]. apply Hp. apply sql_eq_true. exact Hp'.
Qed.

Lemma used_slots_count self session :
  Pool.used_slots self session = spec_bound_count State.RUNNING self session.
Proof. unfold Pool.used_slots, spec_bound_count. by rewrite pool_count_nested. Qed.

Lemma queued_slots_count self session :
  Pool.queued_slots self session = spec_bound_count State.QUEUED self session.
Proof. unfold Pool.queued_slots, spec_bound_count. by rewrite pool_count_nested. Qed.

(** C6. For every pool, [open_slots] is [slots] minus the number of RUNNING
    instances bound to the pool's name minus the number of QUEUED instances
    bound to it; nothing clamps the difference, so it may be negative.  With
    slots = 5, three RUNNING and one QUEUED bound instances it is 1, and
    with slots = 2 and the same usage it is -2. *)
Theorem open_slots_is_slots_minus_running_minus_queued
    (self : PoolRow.t) (session : Session.t) :
  let running := spec_bound_count State.RUNNING self session in
  let queued := spec_bound_count State.QUEUED self session in
  Pool.open_slots self session = (PoolRow.slots self - running - queued)%Z
  ∧ (PoolRow.slots self = 5%Z -> running = 3%Z -> queued = 1%Z ->
     Pool.open_slots self session = 1%Z)
  ∧ (PoolRow.slots self = 2%Z -> running = 3%Z -> queued = 1%Z ->
     Pool.open_slots self session = (-2)%Z
     ∧ (Pool.open_slots self session < 0)%Z).
Proof.
  intros running queued.
  assert (Hopen : Pool.open_slots self session
                  = (PoolRow.slots self - running - queued)%Z).
  { unfold Pool.open_slots. by rewrite used_slots_count, queued_slots_count. }
  split; [exact Hopen|]. rewrite Hopen. split; intros; lia.
Qed.

Lemma open_slots_is_slots_minus_running_minus_queued_witness :
  spec_bound_count State.RUNNING (example_pool 5) example_pool_session = 3%Z
  ∧ spec_bound_count State.QUEUED (example_pool 5) example_pool_session = 1%Z
  ∧ Pool.open_slots (example_pool 5) example_pool_session = 1%Z
  ∧ Pool.open_slots (example_pool 2) example_pool_session = (-2)%Z.
Proof.
  split; [reflexivity|]. split; [reflexivity|]. split.
  - apply (open_slots_is_slots_minus_running_minus_queued
             (example_pool 5) example_pool_session); reflexivity.
  - apply (open_slots_is_slots_minus_running_minus_queued
             (example_pool 2) example_pool_session); reflexivity.
Defined.

(** ** x_com.py *)

Section XComFacts.
Context {V : Type} `{XComCodec V}.

Lemma in_scope_new_row key e t d i b now :
  XCom.in_scope key e t d (XComRow.mk i key b now e t d) = true.
Proof.
  unfold XCom.in_scope, sql_eq; simpl.
  rewrite !bool_decide_eq_true_2 by reflexivity. reflexivity.
Qed.

(** What one successful call of [set] does to the [xcom] table. *)
Lemma set_Ok_inv key (v : V) e t d pick now s s' :
  XCom.set key v e t d pick now s = Ok s' ->
  exists b, XCom.serialize pick v = Ok b
    ∧ Session.xcoms s' =
        filter (fun r => XCom.in_scope key e t d r = false) (Session.xcoms s)
        ++ [XComRow.mk (Session.xcom_seq s) key b now e t d].
Proof.
  unfold XCom.set. destruct (XCom.serialize pick v) as [b|err]; simpl; [|discriminate].
  intros [= <-]. exists b. split; reflexivity.
Qed.

Lemma scope_of_kept_and_new key e t d (l : list (XComRow.t bytes)) row :
  XCom.in_scope key e t d row = true ->
  filter (fun r => XCom.in_scope key e t d r = true)
    (filter (fun r => XCom.in_scope key e t d r = false) l ++ [row]) = [row].
Proof.
  intros Hrow. rewrite filter_app.
  assert (Hnil : filter (fun r => XCom.in_scope key e t d r = true)
            (filter (fun r => XCom.in_scope key e t d r = false) l) = []).
  { induction l as [|r l IH]; [reflexivity|].
    rewrite filter_cons. case_decide as Hr; [|exact IH].
    rewrite filter_cons. rewrite decide_False by congruence. exact IH. }
  rewrite Hnil. rewrite filter_cons, decide_True by exact Hrow. reflexivity.
Qed.

Lemma others_of_kept_and_new key e t d (l : list (XComRow.t bytes)) row :
  XCom.in_scope key e t d row = true ->
  filter (fun r => XCom.in_scope key e t d r = false)
    (filter (fun r => XCom.in_scope key e t d r = false) l ++ [row])
  = filter (fun r => XCom.in_scope key e t d r = false) l.
Proof.
  intros Hrow. rewrite filter_app.
  rewrite (filter_cons _ row), decide_False by congruence.
  rewrite filter_nil, app_nil_r.
  induction l as [|r l IH]; [reflexivity|].
  rewrite filter_cons. case_decide as Hr; [|exact IH].
  rewrite filter_cons, decide_True by exact Hr. f_equal. exact IH.
Qed.

(** C7. Two calls of [XCom.set] with the same (dag_id, task_id,
    execution_date, key) scope leave exactly one stored entry of that scope,
    and it holds the serialised second value: each call deletes every entry
    of the scope before it inserts its own, so the first call already leaves
    one entry, and the entries of other scopes are kept as they were. *)
Theorem xcom_set_twice_keeps_only_second
    key (v1 v2 : V) e t d pick1 pick2 now1 now2 (s s1 s2 : Session.t) :
  XCom.set key v1 e t d pick1 now1 s = Ok s1 ->
  XCom.set key v2 e t d pick2 now2 s1 = Ok s2 ->
  let scope := fun r => XCom.in_scope key e t d r = true in
  let others := fun r => XCom.in_scope key e t d r = false in
  (exists row1, filter scope (Session.xcoms s1) = [row1]
     ∧ XCom.serialize pick1 v1 = Ok (XComRow.value row1))
  ∧ (exists row2, filter scope (Session.xcoms s2) = [row2]
     ∧ XCom.serialize pick2 v2 = Ok (XComRow.value row2)
     ∧ XComRow.timestamp row2 = now2)
  ∧ length (filter scope (Session.xcoms s2)) = 1
  ∧ filter others (Session.xcoms s2) = filter others (Session.xcoms s).
Proof.
  intros H1 H2 scope others.
  apply set_Ok_inv in H1 as (b1 & Hb1 & Hx1).
  apply set_Ok_inv in H2 as (b2 & Hb2 & Hx2).
  pose proof (in_scope_new_row key e t d (Session.xcom_seq s) b1 now1) as Hr1.
  pose proof (in_scope_new_row key e t d (Session.xcom_seq s1) b2 now2) as Hr2.
  assert (Hs2 : filter scope (Session.xcoms s2)
                = [XComRow.mk (Session.xcom_seq s1) key b2 now2 e t d]).
  { unfold scope. rewrite Hx2. by apply scope_of_kept_and_new. }
  split; [|split; [|split]].
  - exists (XComRow.mk (Session.xcom_seq s) key b1 now1 e t d).
    split; [|exact Hb1]. unfold scope. rewrite Hx1.
    by apply scope_of_kept_and_new.
  - eexists. split; [exact Hs2|]. split; [exact Hb2 | reflexivity].
  - by rewrite Hs2.
  - unfold others. rewrite Hx2, Hx1.
    rewrite others_of_kept_and_new by exact Hr2.
    by rewrite others_of_kept_and_new by exact Hr1.
Qed.

#[local] Instance order_by_desc_total {W : Type} : Total (@XCom.order_by_desc W).
Proof. intros r1 r2. unfold XCom.order_by_desc. lia. Qed.

#[local] Instance order_by_desc_trans {W : Type} : Transitive (@XCom.order_by_desc W).
Proof. intros r1 r2 r3. unfold XCom.order_by_desc. lia. Qed.

Lemma sql_limit_length {A : Type} (n : nat) (l : list A) :
  length (XCom.sql_limit (Some n) l) ≤ n.
Proof. simpl. rewrite length_take. lia. Qed.

Lemma sql_limit_sorted {A : Type} (R : relation A) limit (l : list A) :
  StronglySorted R l -> StronglySorted R (XCom.sql_limit limit l).
Proof.
  destruct limit as [n|]; simpl; [|done].
  intros Hl. rewrite <- (take_drop n l) in Hl.
  by apply StronglySorted_app_1_l in Hl.
Qed.

Lemma sql_limit_elem_of {A : Type} limit (l : list A) x :
  x ∈ XCom.sql_limit limit l -> x ∈ l.
Proof.
  destruct limit as [n|]; simpl; [|done].
  intros Hx. rewrite <- (take_drop n l). apply elem_of_app. by left.
Qed.

(** Replacing the value of each row keeps the order of the rows. *)
Lemma order_by_desc_Forall2 {W1 W2 : Type}
    (l : list (XComRow.t W1)) (l' : list (XComRow.t W2)) :
  Forall2 (fun a b => XComRow.execution_date b = XComRow.execution_date a
                      ∧ XComRow.timestamp b = XComRow.timestamp a) l l' ->
  StronglySorted XCom.order_by_desc l -> StronglySorted XCom.order_by_desc l'.
Proof.
  induction 1 as [|a b l l' [He Ht] Hall IH]; intros Hs; [constructor|].
  apply StronglySorted_inv in Hs as [Hs Hhd].
  constructor; [by apply IH|].
  clear IH Hs. induction Hall as [|a2 b2 l l' [He2 Ht2] _ IH2]; [constructor|].
  inversion Hhd as [|? ? Ha2 Hrest]; subst.
  constructor; [|by apply IH2].
  unfold XCom.order_by_desc in *. rewrite He, Ht, He2, Ht2. exact Ha2.
Qed.

Lemma get_many_rows_elem_of e key tids dids prior limit s r :
  r ∈ XCom.get_many_query e key tids dids prior limit s ->
  r ∈ Session.xcoms s ∧ XCom.get_many_filter e key tids dids prior r = true.
Proof.
  intros Hr. apply sql_limit_elem_of in Hr.
  rewrite merge_sort_Permutation in Hr.
  by apply list_elem_of_filter in Hr as [? ?].
Qed.

(** C10. Called without a [limit] argument, [get_many] returns at most 100
    entries, ordered by execution_date descending and then timestamp
    descending; every returned entry is a stored entry that passes the
    filters, with its value deserialised.  The call returns whenever the
    stored values deserialise. *)
Theorem xcom_get_many_default_limit_100
    e key tids dids prior pick (session : Session.t) :
  XCom.limit_default = Some 100
  ∧ (forall results : list (XComRow.t V),
       XCom.get_many e key tids dids prior XCom.limit_default pick session
         = Ok results ->
       length results ≤ 100
       ∧ StronglySorted XCom.order_by_desc results
       ∧ (forall r, r ∈ results ->
            exists r0, r0 ∈ Session.xcoms session
              ∧ XCom.get_many_filter e key tids dids prior r0 = true
              ∧ XCom.deserialize pick (XComRow.value r0) = Ok (XComRow.value r)
              ∧ r = XComRow.set_value (XComRow.value r) r0))
  ∧ ((forall r0, r0 ∈ Session.xcoms session ->
        exists v : V, XCom.deserialize pick (XComRow.value r0) = Ok v) ->
     exists results : list (XComRow.t V),
       XCom.get_many e key tids dids prior XCom.limit_default pick session
         = Ok results).
Proof.
  split; [reflexivity|]. split.
  - intros results Hget. unfold XCom.get_many in Hget.
    apply mapM_Ok_Forall2 in Hget.
    set (rows := XCom.get_many_query e key tids dids prior XCom.limit_default session) in *.
    assert (Hrel : Forall2 (fun (a : XComRow.t bytes) (b : XComRow.t V) =>
              XCom.deserialize pick (XComRow.value a) = Ok (XComRow.value b)
              ∧ b = XComRow.set_value (XComRow.value b) a) rows results).
    { eapply Forall2_impl; [exact Hget|]. intros a b Hab. simpl in Hab.
      destruct (XCom.deserialize pick (XComRow.value a)) as [v|err]; simpl in Hab;
        [|discriminate].
      injection Hab as <-. split; reflexivity. }
    split; [|split].
    + rewrite <- (Forall2_length _ _ _ Hrel). apply sql_limit_length.
    + apply (order_by_desc_Forall2 rows).
      * eapply Forall2_impl; [exact Hrel|]. intros a b [_ ->]. split; reflexivity.
      * apply sql_limit_sorted. apply StronglySorted_merge_sort; apply _.
    + intros r Hr.
      apply list_elem_of_lookup in Hr as [i Hi].
      destruct (Forall2_lookup_r _ _ _ _ _ Hrel Hi) as (r0 & Hr0 & Hd & Heq).
      exists r0. apply list_elem_of_lookup_2 in Hr0.
      apply get_many_rows_elem_of in Hr0 as [Hin Hf]. done.
  - intros Hall. unfold XCom.get_many. apply mapM_total.
    apply Forall_forall. intros r0 Hr0.
    apply get_many_rows_elem_of in Hr0 as [Hin _].
    destruct (Hall r0 Hin) as [v Hv]. exists (XComRow.set_value v r0).
    simpl. rewrite Hv. reflexivity.
Qed.

End XComFacts.

Lemma xcom_set_twice_keeps_only_second_witness :
  exists s1 s2,
    XCom.set (H := bytes_codec) (Some "rows") [Byte.x01] 7 "load" "etl" None 50
      example_xcom_session = Ok s1
    ∧ XCom.set (H := bytes_codec) (Some "rows") [Byte.x02] 7 "load" "etl" None 60
        s1 = Ok s2
    ∧ length (filter (fun r => XCom.in_scope (Some "rows") 7 "load" "etl" r = true)
                (Session.xcoms s2)) = 1.
Proof.
  eexists _, _. split; [reflexivity|]. split; [reflexivity|].
  exact (proj1 (proj2 (proj2
    (xcom_set_twice_keeps_only_second (H := bytes_codec)
       (Some "rows") [Byte.x01] [Byte.x02] 7 "load" "etl" None None 50 60
       example_xcom_session _ _ eq_refl eq_refl)))).
Defined.

Lemma xcom_get_many_default_limit_100_witness :
  length (Session.xcoms example_xcom_many) = 150
  ∧ exists results : list (XComRow.t bytes),
      XCom.get_many (H := bytes_codec) 200 None NoIds NoIds true
        XCom.limit_default None example_xcom_many = Ok results
      ∧ length results ≤ 100.
Proof.
  split; [reflexivity|].
  destruct (proj2 (proj2
    (xcom_get_many_default_limit_100 (H := bytes_codec) 200 None NoIds NoIds true
       None example_xcom_many))
    (fun r0 _ => ex_intro _ (XComRow.value r0) eq_refl)) as [results Hres].
  exists results. split; [exact Hres|].
  exact (proj1 (proj1 (proj2
    (xcom_get_many_default_limit_100 (H := bytes_codec) 200 None NoIds NoIds true
       None example_xcom_many)) results Hres)).
Defined.

(** ** __init__.py: clear_task_instances *)

Lemma dict_get_Some_elem_of {A : Type} (d : list (string * A)) k v :
  DAG.dict_get d k = Some v -> (k, v) ∈ d.
Proof.
  induction d as [|[k' v'] d IH]; simpl; [discriminate|].
  case_decide as Hk.
  - intros [= <-]. subst. apply list_elem_of_here.
  - intros Hg. apply list_elem_of_further. by apply IH.
Qed.

Lemma dict_get_None_iff {A : Type} (d : list (string * A)) k :
  DAG.dict_get d k = None <-> k ∉ map fst d.
Proof.
  induction d as [|[k' v'] d IH]; simpl.
  - split; [intros _; apply not_elem_of_nil | done].
  - rewrite not_elem_of_cons. case_decide as Hk; split.
    + discriminate.
    + intros [Hne _]. congruence.
    + intros Hg. split; [congruence | by apply IH].
    + intros [_ Hn]. by apply IH.
Qed.

Lemma dict_get_is_Some {A : Type} (d : list (string * A)) k :
  is_Some (DAG.dict_get d k) <-> k ∈ map fst d.
Proof.
  destruct (DAG.dict_get d k) as [v|] eqn:Hg.
  - split; [|by eauto]. intros _.
    destruct (decide (k ∈ map fst d)) as [|Hn]; [done|].
    apply dict_get_None_iff in Hn. congruence.
  - apply dict_get_None_iff in Hg. split; [|done].
    intros [? ?]; discriminate.
Qed.

Lemma keys_are_task_ids_map (d : DAG.t) :
  keys_are_task_ids d -> map DAG.task_id (DAG.tasks d) = DAG.task_ids d.
Proof.
  unfold keys_are_task_ids, DAG.tasks, DAG.task_ids.
  induction 1 as [|kv td Hkv _ IH]; simpl; [done|]. by rewrite Hkv, IH.
Qed.

Lemma has_task_dict_get (d : DAG.t) tid :
  keys_are_task_ids d ->
  DAG.has_task d tid = true <-> is_Some (DAG.dict_get (DAG.task_dict d) tid).
Proof.
  intros Hk. unfold DAG.has_task. rewrite bool_decide_eq_true.
  rewrite (keys_are_task_ids_map d Hk). symmetry. apply dict_get_is_Some.
Qed.

(** One iteration of the loop follows the rule [cleared]. *)
Lemma clear_task_instance_cleared dag ti job_ids session :
  (forall d, dag = Some d -> keys_are_task_ids d) ->
  exists session',
    clear_task_instance dag ti job_ids session
    = Ok (cleared dag ti, job_ids ++ collected_job_ids [ti], session')
    ∧ Session.jobs session' = Session.jobs session
    ∧ Session.dag_runs session' = Session.dag_runs session.
Proof.
  intros Hk. unfold clear_task_instance, cleared, collected_job_ids, bound_job.
  simpl. destruct (decide (TaskInstance.state ti = State.RUNNING)) as [Hr|Hr].
  - destruct (TaskInstance.job_id ti) as [j|]; simpl.
    + destruct (Z.eqb j 0); simpl; eexists; rewrite ?app_nil_r; eauto.
    + eexists; rewrite ?app_nil_r; eauto.
  - rewrite app_nil_r. unfold spec_max_tries, spec_owning_task.
    destruct dag as [d|]; [|eexists; simpl; eauto].
    specialize (Hk d eq_refl).
    destruct (DAG.has_task d (TaskInstance.task_id ti)) eqn:Hh.
    + apply (has_task_dict_get d _ Hk) in Hh as [task Ht].
      unfold DAG.get_task. rewrite Ht. simpl. eexists; eauto.
    + assert (Hn : DAG.dict_get (DAG.task_dict d) (TaskInstance.task_id ti) = None).
      { destruct (DAG.dict_get (DAG.task_dict d) (TaskInstance.task_id ti)) eqn:Hg;
          [|done].
        assert (DAG.has_task d (TaskInstance.task_id ti) = true) as Ht
          by (apply (has_task_dict_get d _ Hk); rewrite Hg; eauto).
        congruence. }
      rewrite Hn. simpl. eexists; eauto.
Qed.

Lemma clear_task_instances_loop_cleared dag tis job_ids session :
  (forall d, dag = Some d -> keys_are_task_ids d) ->
  exists session',
    clear_task_instances_loop dag tis job_ids session
    = Ok (map (cleared dag) tis, job_ids ++ collected_job_ids tis, session')
    ∧ Session.jobs session' = Session.jobs session
    ∧ Session.dag_runs session' = Session.dag_runs session.
Proof.
  intros Hk. revert job_ids session.
  induction tis as [|ti tis IH]; intros job_ids session; simpl.
  - exists session. by rewrite app_nil_r.
  - destruct (clear_task_instance_cleared dag ti job_ids session Hk)
      as (s1 & Hc & Hj1 & Hd1).
    destruct (IH (job_ids ++ collected_job_ids [ti]) s1) as (s2 & Hl & Hj2 & Hd2).
    cbn [clear_task_instances_loop]. rewrite Hc. cbn [mbind result_bind].
    rewrite Hl. cbn [mbind result_bind].
    exists s2. split; [|split; congruence].
    unfold collected_job_ids. simpl. by rewrite app_nil_r, app_assoc.
Qed.

Lemma shutdown_jobs_state job_ids jobs job :
  job ∈ shutdown_jobs job_ids jobs -> BaseJob.id job ∈ job_ids ->
  BaseJob.state job = State.SHUTDOWN.
Proof.
  unfold shutdown_jobs. intros Hin Hid.
  apply list_elem_of_fmap in Hin as (job0 & -> & _).
  case_bool_decide as Hm; [done|]. contradiction.
Qed.

Lemma chain_dag_keys : keys_are_task_ids chain_dag.
Proof. repeat constructor. Qed.

Lemma cleared_running_bound dag ti j :
  TaskInstance.state ti = State.RUNNING -> TaskInstance.job_id ti = Some j ->
  j ≠ 0%Z ->
  cleared dag ti = TaskInstance.set_state State.SHUTDOWN ti
  ∧ collected_job_ids [ti] = [j].
Proof.
  intros Hr Hj Hj0. unfold cleared, collected_job_ids, bound_job. simpl.
  rewrite Hj, !decide_True by done.
  destruct (Z.eqb_spec j 0) as [|_]; [contradiction|]. done.
Qed.

(** C1, as the code has it. For every list of distinct instance objects and
    every DAG whose dict keys are its task identifiers, the call returns;
    a RUNNING instance bound to a job (an id that is set and not 0) becomes
    SHUTDOWN and its job id is collected, and the jobs with a collected id
    are shut down; a RUNNING instance without such a job is left as it is;
    every instance in another state is reset to NONE with max_tries =
    try_number + task.retries - 1 when its task is found in the supplied
    DAG and max(max_tries, try_number - 1) otherwise.  On a RUNNING instance
    with job J and a FAILED instance with try_number = 2 whose task has
    retries = 3, the first becomes SHUTDOWN with J collected and the second
    NONE with max_tries = 4. *)
Theorem clear_task_instances_rule
    (tis : list TaskInstance.t) (session : Session.t) (activate_dag_runs : bool)
    (dag : option DAG.t) (now : Z) :
  (forall d, dag = Some d -> keys_are_task_ids d) ->
  (exists session',
     clear_task_instances tis session activate_dag_runs dag now
     = Ok (map (cleared dag) tis, collected_job_ids tis, session')
     ∧ (forall job, job ∈ Session.jobs session' ->
          BaseJob.id job ∈ collected_job_ids tis ->
          BaseJob.state job = State.SHUTDOWN))
  ∧ Forall (fun ti =>
       (TaskInstance.state ti = State.RUNNING ->
        forall j, TaskInstance.job_id ti = Some j -> j ≠ 0%Z ->
          cleared dag ti = TaskInstance.set_state State.SHUTDOWN ti
          ∧ j ∈ collected_job_ids tis)
       ∧ (TaskInstance.state ti = State.RUNNING ->
          TaskInstance.job_id ti = None ∨ TaskInstance.job_id ti = Some 0%Z ->
          cleared dag ti = ti)
       ∧ (TaskInstance.state ti ≠ State.RUNNING ->
          TaskInstance.state (cleared dag ti) = State.NONE
          ∧ TaskInstance.max_tries (cleared dag ti) = spec_max_tries dag ti
          ∧ (forall task, spec_owning_task dag ti = Some task ->
               TaskInstance.max_tries (cleared dag ti)
               = (TaskInstance.try_number ti + DAG.retries task - 1)%Z)
          ∧ (spec_owning_task dag ti = None ->
               TaskInstance.max_tries (cleared dag ti)
               = Z.max (TaskInstance.max_tries ti)
                       (TaskInstance.try_number ti - 1))))
      tis
  ∧ (forall J : Z, J ≠ 0%Z ->
       exists session',
         clear_task_instances [running_ti (Some J); failed_ti] (chain_session J)
           true (Some chain_dag) now
         = Ok ([ TaskInstance.set_state State.SHUTDOWN (running_ti (Some J));
                 TaskInstance.mk "chain" "B" 0 State.NONE 2 4 None None ],
               [J], session')
         ∧ (forall job, job ∈ Session.jobs session' -> BaseJob.id job = J ->
              BaseJob.state job = State.SHUTDOWN)).
Proof.
  intros Hk. split; [|split].
  - unfold clear_task_instances.
    destruct (clear_task_instances_loop_cleared dag tis [] session Hk)
      as (s1 & Hl & Hj & Hd).
    rewrite Hl. cbn [mbind result_bind app].
    eexists. split; [reflexivity|].
    intros job Hjob Hid.
    assert (Hjobs : job ∈ shutdown_jobs (collected_job_ids tis) (Session.jobs s1)).
    { destruct (collected_job_ids tis) as [|j0 js] eqn:Hc.
      - by apply elem_of_nil in Hid.
      - by destruct (activate_dag_runs && negb (bool_decide (tis = []))). }
    by apply (shutdown_jobs_state _ _ _ Hjobs).
  - apply Forall_forall. intros ti Hti. split; [|split].
    + intros Hr j Hj Hj0. unfold cleared, bound_job. rewrite Hj.
      rewrite decide_True by done.
      destruct (Z.eqb_spec j 0) as [|_]; [contradiction|]. split; [done|].
      unfold collected_job_ids. apply list_elem_of_In, in_flat_map.
      exists ti. split; [by apply list_elem_of_In|].
      rewrite decide_True by done. unfold bound_job. rewrite Hj.
      destruct (Z.eqb_spec j 0) as [|_]; [contradiction|]. by left.
    + intros Hr Hj. unfold cleared, bound_job. rewrite decide_True by done.
      by destruct Hj as [-> | ->].
    + intros Hr. unfold cleared. rewrite decide_False by done. simpl.
      split; [done|]. split; [done|]. unfold spec_max_tries.
      split; [by intros task ->| by intros ->].
  - intros J HJ.
    destruct (cleared_running_bound (Some chain_dag) (running_ti (Some J)) J
                eq_refl eq_refl HJ) as [Hc Hids].
    unfold clear_task_instances.
    destruct (clear_task_instances_loop_cleared (Some chain_dag)
                [running_ti (Some J); failed_ti] [] (chain_session J))
      as (s1 & Hl & Hj & Hd).
    { intros d [= <-]. exact chain_dag_keys. }
    rewrite Hl. cbn [mbind result_bind app].
    assert (Hcol : collected_job_ids [running_ti (Some J); failed_ti] = [J]).
    { change ([running_ti (Some J); failed_ti])
        with ([running_ti (Some J)] ++ [failed_ti]).
      unfold collected_job_ids in *. rewrite flat_map_app, Hids. reflexivity. }
    rewrite Hcol. cbn [map]. rewrite Hc.
    change (cleared (Some chain_dag) failed_ti)
      with (TaskInstance.mk "chain" "B" 0 State.NONE 2 4 None None).
    eexists. split; [reflexivity|].
    intros job Hjob Hid. cbn in Hjob.
    apply (shutdown_jobs_state [J] (Session.jobs s1)); [exact Hjob|].
    rewrite Hid. apply list_elem_of_here.
Qed.

Lemma clear_task_instances_rule_witness :
  keys_are_task_ids chain_dag
  ∧ exists session',
      clear_task_instances [running_ti (Some 7%Z); failed_ti] (chain_session 7)
        true (Some chain_dag) 0
      = Ok ([ TaskInstance.mk "chain" "A" 0 State.SHUTDOWN 1 0 (Some 7%Z) None;
              TaskInstance.mk "chain" "B" 0 State.NONE 2 4 None None ],
            [7%Z], session').
Proof.
  split; [exact chain_dag_keys|].
  destruct (proj1 (clear_task_instances_rule
             [running_ti (Some 7%Z); failed_ti] (chain_session 7) true
             (Some chain_dag) 0
             (fun d (e : Some chain_dag = Some d) =>
                eq_ind chain_dag keys_are_task_ids chain_dag_keys d
                  (f_equal (fun o => match o with Some x => x | None => chain_dag end) e))))
    as (session' & Hc & _).
  exists session'. exact Hc.
Defined.

(** C1 as stated fails: a RUNNING instance without a job id is not among
    the instances "set to SHUTDOWN", and the call leaves it RUNNING instead
    of resetting it to NONE. *)
Lemma clear_task_instances_running_without_job_untouched :
  clear_task_instances [running_ti None] empty_session true (Some chain_dag) 0
  = Ok ([running_ti None], [], empty_session)
  ∧ ¬ spec_cleared_as_stated (Some chain_dag) (running_ti None) (running_ti None).
Proof.
  split; [reflexivity|].
  unfold spec_cleared_as_stated. rewrite decide_False.
  - intros [Hs _]. discriminate Hs.
  - intros [_ [j Hj]]. discriminate Hj.
Qed.

(** ** dag.py: topological_sort *)

Lemma dict_unique {A : Type} (d : list (string * A)) k v1 v2 :
  NoDup (map fst d) -> (k, v1) ∈ d -> (k, v2) ∈ d -> v1 = v2.
Proof.
  induction d as [|[k' v'] d IH]; simpl; intros Hnd H1 H2.
  - by apply elem_of_nil in H1.
  - apply NoDup_cons in Hnd as [Hk Hnd].
    assert (Hfst : forall v, (k', v) ∈ d -> False).
    { intros v Hv. apply Hk. apply list_elem_of_In, in_map_iff.
      exists (k', v). split; [done | by apply list_elem_of_In]. }
    apply elem_of_cons in H1 as [[= -> ->]|H1];
      apply elem_of_cons in H2 as [[= <-]|H2]; try done.
    + subst. by destruct (Hfst _ H2).
    + by destruct (Hfst _ H1).
    + by apply IH.
Qed.

Lemma tc_last_step {A : Type} (R : relation A) x z :
  tc R x z -> exists y, rtc R x y ∧ R y z.
Proof.
  induction 1 as [x z HR | x w z HR _ (y & Hwy & Hyz)].
  - exists x. split; [apply rtc_refl | done].
  - exists y. split; [by eapply rtc_l | done].
Qed.

(** A finite non-empty set in which every element has a predecessor holds
    a cycle. *)
Lemma no_minimal_cycle {A : Type} `{EqDecision A} (T : relation A)
    `{!Transitive T} (l : list A) :
  l ≠ [] -> (forall x, x ∈ l -> exists y, y ∈ l ∧ T y x) -> exists x, T x x.
Proof.
  induction l as [|a l IH]; [done|]. intros _ Hpred.
  destruct (Hpred a) as (y & Hy & Hya); [apply list_elem_of_here|].
  apply elem_of_cons in Hy as [->|Hy]; [by exists a|].
  apply IH.
  - intros ->. by apply elem_of_nil in Hy.
  - intros x Hx.
    destruct (Hpred x) as (z & Hz & Hzx); [by apply list_elem_of_further|].
    apply elem_of_cons in Hz as [->|Hz].
    + exists y. split; [done|]. by transitivity a.
    + by exists z.
Qed.

Section TopSortFacts.
Variable dag : DAG.t.
Hypothesis Hwf : wf_dag dag.

Local Abbreviation ids := (map DAG.task_id).

Lemma wf_tasks_ids : ids (DAG.tasks dag) = DAG.task_ids dag.
Proof. apply keys_are_task_ids_map, Hwf. Qed.

Lemma wf_task_in_dict node :
  node ∈ DAG.tasks dag -> (DAG.task_id node, node) ∈ DAG.task_dict dag.
Proof.
  destruct Hwf as (_ & Hk & _). unfold DAG.tasks. intros Hn.
  apply list_elem_of_In, in_map_iff in Hn as ([k v] & <- & Hin).
  apply list_elem_of_In in Hin.
  unfold keys_are_task_ids in Hk. rewrite Forall_forall in Hk.
  specialize (Hk _ Hin). simpl in *. by rewrite Hk.
Qed.

Lemma wf_get_task tid :
  tid ∈ DAG.task_ids dag ->
  exists task, DAG.get_task dag tid = Ok task ∧ DAG.task_id task = tid.
Proof.
  intros Hin. apply dict_get_is_Some in Hin as [task Hg].
  exists task. unfold DAG.get_task. rewrite Hg. split; [done|].
  apply dict_get_Some_elem_of in Hg.
  destruct Hwf as (_ & Hk & _). unfold keys_are_task_ids in Hk.
  rewrite Forall_forall in Hk. exact (Hk _ Hg).
Qed.

Lemma wf_mapM_get_task (l : list string) :
  Forall (fun u => u ∈ DAG.task_ids dag) l ->
  exists tasks, mapM (DAG.get_task dag) l = Ok tasks ∧ ids tasks = l.
Proof.
  induction 1 as [|u l Hu _ (tasks & Hm & Hids)]; simpl.
  - by exists [].
  - destruct (wf_get_task u Hu) as (task & -> & Hid). simpl. rewrite Hm. simpl.
    exists (task :: tasks). simpl. by rewrite Hid, Hids.
Qed.

Lemma wf_upstream_list node :
  node ∈ DAG.tasks dag ->
  exists l, DAG.upstream_list dag node = Ok l ∧ ids l = DAG._upstream_task_ids node.
Proof.
  intros Hn. apply wf_mapM_get_task.
  destruct Hwf as (_ & _ & Hc). unfold edges_closed in Hc.
  rewrite Forall_forall in Hc.
  exact (Hc _ (wf_task_in_dict node Hn)).
Qed.

Lemma blocked_iff (l u : list DAG.BaseOperator) :
  existsb (fun edge => DAG.task_in edge u) l = true
  <-> exists y, y ∈ ids l ∧ y ∈ ids u.
Proof.
  rewrite existsb_exists. split.
  - intros (edge & Hin & Ht). exists (DAG.task_id edge). split.
    + apply list_elem_of_In, in_map. exact Hin.
    + unfold DAG.task_in in Ht. by apply bool_decide_eq_true in Ht.
  - intros (y & Hy & Hu). apply list_elem_of_In, in_map_iff in Hy as (edge & <- & Hin).
    exists edge. split; [done|]. unfold DAG.task_in. by apply bool_decide_eq_true.
Qed.

Lemma list_remove_Ok node (u : list DAG.BaseOperator) :
  NoDup (ids u) -> node ∈ u ->
  exists u', DAG.list_remove node u = Ok u' ∧ u ≡ₚ node :: u'.
Proof.
  induction u as [|y u IH]; simpl; intros Hnd Hin.
  - by apply elem_of_nil in Hin.
  - apply NoDup_cons in Hnd as [Hy Hnd]. case_decide as Hid.
    + exists u. split; [done|].
      apply elem_of_cons in Hin as [->|Hin]; [done|].
      destruct Hy. rewrite Hid. apply list_elem_of_In, in_map.
      by apply list_elem_of_In.
    + apply elem_of_cons in Hin as [->|Hin]; [done|].
      destruct (IH Hnd Hin) as (u' & -> & Hp). simpl.
      exists (y :: u'). split; [done|]. rewrite Hp. apply Permutation_swap.
Qed.

Lemma wf_NoDup_ids u s :
  sort_invariant dag u s -> NoDup (ids (s ++ u)).
Proof.
  intros [Hp _]. rewrite (Permutation_map DAG.task_id Hp), wf_tasks_ids.
  apply Hwf.
Qed.

Lemma after_upstream_snoc u s node :
  sort_invariant dag u s -> node ∈ u ->
  (forall y, y ∈ DAG._upstream_task_ids node -> y ∉ ids u) ->
  after_upstream (s ++ [node]).
Proof.
  intros [Hp Hs] Hnode Hfree i t y Hi Hy.
  apply lookup_snoc_Some in Hi as [[Hlt Hi]|[-> <-]].
  - destruct (Hs i t y Hi Hy) as (j & tu & Hj & Htu & Hid).
    exists j, tu. split; [done|]. split; [|done].
    rewrite lookup_app_l; [done|]. by eapply lookup_lt_Some.
  - assert (Hnt : node ∈ DAG.tasks dag).
    { rewrite <- Hp. apply elem_of_app. by right. }
    assert (Hyin : y ∈ ids (s ++ u)).
    { rewrite (Permutation_map DAG.task_id Hp), wf_tasks_ids.
      destruct Hwf as (_ & _ & Hc). unfold edges_closed in Hc.
      rewrite Forall_forall in Hc.
      specialize (Hc _ (wf_task_in_dict node Hnt)). simpl in Hc.
      rewrite Forall_forall in Hc. by apply Hc. }
    rewrite map_app in Hyin. apply elem_of_app in Hyin as [Hys|Hyu].
    + apply list_elem_of_In, in_map_iff in Hys as (tu & Hid & Htu).
      apply list_elem_of_In, list_elem_of_lookup in Htu as [j Hj].
      exists j, tu. split; [by eapply lookup_lt_Some|]. split; [|done].
      by apply lookup_app_l_Some.
    + by destruct (Hfree y Hy).
Qed.

(** One pass keeps the invariant; without a resolved task it changes
    nothing and every task of the snapshot waits for an unsorted task; a
    set of tasks that each wait for a task of the set stays unsorted. *)
Lemma sort_pass_spec (snapshot : list DAG.BaseOperator) :
  forall acyclic_flag u s,
    sort_invariant dag u s ->
    Forall (fun x => x ∈ u) snapshot -> NoDup (ids snapshot) ->
    exists flag' u' s',
      TopSort.sort_pass dag snapshot acyclic_flag u s = Ok (flag', u', s')
      ∧ sort_invariant dag u' s'
      ∧ length u' ≤ length u
      ∧ (flag' = false ->
           acyclic_flag = false ∧ u' = u ∧ s' = s
           ∧ Forall (fun node => exists y,
                        y ∈ DAG._upstream_task_ids node ∧ y ∈ ids u) snapshot)
      ∧ (flag' = true -> acyclic_flag = true ∨ length u' < length u)
      ∧ (forall K : string -> Prop,
           (forall x, K x -> exists y, upstream_edge dag y x ∧ K y) ->
           (forall x, K x -> x ∈ ids u) -> forall x, K x -> x ∈ ids u').
Proof.
  induction snapshot as [|node snapshot IH]; intros flag u s Hinv Hsub Hnd.
  - exists flag, u, s. simpl.
    split; [done|]. split; [done|]. split; [done|].
    split; [by intros ->|]. split; [by left | done].
  - apply Forall_cons in Hsub as [Hnode Hsub].
    simpl in Hnd. apply NoDup_cons in Hnd as [Hfresh Hnd].
    assert (Hnt : node ∈ DAG.tasks dag).
    { destruct Hinv as [Hp _]. rewrite <- Hp. apply elem_of_app. by right. }
    destruct (wf_upstream_list node Hnt) as (ups & Hups & Hupids).
    cbn [TopSort.sort_pass]. rewrite Hups. cbn [mbind result_bind].
    destruct (existsb (fun edge => DAG.task_in edge u) ups) eqn:Hblocked.
    + (* an upstream task is unsorted: the node stays *)
      destruct (IH flag u s Hinv Hsub Hnd)
        as (flag' & u' & s' & Hrun & Hinv' & Hlen & Hfalse & Htrue & HK).
      exists flag', u', s'.
      split; [done|]. split; [done|]. split; [done|].
      split; [|by split].
      intros Hf. destruct (Hfalse Hf) as (? & ? & ? & Hall).
      split; [done|]. split; [done|]. split; [done|].
      apply Forall_cons. split; [|done].
      apply blocked_iff in Hblocked. by rewrite Hupids in Hblocked.
    + (* the node is resolved *)
      assert (Hfree : forall y, y ∈ DAG._upstream_task_ids node -> y ∉ ids u).
      { intros y Hy Hyu.
        assert (existsb (fun edge => DAG.task_in edge u) ups = true) as Hb.
        { apply blocked_iff. exists y. by rewrite Hupids. }
        congruence. }
      assert (Hndu : NoDup (ids u)).
      { pose proof (wf_NoDup_ids u s Hinv) as Hn. rewrite map_app in Hn.
        by apply NoDup_app in Hn as (_ & _ & ?). }
      destruct (list_remove_Ok node u Hndu Hnode) as (u1 & Hrm & Hperm).
      rewrite Hrm. cbn [mbind result_bind].
      assert (Hinv1 : sort_invariant dag u1 (s ++ [node])).
      { split; [|by eapply after_upstream_snoc].
        destruct Hinv as [Hp _]. rewrite <- Hp, Hperm, <- app_assoc. done. }
      assert (Hsub1 : Forall (fun x => x ∈ u1) snapshot).
      { rewrite Forall_forall in Hsub |- *. intros x Hx.
        specialize (Hsub x Hx). rewrite Hperm in Hsub.
        apply elem_of_cons in Hsub as [->|Hsub]; [|done].
        destruct Hfresh. apply list_elem_of_In, in_map. by apply list_elem_of_In. }
      destruct (IH true u1 (s ++ [node]) Hinv1 Hsub1 Hnd)
        as (flag' & u' & s' & Hrun & Hinv' & Hlen & Hfalse & Htrue & HK).
      assert (Hlen1 : length u = S (length u1)).
      { by rewrite (Permutation_length Hperm). }
      exists flag', u', s'. split; [done|]. split; [done|].
      split; [lia|]. split; [|split].
      * intros Hf. by destruct (Hfalse Hf) as [? _].
      * intros _. right. lia.
      * intros K Hself HKu. apply HK; [done|].
        intros x Hx. pose proof (HKu x Hx) as Hxu.
        rewrite (Permutation_map DAG.task_id Hperm) in Hxu. simpl in Hxu.
        apply elem_of_cons in Hxu as [->|Hxu]; [|done].
        destruct (Hself _ Hx) as (y & (task & Htask & Hy) & HKy).
        assert (task = node) as ->.
        { eapply dict_unique; [apply Hwf | exact Htask |].
          by apply wf_task_in_dict. }
        destruct (Hfree y Hy). by apply HKu.
Qed.

Lemma sort_invariant_init : sort_invariant dag (DAG.tasks dag) [].
Proof. split; [done|]. intros i t u Hi. by rewrite lookup_nil in Hi. Qed.

Lemma sort_invariant_snapshot u s :
  sort_invariant dag u s -> Forall (fun x => x ∈ u) u ∧ NoDup (ids u).
Proof.
  intros Hinv. split; [by apply Forall_forall|].
  pose proof (wf_NoDup_ids u s Hinv) as Hn. rewrite map_app in Hn.
  by apply NoDup_app in Hn as (_ & _ & ?).
Qed.

(** Without a cycle every pass resolves a task, so the loop ends with all
    tasks sorted. *)
Lemma sort_loop_acyclic :
  acyclic dag ->
  forall fuel u s,
    sort_invariant dag u s -> length u ≤ fuel ->
    exists sorted,
      TopSort.sort_loop dag fuel u s = Some (Ok sorted)
      ∧ sort_invariant dag [] sorted.
Proof.
  intros Hacyc. induction fuel as [|fuel IH]; intros u s Hinv Hlen.
  - destruct u; [|simpl in Hlen; lia]. by exists s.
  - destruct u as [|x u0] eqn:Hu; [by exists s|]. rewrite <- Hu in *.
    destruct (sort_invariant_snapshot u s Hinv) as [Hsub Hnd].
    destruct (sort_pass_spec u false u s Hinv Hsub Hnd)
      as (flag' & u' & s' & Hrun & Hinv' & Hlen' & Hfalse & Htrue & _).
    assert (Hloop : TopSort.sort_loop dag (S fuel) u s
              = if flag' then TopSort.sort_loop dag fuel u' s'
                else Some (Raise (TopSort.cycle_error dag))).
    { rewrite Hu. cbn [TopSort.sort_loop]. rewrite <- Hu. by rewrite Hrun. }
    rewrite Hloop. destruct flag'.
    + destruct (Htrue eq_refl) as [|Hlt]; [done|]. apply IH; [done|lia].
    + destruct (Hfalse eq_refl) as (_ & _ & _ & Hwait). exfalso.
      destruct (no_minimal_cycle (tc (upstream_edge dag)) (ids u)) as [c Hc].
      * rewrite Hu. done.
      * intros xid Hx.
        apply list_elem_of_In, in_map_iff in Hx as (node & <- & Hnode).
        apply list_elem_of_In in Hnode.
        rewrite Forall_forall in Hwait.
        destruct (Hwait node Hnode) as (y & Hy & Hyu).
        exists y. split; [done|]. apply tc_once. exists node. split; [|done].
        apply wf_task_in_dict. destruct Hinv as [Hp _]. rewrite <- Hp.
        apply elem_of_app. by right.
      * exact (Hacyc c Hc).
Qed.

(** A non-empty set of tasks that each wait for a task of the set makes the
    loop end with the cycle error, at the first pass that resolves
    nothing. *)
Lemma sort_loop_cyclic (K : string -> Prop) :
  (forall x, K x -> exists y, upstream_edge dag y x ∧ K y) ->
  (exists c, K c) ->
  forall fuel u s,
    sort_invariant dag u s -> (forall x, K x -> x ∈ ids u) -> length u ≤ fuel ->
    TopSort.sort_loop dag fuel u s = Some (Raise (TopSort.cycle_error dag))
    ∧ exists n u' s',
        TopSort.after_passes dag n u s = Some (u', s') ∧ u' ≠ []
        ∧ TopSort.sort_pass dag u' false u' s' = Ok (false, u', s').
Proof.
  intros Hself [c Hc]. induction fuel as [|fuel IH]; intros u s Hinv HK Hlen.
  - destruct u; [|simpl in Hlen; lia].
    specialize (HK c Hc). by apply elem_of_nil in HK.
  - destruct u as [|x u0] eqn:Hu.
    { specialize (HK c Hc). by apply elem_of_nil in HK. }
    rewrite <- Hu in *.
    destruct (sort_invariant_snapshot u s Hinv) as [Hsub Hnd].
    destruct (sort_pass_spec u false u s Hinv Hsub Hnd)
      as (flag' & u' & s' & Hrun & Hinv' & Hlen' & Hfalse & Htrue & HK').
    assert (Hloop : TopSort.sort_loop dag (S fuel) u s
              = if flag' then TopSort.sort_loop dag fuel u' s'
                else Some (Raise (TopSort.cycle_error dag))).
    { rewrite Hu. cbn [TopSort.sort_loop]. rewrite <- Hu. by rewrite Hrun. }
    rewrite Hloop. destruct flag'.
    + destruct (Htrue eq_refl) as [|Hlt]; [done|].
      destruct (IH u' s' Hinv' (HK' K Hself HK)) as (Hres & n & u2 & s2 & Hn & Hne & Hp);
        [lia|].
      split; [done|]. exists (S n), u2, s2. split; [|done].
      rewrite Hu. cbn [TopSort.after_passes]. rewrite <- Hu. by rewrite Hrun.
    + destruct (Hfalse eq_refl) as (_ & -> & -> & _).
      split; [done|]. exists 0, u, s. split; [done|]. split; [|done].
      rewrite Hu. done.
Qed.

Lemma cyclic_tasks_wait x :
  tc (upstream_edge dag) x x ->
  exists y, upstream_edge dag y x ∧ tc (upstream_edge dag) y y.
Proof.
  intros Hx. destruct (tc_last_step _ _ _ Hx) as (y & Hxy & Hyx).
  exists y. split; [done|]. eapply tc_rtc_r; [by apply tc_once | done].
Qed.

Lemma cyclic_tasks_are_tasks x :
  tc (upstream_edge dag) x x -> x ∈ ids (DAG.tasks dag).
Proof.
  intros Hx. destruct (cyclic_tasks_wait x Hx) as (y & (task & Ht & _) & _).
  rewrite wf_tasks_ids. unfold DAG.task_ids.
  apply list_elem_of_In, in_map_iff. exists (x, task).
  split; [done | by apply list_elem_of_In].
Qed.

Lemma topological_sort_loop :
  DAG.tasks dag ≠ [] ->
  TopSort.topological_sort dag
  = TopSort.sort_loop dag (length (DAG.tasks dag)) (DAG.tasks dag) [].
Proof.
  unfold TopSort.topological_sort. by destruct (DAG.tasks dag).
Qed.

End TopSortFacts.

(** [topological_sort] returns or raises on every well-formed DAG: one pass
    per task is enough. *)
Lemma topological_sort_terminates (dag : DAG.t) :
  wf_dag dag -> exists r, TopSort.topological_sort dag = Some r.
Proof.
  intros Hwf. unfold TopSort.topological_sort.
  destruct (Nat.eqb (length (DAG.tasks dag)) 0); [by eexists|].
  assert (Hloop : forall fuel u s,
            sort_invariant dag u s -> length u ≤ fuel ->
            exists r, TopSort.sort_loop dag fuel u s = Some r).
  { induction fuel as [|fuel IH]; intros u s Hinv Hlen.
    - destruct u; [by eexists | simpl in Hlen; lia].
    - destruct u as [|x u0] eqn:Hu; [by eexists|]. rewrite <- Hu in *.
      destruct (sort_invariant_snapshot dag Hwf u s Hinv) as [Hsub Hnd].
      destruct (sort_pass_spec dag Hwf u false u s Hinv Hsub Hnd)
        as (flag' & u' & s' & Hrun & Hinv' & Hlen' & _ & Htrue & _).
      rewrite Hu. cbn [TopSort.sort_loop]. rewrite <- Hu, Hrun.
      destruct flag'; [|by eexists].
      destruct (Htrue eq_refl) as [|Hlt]; [done|]. apply IH; [done|lia]. }
  apply Hloop; [apply sort_invariant_init | done].
Qed.

(** A DAG with a cycle is not sorted: the loop ends with the cycle error at
    the first pass that resolves nothing. *)
Lemma topological_sort_cycle_error (dag : DAG.t) :
  wf_dag dag -> has_cycle dag ->
  TopSort.topological_sort dag = Some (Raise (TopSort.cycle_error dag))
  ∧ exists n u s,
      TopSort.after_passes dag n (DAG.tasks dag) [] = Some (u, s)
      ∧ u ≠ []
      ∧ TopSort.sort_pass dag u false u s = Ok (false, u, s).
Proof.
  intros Hwf [c Hc].
  assert (Hne : DAG.tasks dag ≠ []).
  { intros Hnil. pose proof (cyclic_tasks_are_tasks dag Hwf c Hc) as Hin.
    rewrite Hnil in Hin. by apply elem_of_nil in Hin. }
  destruct (sort_loop_cyclic dag Hwf (fun x => tc (upstream_edge dag) x x)
              (cyclic_tasks_wait dag) (ex_intro _ c Hc)
              (length (DAG.tasks dag)) (DAG.tasks dag) []
              (sort_invariant_init dag) (cyclic_tasks_are_tasks dag Hwf))
    as (Hres & Htrace); [done|].
  by rewrite (topological_sort_loop dag Hne), Hres.
Qed.

(** A DAG that [topological_sort] sorts has no cycle. *)
Lemma sorted_dag_acyclic (dag : DAG.t) sorted :
  wf_dag dag -> TopSort.topological_sort dag = Some (Ok sorted) -> acyclic dag.
Proof.
  intros Hwf Hs t Ht.
  destruct (topological_sort_cycle_error dag Hwf (ex_intro _ t Ht)) as [Hr _].
  congruence.
Qed.

Lemma chain_dag_wf : wf_dag chain_dag.
Proof. apply (bool_decide_unpack _). vm_compute. exact I. Qed.

Lemma cyclic_dag_wf : wf_dag cyclic_dag.
Proof. apply (bool_decide_unpack _). vm_compute. exact I. Qed.

Lemma cyclic_dag_has_cycle : has_cycle cyclic_dag.
Proof.
  exists "X". apply tc_l with "Y"; [|apply tc_once].
  - exists (DAG.mkBaseOperator "Y" ["X"] ["X"] 0 None).
    split; repeat first [apply list_elem_of_here | apply list_elem_of_further].
  - exists (DAG.mkBaseOperator "X" ["Y"] ["Y"; "Z"] 0 None).
    split; repeat first [apply list_elem_of_here | apply list_elem_of_further].
Qed.

(** C2. For every DAG with at least one task and an acyclic edge relation,
    [topological_sort] returns a permutation of the tasks of the DAG in
    which every task comes after all of its upstream tasks. *)
Theorem topological_sort_orders_acyclic_dag (dag : DAG.t) :
  wf_dag dag -> DAG.tasks dag ≠ [] -> acyclic dag ->
  exists sorted,
    TopSort.topological_sort dag = Some (Ok sorted)
    ∧ sorted ≡ₚ DAG.tasks dag
    ∧ after_upstream sorted.
Proof.
  intros Hwf Hne Hacyc. rewrite (topological_sort_loop dag Hne).
  destruct (sort_loop_acyclic dag Hwf Hacyc (length (DAG.tasks dag))
              (DAG.tasks dag) [] (sort_invariant_init dag)) as (sorted & Hs & Hp & Ha);
    [done|].
  exists sorted. split; [done|]. split; [|done]. by rewrite app_nil_r in Hp.
Qed.

(** C3. For every DAG whose edge relation has a cycle, [topological_sort]
    raises the cycle error, whose message names the identifier of the DAG,
    and returns no ordering; the error comes from the first pass that
    resolves no task while tasks remain unsorted. *)
Theorem topological_sort_raises_on_cycle (dag : DAG.t) :
  wf_dag dag -> has_cycle dag ->
  TopSort.topological_sort dag
  = Some (Raise (AirflowException
                   ("A cyclic dependency occurred in dag: " +:+ DAG.dag_id dag)))
  ∧ (forall sorted, TopSort.topological_sort dag ≠ Some (Ok sorted))
  ∧ exists n u s,
      TopSort.after_passes dag n (DAG.tasks dag) [] = Some (u, s)
      ∧ u ≠ []
      ∧ TopSort.sort_pass dag u false u s = Ok (false, u, s).
Proof.
  intros Hwf Hcyc.
  destruct (topological_sort_cycle_error dag Hwf Hcyc) as [Hres Htrace].
  rewrite Hres. split; [done|]. split; [done | exact Htrace].
Qed.

Lemma topological_sort_orders_acyclic_dag_witness :
  exists sorted,
    TopSort.topological_sort chain_dag = Some (Ok sorted)
    ∧ sorted ≡ₚ DAG.tasks chain_dag
    ∧ after_upstream sorted.
Proof.
  apply (topological_sort_orders_acyclic_dag chain_dag chain_dag_wf).
  - discriminate.
  - apply (sorted_dag_acyclic chain_dag (DAG.tasks chain_dag) chain_dag_wf).
    vm_compute. reflexivity.
Defined.

Lemma topological_sort_raises_on_cycle_witness :
  TopSort.topological_sort cyclic_dag
  = Some (Raise (AirflowException "A cyclic dependency occurred in dag: loop")).
Proof.
  exact (proj1 (topological_sort_raises_on_cycle cyclic_dag cyclic_dag_wf
                  cyclic_dag_has_cycle)).
Defined.

(** ** dag.py: sub_dag *)

(** C8. On the chain A -> B -> C, [sub_dag] with a pattern that selects
    exactly B, include_downstream = True and include_upstream = False
    returns a DAG whose tasks are exactly B and C; B no longer refers to A
    upstream and keeps C downstream, C keeps B upstream; fewer tasks than
    the three of the chain survive, so the result is marked partial.  The
    chain itself is left as it was: it still has its three tasks and is not
    partial. *)
Theorem sub_dag_chain_B_downstream `{Regex} (task_regex : string) :
  re_findall task_regex "A" = false ->
  re_findall task_regex "B" = true ->
  re_findall task_regex "C" = false ->
  exists dag,
    SubDag.sub_dag chain_dag task_regex true false = Ok dag
    ∧ DAG.task_ids dag = ["B"; "C"]
    ∧ DAG.tasks dag = [ DAG.mkBaseOperator "B" [] ["C"] 3 None;
                        DAG.mkBaseOperator "C" ["B"] [] 3 None ]
    ∧ DAG.partial dag = true
    ∧ DAG.dag_id dag = DAG.dag_id chain_dag
    ∧ DAG.task_ids chain_dag = ["A"; "B"; "C"]
    ∧ DAG.partial chain_dag = false.
Proof.
  intros HA HB HC. eexists. split.
  - unfold SubDag.sub_dag. cbn [chain_dag DAG.tasks DAG.task_dict map snd].
    rewrite !filter_cons, filter_nil. cbn [DAG.task_id].
    rewrite HA, HB, HC.
    rewrite decide_False by done. rewrite decide_True by done.
    rewrite decide_False by done.
    vm_compute. reflexivity.
  - vm_compute. repeat split; reflexivity.
Qed.

Lemma sub_dag_chain_B_downstream_witness :
  exists dag,
    SubDag.sub_dag (H := exact_regex) chain_dag "^B$" true false = Ok dag
    ∧ DAG.task_ids dag = ["B"; "C"]
    ∧ DAG.partial dag = true.
Proof.
  destruct (sub_dag_chain_B_downstream (H := exact_regex) "^B$"
              eq_refl eq_refl eq_refl) as (dag & Hs & Hids & _ & Hp & _).
  exists dag. split; [exact Hs|]. split; [exact Hids | exact Hp].
Defined.

(** ** dag.py: clear *)

(** C9. For every DAG and every combination of the other arguments,
    [clear] with dry_run = True returns the task instances that pass the
    DAG, date-range and state filters, and the session it leaves is the
    session it was given: no task instance, DagRun, job or stat row is
    changed. *)
Theorem clear_dry_run_changes_nothing `{SqlLike} `{Console} (self : DAG.t)
    (start_date end_date : option Z)
    (only_failed only_running confirm_prompt include_subdags reset_dag_runs : bool)
    (now : Z) (session : Session.t) :
  exists tis,
    DagClear.clear self start_date end_date only_failed only_running
      confirm_prompt include_subdags reset_dag_runs true now session
    = Ok (DagClear.Selection tis, session)
    ∧ forall ti, ti ∈ tis <->
        ti ∈ Session.task_instances session
        ∧ (if include_subdags
           then exists dag, dag ∈ DAG.subdags self ++ [self]
                  ∧ sql_like (TaskInstance.dag_id ti) (DAG.dag_id dag) = true
                  ∧ TaskInstance.task_id ti ∈ DAG.task_ids dag
           else TaskInstance.dag_id ti = DAG.dag_id self
                ∧ TaskInstance.task_id ti ∈ DAG.task_ids self)
        ∧ (forall d, start_date = Some d -> (d <= TaskInstance.execution_date ti)%Z)
        ∧ (forall d, end_date = Some d -> (TaskInstance.execution_date ti <= d)%Z)
        ∧ (only_failed = true -> TaskInstance.state ti = State.FAILED)
        ∧ (only_running = true -> TaskInstance.state ti = State.RUNNING).
Proof.
  eexists. split; [reflexivity|].
  intros ti. rewrite list_elem_of_filter. unfold DagClear.selected.
  rewrite !andb_true_iff.
  split.
  - intros [((((Hdag & Hs) & He) & Hf) & Hr) Hin]. split; [done|].
    split; [|split; [|split; [|split]]].
    + destruct include_subdags.
      * apply existsb_exists in Hdag as (dag & Hd & Hl).
        apply andb_true_iff in Hl as [Hl Ht]. apply bool_decide_eq_true in Ht.
        exists dag. split; [by apply list_elem_of_In | done].
      * apply andb_true_iff in Hdag as [Hd Ht].
        apply bool_decide_eq_true in Hd, Ht. done.
    + intros d ->. by apply bool_decide_eq_true in Hs.
    + intros d ->. by apply bool_decide_eq_true in He.
    + intros ->. by apply bool_decide_eq_true in Hf.
    + intros ->. by apply bool_decide_eq_true in Hr.
  - intros (Hin & Hdag & Hs & He & Hf & Hr). split; [|done].
    repeat split.
    + destruct include_subdags.
      * destruct Hdag as (dag & Hd & Hl & Ht). apply existsb_exists.
        exists dag. split; [by apply list_elem_of_In|].
        apply andb_true_iff. split; [done | by apply bool_decide_eq_true].
      * destruct Hdag as [Hd Ht]. apply andb_true_iff.
        split; by apply bool_decide_eq_true.
    + destruct start_date; [|done]. apply bool_decide_eq_true. by apply Hs.
    + destruct end_date; [|done]. apply bool_decide_eq_true. by apply He.
    + destruct only_failed; [|done]. apply bool_decide_eq_true. by apply Hf.
    + destruct only_running; [|done]. apply bool_decide_eq_true. by apply Hr.
Qed.

(** ** dag.py: following_schedule and previous_schedule *)

Section ScheduleFacts.
Context `{Croniter}.

(** For a cron interval both functions see the instant through its wall
    clock time only. *)
Lemma following_of_previous_wall_clock (dag : DAG.t) expr (t1 t2 : Z) :
  DAG._schedule_interval dag = CronExpr expr ->
  make_naive t1 (DAG.timezone dag) = make_naive t2 (DAG.timezone dag) ->
  Schedule.following_of_previous dag t1 = Schedule.following_of_previous dag t2.
Proof.
  intros Hs Hn.
  unfold Schedule.following_of_previous, Schedule.previous_schedule,
    Schedule.following_schedule.
  rewrite Hs. simpl. by rewrite Hn.
Qed.

(** Two instants of a repeated hour share their wall clock time: the round
    trip cannot return both. *)
Lemma repeated_hour_breaks_round_trip (dag : DAG.t) expr (t1 t2 : Z) :
  DAG._schedule_interval dag = CronExpr expr ->
  t1 ≠ t2 ->
  make_naive t1 (DAG.timezone dag) = make_naive t2 (DAG.timezone dag) ->
  ¬ (Schedule.following_of_previous dag t1 = Ok (Some t1)
     ∧ Schedule.following_of_previous dag t2 = Ok (Some t2)).
Proof.
  intros Hs Hne Hn [H1 H2].
  rewrite (following_of_previous_wall_clock dag expr t1 t2 Hs Hn) in H1.
  congruence.
Qed.

(** C4, as the code has it. For a fixed duration,
    [following_schedule(previous_schedule(t))] is [t] whenever [t] and
    [t] minus the duration are datetimes.  For a cron expression it is [t]
    whenever the wall clock time of [t] is a firing, [t] is the instant
    that the zone assigns to that wall clock time, and the wall clock time
    of the previous firing exists in the zone; this holds away from the
    repeated and the skipped hour of a daylight-saving transition. *)
Theorem following_of_previous_round_trip (dag : DAG.t) (t : Z) :
  (forall delta, DAG._schedule_interval dag = Timedelta delta ->
     (0 <= t <= datetime_max)%Z -> (0 <= t - delta <= datetime_max)%Z ->
     Schedule.previous_schedule dag t = Ok (Some (t - delta)%Z)
     ∧ Schedule.following_of_previous dag t = Ok (Some t))
  ∧ (forall expr, DAG._schedule_interval dag = CronExpr expr ->
       let tz := DAG.timezone dag in
       cron_fires expr (make_naive t tz) ->
       instant_of_its_wall_clock tz t ->
       wall_clock_exists tz (cron_get_prev expr (make_naive t tz)) ->
       Schedule.following_of_previous dag t = Ok (Some t)).
Proof.
  split.
  - intros delta Hs Ht Hp.
    unfold Schedule.following_of_previous, Schedule.previous_schedule,
      Schedule.following_schedule, datetime_add.
    rewrite Hs. simpl.
    replace (t + - delta)%Z with (t - delta)%Z by lia.
    rewrite bool_decide_eq_true_2 by done. simpl. split; [done|].
    replace (t - delta + delta)%Z with t by lia.
    by rewrite bool_decide_eq_true_2 by done.
  - intros expr Hs tz Hfire Hinst Hexists.
    unfold Schedule.following_of_previous, Schedule.previous_schedule,
      Schedule.following_schedule.
    rewrite Hs. simpl. fold tz.
    unfold wall_clock_exists in Hexists. rewrite Hexists.
    unfold cron_fires in Hfire. rewrite Hfire.
    unfold instant_of_its_wall_clock in Hinst. by rewrite Hinst.
Qed.

End ScheduleFacts.

Lemma following_of_previous_round_trip_witness :
  Schedule.following_of_previous (H := hourly_croniter) chain_dag one_day
  = Ok (Some one_day)
  ∧ Schedule.following_of_previous (H := hourly_croniter) hourly_dag
      (amsterdam_fall_back - 3 * hour)
    = Ok (Some (amsterdam_fall_back - 3 * hour)%Z).
Proof.
  split.
  - apply (proj1 (following_of_previous_round_trip (H := hourly_croniter)
                    chain_dag one_day) one_day eq_refl);
      vm_compute; split; discriminate.
  - apply (proj2 (following_of_previous_round_trip (H := hourly_croniter)
                    hourly_dag (amsterdam_fall_back - 3 * hour))
             "0 * * * *" eq_refl); vm_compute; reflexivity.
Defined.

(** C4 as stated fails: 2018-10-28T00:00Z is 02:00 in Amsterdam, a firing
    of the hourly expression, yet the firing that follows its previous
    firing is 2018-10-28T01:00Z, the second 02:00 of that night. *)
Lemma following_of_previous_repeated_hour :
  valid_firing (H := hourly_croniter) hourly_dag two_oclock_summer_time
  ∧ Schedule.previous_schedule (H := hourly_croniter) hourly_dag
      two_oclock_summer_time
    = Ok (Some (amsterdam_fall_back - 2 * hour)%Z)
  ∧ Schedule.following_of_previous (H := hourly_croniter) hourly_dag
      two_oclock_summer_time
    = Ok (Some amsterdam_fall_back)
  ∧ Schedule.following_of_previous (H := hourly_croniter) hourly_dag
      two_oclock_summer_time
    ≠ Ok (Some two_oclock_summer_time).
Proof.
  split; [vm_compute; reflexivity|].
  split; [vm_compute; reflexivity|].
  split; [vm_compute; reflexivity|].
  vm_compute. discriminate.
Qed.

(** ** dag_bag.py *)

#[local] Instance bag_extends_refl : Reflexive bag_extends.
Proof. intros self. by repeat split. Qed.

#[local] Instance bag_extends_trans : Transitive bag_extends.
Proof.
  intros a b c (? & ? & ? & ? & ?) (? & ? & ? & ? & ?).
  repeat split; try congruence. set_solver.
Qed.

Lemma depth_unfold (d : DAG.t) :
  DAG.depth d
  = foldr (fun (kv : string * DAG.BaseOperator) acc =>
             Nat.max (match DAG.subdag (snd kv) with
                      | Some sd => S (DAG.depth sd)
                      | None => 0
                      end) acc)
          0 (DAG.task_dict d).
Proof. by destruct d. Qed.

Lemma subdags_unfold (d : DAG.t) :
  DAG.subdags d
  = flat_map (fun kv : string * DAG.BaseOperator =>
                match DAG.subdag (snd kv) with
                | Some sd => sd :: DAG.subdags sd
                | None => []
                end)
             (DAG.task_dict d).
Proof. by destruct d. Qed.

Lemma nested_depth_le (td : list (string * DAG.BaseOperator)) kv sd :
  kv ∈ td -> DAG.subdag (snd kv) = Some sd ->
  S (DAG.depth sd)
  ≤ foldr (fun (kv : string * DAG.BaseOperator) acc =>
             Nat.max (match DAG.subdag (snd kv) with
                      | Some sd => S (DAG.depth sd)
                      | None => 0
                      end) acc)
          0 td.
Proof.
  induction td as [|kv' td IH]; intros Hin Hsd.
  - by apply elem_of_nil in Hin.
  - simpl. apply elem_of_cons in Hin as [<-|Hin].
    + rewrite Hsd. lia.
    + specialize (IH Hin Hsd). lia.
Qed.

(** A nested sub-DAG is nested less deeply than the DAG that holds it. *)
Lemma subdags_depth_lt (n : nat) :
  forall d, DAG.depth d ≤ n ->
    forall sd, sd ∈ DAG.subdags d -> DAG.depth sd < DAG.depth d.
Proof.
  induction n as [|n IH]; intros d Hd sd Hsd.
  - rewrite subdags_unfold in Hsd.
    apply list_elem_of_In, in_flat_map in Hsd as (kv & Hkv & Hin).
    destruct (DAG.subdag (snd kv)) as [s|] eqn:Hs; [|by destruct Hin].
    pose proof (nested_depth_le _ kv s (proj2 (list_elem_of_In _ _) Hkv) Hs) as Hle.
    rewrite <- depth_unfold in Hle. lia.
  - rewrite subdags_unfold in Hsd.
    apply list_elem_of_In, in_flat_map in Hsd as (kv & Hkv & Hin).
    destruct (DAG.subdag (snd kv)) as [s|] eqn:Hs; [|by destruct Hin].
    pose proof (nested_depth_le _ kv s (proj2 (list_elem_of_In _ _) Hkv) Hs) as Hle.
    rewrite <- depth_unfold in Hle.
    destruct Hin as [<-|Hin]; [lia|].
    apply list_elem_of_In in Hin.
    assert (DAG.depth sd < DAG.depth s) by (apply IH; [lia | done]). lia.
Qed.

Section DagBagFacts.
Context `{Settings} `{Regex}.

Lemma subdags_policy (td : list (string * DAG.BaseOperator)) :
  flat_map (fun kv : string * DAG.BaseOperator =>
              match DAG.subdag (snd kv) with
              | Some sd => sd :: DAG.subdags sd
              | None => []
              end)
           (map (fun kv : string * DAG.BaseOperator => (fst kv, policy (snd kv))) td)
  = flat_map (fun kv : string * DAG.BaseOperator =>
                match DAG.subdag (snd kv) with
                | Some sd => sd :: DAG.subdags sd
                | None => []
                end) td.
Proof.
  induction td as [|kv td IH]; [done|]. simpl. by rewrite policy_subdag, IH.
Qed.

(** With fuel beyond the nesting depth, [bag_dag] returns; it registers
    the DAG and touches neither the import errors nor the recorded
    modification times. *)
Lemma bag_dag_spec (fuel : nat) :
  forall self dag now,
    DAG.depth dag < fuel ->
    exists self',
      DagBag.bag_dag fuel self dag now = Some self'
      ∧ bag_extends self self'
      ∧ DAG.dag_id dag ∈ dom (DagBag.dags self').
Proof.
  induction fuel as [|fuel IH]; intros self dag now Hd; [lia|].
  cbn [DagBag.bag_dag].
  set (dag1 := DAG.set_task_dict _ (DAG.set_last_loaded now dag)).
  set (self0 := DagBag.set_dags _ self).
  assert (Hsub : DAG.subdags dag1 = DAG.subdags dag).
  { rewrite (subdags_unfold dag1), (subdags_unfold dag). apply subdags_policy. }
  assert (Hext0 : bag_extends self self0).
  { repeat split. unfold self0. simpl. rewrite dom_insert. set_solver. }
  assert (Hin0 : DAG.dag_id dag ∈ dom (DagBag.dags self0)).
  { unfold self0. simpl. rewrite dom_insert. set_solver. }
  assert (Hfold : forall l self1,
            (forall sd, sd ∈ l -> DAG.depth sd < fuel) ->
            exists self',
              foldl (fun acc subdag =>
                       self ← acc;
                       DagBag.bag_dag fuel self
                         (DAG.set_is_subdag true
                            (DAG.set_parent_dag (Some (DAG.dag_id dag1))
                               (DAG.set_full_filepath (DAG.full_filepath dag1) subdag)))
                         now)
                    (Some self1) l = Some self'
              ∧ bag_extends self1 self').
  { induction l as [|sd l IHl]; intros self1 Hl.
    - exists self1. split; reflexivity.
    - cbn [foldl mbind option_bind].
      destruct (IH self1
                  (DAG.set_is_subdag true
                     (DAG.set_parent_dag (Some (DAG.dag_id dag1))
                        (DAG.set_full_filepath (DAG.full_filepath dag1) sd))) now)
        as (self2 & -> & Hext2 & _).
      { rewrite depth_unfold. simpl. rewrite <- depth_unfold.
        apply Hl, list_elem_of_here. }
      destruct (IHl self2) as (self' & Hf & Hext').
      { intros sd' Hsd'. by apply Hl, list_elem_of_further. }
      exists self'. split; [done|]. by transitivity self2. }
  destruct (Hfold (DAG.subdags dag1) self0) as (self' & Hf & Hext').
  { intros sd Hsd. rewrite Hsub in Hsd.
    pose proof (subdags_depth_lt (DAG.depth dag) dag (le_n _) sd Hsd). lia. }
  exists self'. split; [exact Hf|]. split; [by transitivity self0|].
  destruct Hext' as (_ & _ & _ & _ & Hdom). by apply Hdom.
Qed.

(** Bagging the DAG objects of the imported modules. *)
Lemma bag_modules_spec filepath now (ds : list DAG.t) :
  forall found self,
    exists found' self',
      foldl (DagBag.bag_module filepath now) (Some (found, self)) ds
      = Some (found', self')
      ∧ bag_extends self self'
      ∧ forall d, d ∈ ds -> DAG.dag_id d ∈ dom (DagBag.dags self').
Proof.
  induction ds as [|d ds IH]; intros found self.
  - exists found, self. split; [done|]. split; [done|].
    intros d Hd. by apply elem_of_nil in Hd.
  - cbn [foldl]. unfold DagBag.bag_module at 2. cbn [mbind option_bind].
    set (d1 := DAG.set_is_subdag false _).
    assert (Hid : DAG.dag_id d1 = DAG.dag_id d).
    { unfold d1. destruct (negb (str_truthy (DAG.full_filepath d))); [|done].
      by case_bool_decide. }
    destruct (bag_dag_spec (S (DAG.depth d1)) self d1 now) as (self1 & -> & Hext1 & Hin1);
      [lia|].
    cbn [mbind option_bind].
    destruct (IH (found ++ [d1] ++ DAG.subdags d1) self1) as (found' & self' & -> & Hext' & Hall).
    exists found', self'. split; [done|]. split; [by transitivity self1|].
    intros d' Hd'. apply elem_of_cons in Hd' as [->|Hd']; [|by apply Hall].
    destruct Hext' as (_ & _ & _ & _ & Hdom). apply Hdom. by rewrite <- Hid.
Qed.

End DagBagFacts.

Section DagBagVisits.
Context `{Settings} `{Regex}.

(** [process_file] on a Python source. *)
Lemma process_file_source (os : OS) (self : DagBag.t) path mtime outcome now :
  python_source os path mtime outcome ->
  exists found self',
    DagBag.process_file os self (Some path) true true now = Some (found, self')
    ∧ visited path mtime outcome self self'.
Proof.
  intros (file & Hfile & Hm & Hzip & Hmark & Hload & _).
  unfold DagBag.process_file, visited. rewrite Hfile, Hm. cbn [andb].
  destruct (decide (DagBag.file_last_changed self !! path = Some mtime)) as [Hsame|Hnew].
  - rewrite bool_decide_eq_true_2 by done. by exists [], self.
  - rewrite bool_decide_eq_false_2 by done.
    rewrite Hzip, Hmark, Hload. cbn [negb andb].
    destruct outcome as [msg|ds].
    + cbn [concat foldl mbind option_bind]. eexists _, _. split; [reflexivity|].
      cbn. split; [|done]. apply insert_insert_eq.
    + cbn [concat]. rewrite app_nil_r.
      destruct (bag_modules_spec path now ds [] self)
        as (found' & self' & -> & (Hie & Hflc & _ & _ & Hdom) & Hall).
      cbn [mbind option_bind]. eexists _, _. split; [reflexivity|].
      cbn. by rewrite Hflc.
Qed.

(** The body of the loop over the files of a directory, on a Python source
    and without ignore patterns. *)
Lemma collect_file_source (os : OS) (self : DagBag.t) root f mtime outcome
    stats now :
  python_source os (os_path_join os root f) mtime outcome ->
  exists stats' self',
    DagBag.collect_file os true now root [] (Some (stats, self)) f
    = Some (stats', self')
    ∧ visited (os_path_join os root f) mtime outcome self self'.
Proof.
  intros Hsrc.
  destruct (process_file_source os self _ mtime outcome now Hsrc)
    as (found & self' & Hp & Hv).
  destruct Hsrc as (file & Hfile & _ & _ & _ & _ & Hext).
  unfold DagBag.collect_file. cbn [mbind option_bind]. rewrite Hfile.
  rewrite bool_decide_eq_false_2 by (intros Hne; by apply Hne).
  cbn [andb existsb]. rewrite Hp. cbn [mbind option_bind].
  eexists _, _. split; [reflexivity | exact Hv].
Qed.

(** [collect_dags] on a directory of two Python sources visits the first
    and then the second; the bag differs from the outcome of the visits in
    its statistics only. *)
Lemma collect_dags_two_files (os : OS) (self : DagBag.t) folder f1 f2
    m1 o1 m2 o2 now :
  two_file_folder os folder f1 f2 ->
  python_source os (os_path_join os folder f1) m1 o1 ->
  python_source os (os_path_join os folder f2) m2 o2 ->
  exists self1 self2 stats,
    DagBag.collect_dags os self (Some folder) true now
    = Some (Ok (DagBag.set_dagbag_stats stats self2))
    ∧ visited (os_path_join os folder f1) m1 o1 self self1
    ∧ visited (os_path_join os folder f2) m2 o2 self1 self2.
Proof.
  intros (Hnofile & Hfolder & Hdir & Hwalk & Hf1 & Hf2 & _) Hs1 Hs2.
  destruct (collect_file_source os self folder f1 m1 o1 [] now Hs1)
    as (stats1 & self1 & Hc1 & Hv1).
  destruct (collect_file_source os self1 folder f2 m2 o2 stats1 now Hs2)
    as (stats2 & self2 & Hc2 & Hv2).
  exists self1, self2, stats2. split; [|done].
  unfold DagBag.collect_dags. cbn [opt_str_truthy]. rewrite Hfolder.
  change (default "" (Some folder)) with folder. rewrite Hnofile.
  rewrite bool_decide_eq_false_2 by (intros [? ?]; discriminate).
  rewrite Hdir, Hwalk. cbn [DagBag.collect_walk mbind option_bind].
  rewrite !filter_cons, filter_nil.
  rewrite !decide_False by done.
  cbn [foldl]. rewrite Hc1, Hc2. reflexivity.
Qed.

End DagBagVisits.

Lemma visited_new path mtime outcome (self self' : DagBag.t) :
  DagBag.file_last_changed self !! path ≠ Some mtime ->
  visited path mtime outcome self self' ->
  DagBag.file_last_changed self'
  = <[path := mtime]> (DagBag.file_last_changed self)
  ∧ match outcome with
    | ImportRaises msg =>
        DagBag.import_errors self' = <[path := msg]> (DagBag.import_errors self)
        ∧ DagBag.dags self' = DagBag.dags self
    | Imported ds =>
        DagBag.import_errors self' = DagBag.import_errors self
        ∧ dom (DagBag.dags self) ⊆ dom (DagBag.dags self')
        ∧ forall d, d ∈ ds -> DAG.dag_id d ∈ dom (DagBag.dags self')
    end.
Proof. intros Hne. unfold visited. by rewrite decide_False. Qed.

Lemma visited_same path mtime outcome (self self' : DagBag.t) :
  DagBag.file_last_changed self !! path = Some mtime ->
  visited path mtime outcome self self' -> self' = self.
Proof. intros He. unfold visited. by rewrite decide_True. Qed.

(** The first load of a folder with a valid and a failing file, visited in
    either order. *)
Lemma first_load_visits p_ok p_bad m_ok m_bad d_ok msg
    (bag0 s1 s2 : DagBag.t) :
  p_ok ≠ p_bad ->
  DagBag.import_errors bag0 = ∅ ->
  DagBag.file_last_changed bag0 !! p_ok = None ->
  DagBag.file_last_changed bag0 !! p_bad = None ->
  (visited p_ok m_ok (Imported [d_ok]) bag0 s1
   ∧ visited p_bad m_bad (ImportRaises msg) s1 s2)
  ∨ (visited p_bad m_bad (ImportRaises msg) bag0 s1
     ∧ visited p_ok m_ok (Imported [d_ok]) s1 s2) ->
  DagBag.import_errors s2 = {[p_bad := msg]}
  ∧ DAG.dag_id d_ok ∈ dom (DagBag.dags s2)
  ∧ DagBag.file_last_changed s2 !! p_ok = Some m_ok
  ∧ DagBag.file_last_changed s2 !! p_bad = Some m_bad.
Proof.
  intros Hne Hie Hok Hbad [[Hv1 Hv2]|[Hv1 Hv2]].
  - apply visited_new in Hv1 as (Hf1 & Hie1 & _ & Hd1); [|congruence].
    apply visited_new in Hv2 as (Hf2 & Hie2 & Hd2).
    + rewrite Hie2, Hie1, Hie, Hd2, Hf2, Hf1. split; [by rewrite insert_empty|].
      split; [apply Hd1, list_elem_of_here|].
      split; [by rewrite lookup_insert_ne, lookup_insert_eq by done|].
      by rewrite lookup_insert_eq.
    + rewrite Hf1, lookup_insert_ne by done. congruence.
  - apply visited_new in Hv1 as (Hf1 & Hie1 & Hd1); [|congruence].
    apply visited_new in Hv2 as (Hf2 & Hie2 & _ & Hd2).
    + rewrite Hie2, Hie1, Hie, Hf2, Hf1. split; [by rewrite insert_empty|].
      split; [apply Hd2, list_elem_of_here|].
      split; [by rewrite lookup_insert_eq|].
      by rewrite lookup_insert_ne, lookup_insert_eq by done.
    + rewrite Hf1, lookup_insert_ne by done. congruence.
Qed.

(** The second load, after the failing file was rewritten: the unchanged
    file is skipped and the DAG of the rewritten one is bagged; the import
    errors stay as they were. *)
Lemma second_load_visits p_ok p_bad m_ok m_bad m_fixed d_ok d_fixed
    (bag1 s1 s2 : DagBag.t) :
  p_ok ≠ p_bad ->
  m_fixed ≠ m_bad ->
  DagBag.file_last_changed bag1 !! p_ok = Some m_ok ->
  DagBag.file_last_changed bag1 !! p_bad = Some m_bad ->
  (visited p_ok m_ok (Imported [d_ok]) bag1 s1
   ∧ visited p_bad m_fixed (Imported [d_fixed]) s1 s2)
  ∨ (visited p_bad m_fixed (Imported [d_fixed]) bag1 s1
     ∧ visited p_ok m_ok (Imported [d_ok]) s1 s2) ->
  DagBag.import_errors s2 = DagBag.import_errors bag1
  ∧ dom (DagBag.dags bag1) ⊆ dom (DagBag.dags s2)
  ∧ DAG.dag_id d_fixed ∈ dom (DagBag.dags s2).
Proof.
  intros Hpne Hne Hok Hbad [[Hv1 Hv2]|[Hv1 Hv2]].
  - apply visited_same in Hv1 as ->; [|done].
    apply visited_new in Hv2 as (_ & Hie2 & Hdom & Hd2); [|congruence].
    split; [done|]. split; [done|]. apply Hd2, list_elem_of_here.
  - apply visited_new in Hv1 as (Hf1 & Hie1 & Hdom & Hd1); [|congruence].
    apply visited_same in Hv2 as ->.
    + split; [done|]. split; [done|]. apply Hd1, list_elem_of_here.
    + by rewrite Hf1, lookup_insert_ne.
Qed.

(** C5, as the code has it. Given a folder with one valid DAG file and one
    file that raises on import (two Python sources that pass the content
    check, listed in either order), [collect_dags] on a bag without import
    errors that has not read the files registers the valid DAG and records
    exactly one import error, keyed by the path of the failing file.  A
    second [collect_dags] on that bag, after the failing file was rewritten
    into a valid DAG file, registers the DAG of that file and keeps the
    first DAG; the import errors are the same as before the call. *)
Theorem collect_dags_records_import_error `{Settings} `{Regex}
    (os1 os2 : OS) (bag0 : DagBag.t) (folder f_ok f_bad : string)
    (d_ok d_fixed : DAG.t) (msg : string) (m_ok m_bad m_fixed now1 now2 : Z) :
  let p_ok := os_path_join os1 folder f_ok in
  let p_bad := os_path_join os1 folder f_bad in
  two_file_folder os1 folder f_ok f_bad ∨ two_file_folder os1 folder f_bad f_ok ->
  two_file_folder os2 folder f_ok f_bad ∨ two_file_folder os2 folder f_bad f_ok ->
  os_path_join os2 = os_path_join os1 ->
  python_source os1 p_ok m_ok (Imported [d_ok]) ->
  python_source os1 p_bad m_bad (ImportRaises msg) ->
  python_source os2 p_ok m_ok (Imported [d_ok]) ->
  python_source os2 p_bad m_fixed (Imported [d_fixed]) ->
  m_fixed ≠ m_bad ->
  DagBag.import_errors bag0 = ∅ ->
  DagBag.file_last_changed bag0 !! p_ok = None ->
  DagBag.file_last_changed bag0 !! p_bad = None ->
  exists bag1 bag2,
    DagBag.collect_dags os1 bag0 (Some folder) true now1 = Some (Ok bag1)
    ∧ DAG.dag_id d_ok ∈ dom (DagBag.dags bag1)
    ∧ DagBag.import_errors bag1 = {[p_bad := msg]}
    ∧ DagBag.collect_dags os2 bag1 (Some folder) true now2 = Some (Ok bag2)
    ∧ DAG.dag_id d_fixed ∈ dom (DagBag.dags bag2)
    ∧ DAG.dag_id d_ok ∈ dom (DagBag.dags bag2)
    ∧ DagBag.import_errors bag2 = {[p_bad := msg]}.
Proof.
  intros p_ok p_bad Hdir1 Hdir2 Hjoin Hok1 Hbad1 Hok2 Hbad2 Hm Hie Hfok Hfbad.
  assert (Hpne : p_ok ≠ p_bad).
  { destruct Hdir1 as [Hd|Hd]; destruct Hd as (_ & _ & _ & _ & _ & _ & Hne);
      [done | by apply not_eq_sym]. }
  (* the first load *)
  assert (exists s2 stats,
            DagBag.collect_dags os1 bag0 (Some folder) true now1
            = Some (Ok (DagBag.set_dagbag_stats stats s2))
            ∧ DagBag.import_errors s2 = {[p_bad := msg]}
            ∧ DAG.dag_id d_ok ∈ dom (DagBag.dags s2)
            ∧ DagBag.file_last_changed s2 !! p_ok = Some m_ok
            ∧ DagBag.file_last_changed s2 !! p_bad = Some m_bad)
    as (b1 & stats1 & Hc1 & Hie1 & Hd1 & Hfok1 & Hfbad1).
  { destruct Hdir1 as [Hd|Hd].
    - destruct (collect_dags_two_files os1 bag0 folder f_ok f_bad _ _ _ _ now1
                  Hd Hok1 Hbad1) as (s1 & s2 & stats & Hc & Hv1 & Hv2).
      exists s2, stats. split; [exact Hc|].
      apply (first_load_visits p_ok p_bad m_ok m_bad d_ok msg bag0 s1 s2); auto.
    - destruct (collect_dags_two_files os1 bag0 folder f_bad f_ok _ _ _ _ now1
                  Hd Hbad1 Hok1) as (s1 & s2 & stats & Hc & Hv1 & Hv2).
      exists s2, stats. split; [exact Hc|].
      apply (first_load_visits p_ok p_bad m_ok m_bad d_ok msg bag0 s1 s2); auto. }
  set (bag1 := DagBag.set_dagbag_stats stats1 b1) in *.
  (* the second load *)
  assert (exists s2 stats,
            DagBag.collect_dags os2 bag1 (Some folder) true now2
            = Some (Ok (DagBag.set_dagbag_stats stats s2))
            ∧ DagBag.import_errors s2 = DagBag.import_errors bag1
            ∧ dom (DagBag.dags bag1) ⊆ dom (DagBag.dags s2)
            ∧ DAG.dag_id d_fixed ∈ dom (DagBag.dags s2))
    as (b2 & stats2 & Hc2 & Hie2 & Hdom2 & Hd2).
  { unfold p_ok, p_bad in Hok2, Hbad2. rewrite <- Hjoin in Hok2, Hbad2.
    destruct Hdir2 as [Hd|Hd].
    - destruct (collect_dags_two_files os2 bag1 folder f_ok f_bad _ _ _ _ now2
                  Hd Hok2 Hbad2) as (s1 & s2 & stats & Hc & Hv1 & Hv2).
      exists s2, stats. split; [exact Hc|]. rewrite Hjoin in Hv1, Hv2.
      apply (second_load_visits p_ok p_bad m_ok m_bad m_fixed d_ok d_fixed
               bag1 s1 s2); auto.
    - destruct (collect_dags_two_files os2 bag1 folder f_bad f_ok _ _ _ _ now2
                  Hd Hbad2 Hok2) as (s1 & s2 & stats & Hc & Hv1 & Hv2).
      exists s2, stats. split; [exact Hc|]. rewrite Hjoin in Hv1, Hv2.
      apply (second_load_visits p_ok p_bad m_ok m_bad m_fixed d_ok d_fixed
               bag1 s1 s2); auto. }
  exists bag1, (DagBag.set_dagbag_stats stats2 b2).
  split; [exact Hc1|]. split; [exact Hd1|]. split; [exact Hie1|].
  split; [exact Hc2|]. split; [exact Hd2|]. split; [by apply Hdom2|].
  cbn. rewrite Hie2. exact Hie1.
Qed.

Lemma broken_folder_listing : two_file_folder broken_folder "/dags" "good.py" "bad.py".
Proof. repeat split; vm_compute; congruence. Qed.

Lemma repaired_folder_listing :
  two_file_folder repaired_folder "/dags" "good.py" "bad.py".
Proof. repeat split; vm_compute; congruence. Qed.

Lemma broken_folder_good :
  python_source broken_folder "/dags/good.py" 100 (Imported [chain_dag]).
Proof. eexists. split; [vm_compute; reflexivity|]. by repeat split. Qed.

Lemma broken_folder_bad :
  python_source broken_folder "/dags/bad.py" 200
    (ImportRaises "name undefined_name is not defined").
Proof. eexists. split; [vm_compute; reflexivity|]. by repeat split. Qed.

Lemma repaired_folder_good :
  python_source repaired_folder "/dags/good.py" 100 (Imported [chain_dag]).
Proof. eexists. split; [vm_compute; reflexivity|]. by repeat split. Qed.

Lemma repaired_folder_bad :
  python_source repaired_folder "/dags/bad.py" 300 (Imported [fixed_dag]).
Proof. eexists. split; [vm_compute; reflexivity|]. by repeat split. Qed.

Lemma collect_dags_records_import_error_witness :
  exists bag1 bag2,
    DagBag.collect_dags (H := no_policy) (H0 := exact_regex) broken_folder
      (DagBag.new "/dags") (Some "/dags") true 1 = Some (Ok bag1)
    ∧ "chain" ∈ dom (DagBag.dags bag1)
    ∧ DagBag.import_errors bag1
      = {["/dags/bad.py" := "name undefined_name is not defined"]}
    ∧ DagBag.collect_dags (H := no_policy) (H0 := exact_regex) repaired_folder
        bag1 (Some "/dags") true 2 = Some (Ok bag2)
    ∧ "fixed" ∈ dom (DagBag.dags bag2).
Proof.
  destruct (collect_dags_records_import_error (H := no_policy) (H0 := exact_regex)
              broken_folder repaired_folder (DagBag.new "/dags")
              "/dags" "good.py" "bad.py" chain_dag fixed_dag
              "name undefined_name is not defined" 100 200 300 1 2
              (or_introl broken_folder_listing)
              (or_introl repaired_folder_listing)
              eq_refl broken_folder_good broken_folder_bad
              repaired_folder_good repaired_folder_bad)
    as (bag1 & bag2 & Hc1 & Hd1 & Hie1 & Hc2 & Hd2 & _ & _);
    [discriminate | reflexivity | reflexivity | reflexivity |].
  exists bag1, bag2. split; [exact Hc1|]. split; [exact Hd1|].
  split; [exact Hie1|]. split; [exact Hc2 | exact Hd2].
Defined.

(** C5 as stated fails: after bad.py was rewritten and the folder was
    collected again, the DAG of bad.py is registered, and the path of
    bad.py is still in the import errors of the bag. *)
Lemma collect_dags_keeps_stale_import_error :
  exists bag1 bag2,
    DagBag.collect_dags (H := no_policy) (H0 := exact_regex) broken_folder
      (DagBag.new "/dags") (Some "/dags") true 1 = Some (Ok bag1)
    ∧ DagBag.collect_dags (H := no_policy) (H0 := exact_regex) repaired_folder
        bag1 (Some "/dags") true 2 = Some (Ok bag2)
    ∧ is_Some (DagBag.dags bag2 !! "fixed")
    ∧ DagBag.import_errors bag2 !! "/dags/bad.py"
      = Some "name undefined_name is not defined"
    ∧ ¬ ("/dags/bad.py" ∉ dom (DagBag.import_errors bag2)).
Proof.
  eexists _, _. split; [vm_compute; reflexivity|].
  split; [vm_compute; reflexivity|].
  split; [vm_compute; eexists; reflexivity|].
  split; [vm_compute; reflexivity|].
  intros Hn. apply Hn, elem_of_dom. vm_compute. eexists; reflexivity.
Qed.

(** ** The definitions on concrete inputs *)

Example topological_sort_reversed_chain :
  TopSort.topological_sort reversed_chain_dag
  = Some (Ok [ DAG.mkBaseOperator "A" [] ["B"] 0 None;
               DAG.mkBaseOperator "B" ["A"] ["C"] 0 None;
               DAG.mkBaseOperator "C" ["B"] [] 0 None ]).
Proof. vm_compute. reflexivity. Qed.

Example topological_sort_late_cycle :
  TopSort.topological_sort late_cycle_dag
  = Some (Raise (AirflowException "A cyclic dependency occurred in dag: late"))
  ∧ (fun r => option_map (fun us => (map DAG.task_id (fst us), map DAG.task_id (snd us))) r)
      (TopSort.after_passes late_cycle_dag 1 (DAG.tasks late_cycle_dag) [])
    = Some (["X"; "Y"], ["S"]).
Proof. split; vm_compute; reflexivity. Qed.

Example topological_sort_dangling_upstream :
  TopSort.topological_sort
    (DAG.set_task_dict [("A", DAG.mkBaseOperator "A" ["gone"] [] 0 None)] chain_dag)
  = Some (Raise (AirflowException "Task gone not found")).
Proof. vm_compute. reflexivity. Qed.

Example get_many_orders_rows :
  (fun r => match r with
            | Ok rows => map XComRow.id rows
            | Raise _ => []
            end)
    (XCom.get_many (H := bytes_codec) 7 (Some "rows") NoIds NoIds false
       XCom.limit_default None example_xcom_session)
  = [3%Z; 2%Z; 1%Z].
Proof. vm_compute. reflexivity. Qed.

Example clear_for_real_changes_the_session :
  DagClear.clear (H := plain_like) (H0 := yes_console) chain_dag None None
    false false true true true false 50 (chain_session 7)
  = Ok (DagClear.Count 2,
        Session.mk
          [ TaskInstance.mk "chain" "A" 0 State.SHUTDOWN 1 0 (Some 7%Z) None;
            TaskInstance.mk "chain" "B" 0 State.NONE 2 4 None None ]
          [BaseJob.mk 7 State.SHUTDOWN] [] [] [] [] 1).
Proof. vm_compute. reflexivity. Qed.

Example previous_schedule_overflow :
  Schedule.previous_schedule (H := hourly_croniter) chain_dag 5
  = Raise (OverflowError "date value out of range").
Proof. vm_compute. reflexivity. Qed.

(** ** __init__.py: further properties of clear_task_instances *)

Lemma clear_task_instance_session dag ti job_ids session :
  (forall d, dag = Some d -> keys_are_task_ids d) ->
  exists session',
    clear_task_instance dag ti job_ids session
    = Ok (cleared dag ti, job_ids ++ collected_job_ids [ti], session')
    ∧ Session.task_instances session'
      = merged_rows dag [ti] (Session.task_instances session)
    ∧ Session.jobs session' = Session.jobs session
    ∧ Session.dag_runs session' = Session.dag_runs session.
Proof.
  intros Hk.
  destruct (clear_task_instance_cleared dag ti job_ids session Hk)
    as (s' & Hc & Hj & Hd).
  exists s'. split; [exact Hc|]. split; [|done].
  unfold clear_task_instance in Hc. unfold merged_rows. cbn [fold_left].
  destruct (decide (TaskInstance.state ti = State.RUNNING)) as [Hr|Hr].
  - destruct (TaskInstance.job_id ti) as [j|];
      [destruct (negb (Z.eqb j 0))|]; by injection Hc as _ _ <-.
  - match type of Hc with
    | mbind _ ?m = _ => destruct m as [ti1|e]
    end; cbn [mbind result_bind] in Hc; [|discriminate].
    injection Hc as Hti _ <-. cbn. by rewrite Hti.
Qed.

Lemma merged_rows_cons dag ti tis rows :
  merged_rows dag (ti :: tis) rows = merged_rows dag tis (merged_rows dag [ti] rows).
Proof. reflexivity. Qed.

Lemma clear_task_instances_loop_session dag tis job_ids session :
  (forall d, dag = Some d -> keys_are_task_ids d) ->
  exists session',
    clear_task_instances_loop dag tis job_ids session
    = Ok (map (cleared dag) tis, job_ids ++ collected_job_ids tis, session')
    ∧ Session.task_instances session'
      = merged_rows dag tis (Session.task_instances session)
    ∧ Session.jobs session' = Session.jobs session
    ∧ Session.dag_runs session' = Session.dag_runs session.
Proof.
  intros Hk. revert job_ids session.
  induction tis as [|ti tis IH]; intros job_ids session.
  - exists session. cbn. by rewrite app_nil_r.
  - destruct (clear_task_instance_session dag ti job_ids session Hk)
      as (s1 & Hc & Ht1 & Hj1 & Hd1).
    destruct (IH (job_ids ++ collected_job_ids [ti]) s1)
      as (s2 & Hl & Ht2 & Hj2 & Hd2).
    cbn [clear_task_instances_loop]. rewrite Hc. cbn [mbind result_bind].
    rewrite Hl. cbn [mbind result_bind].
    exists s2. split; [|split; [|split; congruence]].
    + unfold collected_job_ids. simpl. by rewrite app_nil_r, app_assoc.
    + by rewrite merged_rows_cons, Ht2, Ht1.
Qed.

(** The whole effect of a call on a DAG whose keys are its task ids. *)
Lemma clear_task_instances_result tis session activate_dag_runs dag now :
  (forall d, dag = Some d -> keys_are_task_ids d) ->
  exists session',
    clear_task_instances tis session activate_dag_runs dag now
    = Ok (map (cleared dag) tis, collected_job_ids tis, session')
    ∧ Session.task_instances session'
      = merged_rows dag tis (Session.task_instances session)
    ∧ Session.jobs session'
      = match collected_job_ids tis with
        | [] => Session.jobs session
        | _ :: _ => shutdown_jobs (collected_job_ids tis) (Session.jobs session)
        end
    ∧ Session.dag_runs session'
      = if activate_dag_runs && negb (bool_decide (tis = []))
        then activate_runs tis now (Session.dag_runs session)
        else Session.dag_runs session.
Proof.
  intros Hk. unfold clear_task_instances.
  destruct (clear_task_instances_loop_session dag tis [] session Hk)
    as (s1 & Hl & Ht & Hj & Hd).
  rewrite Hl. cbn [mbind result_bind app]. eexists. split; [reflexivity|].
  destruct (collected_job_ids tis) as [|j js];
    destruct (activate_dag_runs && negb (bool_decide (tis = []))); cbn;
    rewrite ?Ht, ?Hj, ?Hd; done.
Qed.

Lemma chain_dag_keys_opt d : Some chain_dag = Some d -> keys_are_task_ids d.
Proof. intros [= <-]. exact chain_dag_keys. Qed.

Lemma cleared_keeps_identity dag ti :
  ti_key (cleared dag ti) = ti_key ti
  ∧ TaskInstance.try_number (cleared dag ti) = TaskInstance.try_number ti
  ∧ TaskInstance.job_id (cleared dag ti) = TaskInstance.job_id ti
  ∧ TaskInstance.pool (cleared dag ti) = TaskInstance.pool ti.
Proof.
  unfold cleared, ti_key. case_decide; [destruct (bound_job ti)|]; done.
Qed.

(** X1. [clear_task_instances] returns one instance per given instance, in
    order, and changes neither the key (dag_id, task_id, execution_date)
    nor try_number, job_id or pool of any of them: only state and max_tries
    are written. *)
Theorem clear_task_instances_keeps_identity
    (tis : list TaskInstance.t) (session : Session.t) (activate_dag_runs : bool)
    (dag : option DAG.t) (now : Z) :
  (forall d, dag = Some d -> keys_are_task_ids d) ->
  exists tis' job_ids session',
    clear_task_instances tis session activate_dag_runs dag now
    = Ok (tis', job_ids, session')
    ∧ length tis' = length tis
    ∧ Forall2 (fun ti ti' =>
                 ti_key ti' = ti_key ti
                 ∧ TaskInstance.try_number ti' = TaskInstance.try_number ti
                 ∧ TaskInstance.job_id ti' = TaskInstance.job_id ti
                 ∧ TaskInstance.pool ti' = TaskInstance.pool ti)
              tis tis'.
Proof.
  intros Hk.
  destruct (clear_task_instances_result tis session activate_dag_runs dag now Hk)
    as (s' & Hc & _).
  eexists _, _, _. split; [exact Hc|]. split; [apply length_map|].
  clear Hc. induction tis as [|ti tis IH]; constructor; [|exact IH].
  apply cleared_keeps_identity.
Qed.

Lemma clear_task_instances_keeps_identity_witness :
  exists tis' job_ids session',
    clear_task_instances [running_ti (Some 7%Z); failed_ti] chain_runs_session
      true (Some chain_dag) 9 = Ok (tis', job_ids, session')
    ∧ length tis' = 2.
Proof.
  destruct (clear_task_instances_keeps_identity
              [running_ti (Some 7%Z); failed_ti] chain_runs_session true
              (Some chain_dag) 9 chain_dag_keys_opt)
    as (tis' & job_ids & session' & Hc & Hlen & _).
  exists tis', job_ids, session'. split; [exact Hc | exact Hlen].
Defined.

(** X2. After [clear_task_instances], every instance that was not RUNNING
    is in state NONE with try_number <= max_tries + 1, so it may be tried
    again, provided no task of the supplied DAG has a negative retry count;
    when the owning task is not found, max_tries is not lowered. *)
Theorem clear_task_instances_leaves_a_try
    (tis : list TaskInstance.t) (session : Session.t) (activate_dag_runs : bool)
    (dag : option DAG.t) (now : Z) :
  (forall d, dag = Some d -> keys_are_task_ids d) ->
  retries_nonnegative dag ->
  exists tis' job_ids session',
    clear_task_instances tis session activate_dag_runs dag now
    = Ok (tis', job_ids, session')
    ∧ Forall2 (fun ti ti' =>
                 TaskInstance.state ti ≠ State.RUNNING ->
                 TaskInstance.state ti' = State.NONE
                 ∧ (TaskInstance.try_number ti' <= TaskInstance.max_tries ti' + 1)%Z
                 ∧ (spec_owning_task dag ti = None ->
                    (TaskInstance.max_tries ti <= TaskInstance.max_tries ti')%Z))
              tis tis'.
Proof.
  intros Hk Hret.
  destruct (clear_task_instances_result tis session activate_dag_runs dag now Hk)
    as (s' & Hc & _).
  eexists _, _, _. split; [exact Hc|].
  clear Hc. induction tis as [|ti tis IH]; constructor; [|exact IH].
  intros Hr. unfold cleared. rewrite decide_False by done. cbn.
  split; [done|]. unfold spec_max_tries.
  destruct (spec_owning_task dag ti) as [task|] eqn:Ht.
  - split; [|done].
    assert (0 <= DAG.retries task)%Z; [|lia].
    unfold spec_owning_task in Ht. destruct dag as [d|]; [|done].
    apply dict_get_Some_elem_of in Ht.
    specialize (Hret d eq_refl). rewrite Forall_forall in Hret.
    exact (Hret _ Ht).
  - split; [lia|]. intros _. lia.
Qed.

Lemma chain_dag_retries : retries_nonnegative (Some chain_dag).
Proof. intros d [= <-]. repeat constructor; done. Qed.

Lemma clear_task_instances_leaves_a_try_witness :
  exists tis' job_ids session',
    clear_task_instances [running_ti (Some 7%Z); failed_ti] chain_runs_session
      true (Some chain_dag) 9 = Ok (tis', job_ids, session').
Proof.
  destruct (clear_task_instances_leaves_a_try
              [running_ti (Some 7%Z); failed_ti] chain_runs_session true
              (Some chain_dag) 9 chain_dag_keys_opt chain_dag_retries)
    as (tis' & job_ids & session' & Hc & _).
  exists tis', job_ids, session'. exact Hc.
Defined.

Lemma run_selected_iff tis dr :
  bool_decide (DagRun.dag_id dr ∈ map TaskInstance.dag_id tis)
  && bool_decide (DagRun.execution_date dr ∈ map TaskInstance.execution_date tis)
  = true <-> run_selected tis dr.
Proof.
  rewrite andb_true_iff, !bool_decide_eq_true. unfold run_selected.
  rewrite !list_elem_of_In, !in_map_iff.
  split; intros [(t1 & H1 & I1) (t2 & H2 & I2)]; split.
  - exists t1. by rewrite list_elem_of_In.
  - exists t2. by rewrite list_elem_of_In.
  - exists t1. by rewrite <- list_elem_of_In.
  - exists t2. by rewrite <- list_elem_of_In.
Qed.

(** X3. With activate_dag_runs and a non-empty list of instances,
    [clear_task_instances] sets to RUNNING, with start_date now, every
    DagRun whose dag_id is the dag_id of some given instance and whose
    execution_date is the execution_date of some given instance (the two
    instances need not be the same); every other run, and every run when
    the flag is off or the list is empty, is left as it is.  No run is
    added or removed. *)
Theorem clear_task_instances_activates_runs
    (tis : list TaskInstance.t) (session : Session.t) (activate_dag_runs : bool)
    (dag : option DAG.t) (now : Z) :
  (forall d, dag = Some d -> keys_are_task_ids d) ->
  exists tis' job_ids session',
    clear_task_instances tis session activate_dag_runs dag now
    = Ok (tis', job_ids, session')
    ∧ Forall2 (fun dr dr' =>
                 (activate_dag_runs = true -> tis ≠ [] -> run_selected tis dr ->
                  dr' = DagRun.mk (DagRun.dag_id dr) (DagRun.execution_date dr)
                          (DagRun.run_id dr) State.RUNNING
                          (DagRun.external_trigger dr) (Some now))
                 ∧ (activate_dag_runs = false ∨ tis = [] ∨ ¬ run_selected tis dr ->
                    dr' = dr))
              (Session.dag_runs session) (Session.dag_runs session').
Proof.
  intros Hk.
  destruct (clear_task_instances_result tis session activate_dag_runs dag now Hk)
    as (s' & Hc & _ & _ & Hd).
  eexists _, _, _. split; [exact Hc|]. rewrite Hd. clear Hc Hd.
  destruct activate_dag_runs; cbn [andb].
  - case_bool_decide as Hnil; cbn [negb].
    + apply Forall2_same_length_lookup_2; [done|].
      intros i dr dr' H1 H2. assert (dr' = dr) as -> by congruence.
      split; [by intros _ Hne | done].
    + unfold activate_runs.
      induction (Session.dag_runs session) as [|dr runs IH]; constructor; [|exact IH].
      destruct (bool_decide (DagRun.dag_id dr ∈ map TaskInstance.dag_id tis)
                && bool_decide (DagRun.execution_date dr
                                ∈ map TaskInstance.execution_date tis)) eqn:Hsel.
      * split; [done|]. apply run_selected_iff in Hsel.
        intros [?|[?|?]]; done.
      * split; [|done]. intros _ _ Hs. apply run_selected_iff in Hs. congruence.
  - apply Forall2_same_length_lookup_2; [done|].
    intros i dr dr' H1 H2. assert (dr' = dr) as -> by congruence.
    split; [by intros ? | done].
Qed.

Lemma clear_task_instances_activates_runs_witness :
  exists tis' job_ids session',
    clear_task_instances [running_ti (Some 7%Z); failed_ti] chain_runs_session
      true (Some chain_dag) 9 = Ok (tis', job_ids, session')
    ∧ map DagRun.state (Session.dag_runs session')
      = [State.RUNNING; State.FAILED; State.SUCCESS].
Proof.
  destruct (clear_task_instances_activates_runs
              [running_ti (Some 7%Z); failed_ti] chain_runs_session true
              (Some chain_dag) 9 chain_dag_keys_opt)
    as (tis' & job_ids & session' & Hc & _).
  exists tis', job_ids, session'. split; [exact Hc|].
  vm_compute in Hc. injection Hc as _ _ <-. reflexivity.
Defined.

Lemma collected_job_ids_iff tis j :
  j ∈ collected_job_ids tis
  <-> exists ti, ti ∈ tis ∧ TaskInstance.state ti = State.RUNNING
        ∧ TaskInstance.job_id ti = Some j ∧ j ≠ 0%Z.
Proof.
  unfold collected_job_ids. rewrite list_elem_of_In, in_flat_map. split.
  - intros (ti & Hin & Hj). exists ti. split; [by apply list_elem_of_In|].
    case_decide as Hr; [|by destruct Hj]. unfold bound_job in Hj.
    destruct (TaskInstance.job_id ti) as [j0|]; [|by destruct Hj].
    destruct (Z.eqb_spec j0 0); [by destruct Hj|].
    destruct Hj as [->|[]]. done.
  - intros (ti & Hin & Hr & Hj & Hj0). exists ti.
    split; [by apply list_elem_of_In|].
    rewrite decide_True by done. unfold bound_job. rewrite Hj.
    destruct (Z.eqb_spec j 0); [done|]. by left.
Qed.

(** X4. [clear_task_instances] sets to SHUTDOWN exactly the jobs whose id
    is the non-zero job id of a RUNNING instance of the list; every other
    job is left as it is, and no job is added or removed. *)
Theorem clear_task_instances_shuts_down_bound_jobs
    (tis : list TaskInstance.t) (session : Session.t) (activate_dag_runs : bool)
    (dag : option DAG.t) (now : Z) :
  (forall d, dag = Some d -> keys_are_task_ids d) ->
  exists tis' job_ids session',
    clear_task_instances tis session activate_dag_runs dag now
    = Ok (tis', job_ids, session')
    ∧ Forall2 (fun job job' =>
                 let bound :=
                   exists ti, ti ∈ tis ∧ TaskInstance.state ti = State.RUNNING
                     ∧ TaskInstance.job_id ti = Some (BaseJob.id job)
                     ∧ BaseJob.id job ≠ 0%Z in
                 (bound -> job' = BaseJob.mk (BaseJob.id job) State.SHUTDOWN)
                 ∧ (¬ bound -> job' = job))
              (Session.jobs session) (Session.jobs session').
Proof.
  intros Hk.
  destruct (clear_task_instances_result tis session activate_dag_runs dag now Hk)
    as (s' & Hc & _ & Hj & _).
  eexists _, _, _. split; [exact Hc|]. rewrite Hj. clear Hc Hj.
  destruct (collected_job_ids tis) as [|j0 js] eqn:Hcol.
  - apply Forall2_same_length_lookup_2; [done|].
    intros i job job' H1 H2. assert (job' = job) as -> by congruence.
    split; [|done]. intros Hb. apply collected_job_ids_iff in Hb.
    rewrite Hcol in Hb. by apply elem_of_nil in Hb.
  - rewrite <- Hcol. unfold shutdown_jobs.
    induction (Session.jobs session) as [|job jobs IH]; constructor; [|exact IH].
    case_bool_decide as Hin; rewrite collected_job_ids_iff in Hin; by split.
Qed.

Lemma clear_task_instances_shuts_down_bound_jobs_witness :
  exists tis' job_ids session',
    clear_task_instances [running_ti (Some 7%Z); failed_ti] chain_runs_session
      true (Some chain_dag) 9 = Ok (tis', job_ids, session')
    ∧ map BaseJob.state (Session.jobs session') = [State.SHUTDOWN; State.RUNNING].
Proof.
  destruct (clear_task_instances_shuts_down_bound_jobs
              [running_ti (Some 7%Z); failed_ti] chain_runs_session true
              (Some chain_dag) 9 chain_dag_keys_opt)
    as (tis' & job_ids & session' & Hc & _).
  exists tis', job_ids, session'. split; [exact Hc|].
  vm_compute in Hc. injection Hc as _ _ <-. reflexivity.
Defined.

Lemma same_key_iff a b : TaskInstance.same_key a b = true <-> ti_key a = ti_key b.
Proof.
  unfold TaskInstance.same_key, ti_key.
  rewrite !andb_true_iff, !bool_decide_eq_true. split.
  - intros [[-> ->] ->]. done.
  - intros [= -> -> ->]. done.
Qed.

Lemma merge_ti_elem x rows : x ∈ Session.merge_ti x rows.
Proof.
  induction rows as [|r rows IH]; simpl; [apply list_elem_of_here|].
  destruct (TaskInstance.same_key r x);
    [apply list_elem_of_here | by apply list_elem_of_further].
Qed.

Lemma merge_ti_other x r rows :
  r ∈ rows -> ti_key r ≠ ti_key x -> r ∈ Session.merge_ti x rows.
Proof.
  intros Hin Hne. induction rows as [|r0 rows IH]; simpl.
  - by apply elem_of_nil in Hin.
  - destruct (TaskInstance.same_key r0 x) eqn:Hs.
    + apply same_key_iff in Hs.
      apply elem_of_cons in Hin as [->|Hin]; [congruence|].
      by apply list_elem_of_further.
    + apply elem_of_cons in Hin as [->|Hin];
        [apply list_elem_of_here | by apply list_elem_of_further, IH].
Qed.

Lemma merged_rows_other dag tis : forall rows r,
  r ∈ rows ->
  (forall ti, ti ∈ tis -> TaskInstance.state ti ≠ State.RUNNING ->
     ti_key ti ≠ ti_key r) ->
  r ∈ merged_rows dag tis rows.
Proof.
  induction tis as [|ti tis IH]; intros rows r Hin Hne; [done|].
  rewrite merged_rows_cons. apply IH.
  - unfold merged_rows. cbn [fold_left]. case_decide as Hr; [done|].
    apply merge_ti_other; [done|].
    rewrite (proj1 (cleared_keeps_identity dag ti)).
    apply not_eq_sym, Hne; [apply list_elem_of_here | done].
  - intros ti' Hti'. apply Hne. by apply list_elem_of_further.
Qed.

Lemma merged_rows_reset dag tis : forall rows ti,
  NoDup (map ti_key tis) -> ti ∈ tis -> TaskInstance.state ti ≠ State.RUNNING ->
  cleared dag ti ∈ merged_rows dag tis rows.
Proof.
  induction tis as [|t0 tis IH]; intros rows ti Hnd Hin Hr.
  - by apply elem_of_nil in Hin.
  - cbn [map] in Hnd. apply NoDup_cons in Hnd as [Hfresh Hnd].
    rewrite merged_rows_cons.
    apply elem_of_cons in Hin as [->|Hin]; [|by apply IH].
    apply merged_rows_other.
    + unfold merged_rows. cbn [fold_left]. rewrite decide_False by done.
      apply merge_ti_elem.
    + intros ti' Hti' _ Heq. apply Hfresh.
      rewrite (proj1 (cleared_keeps_identity dag t0)) in Heq. rewrite <- Heq.
      apply list_elem_of_In, in_map. by apply list_elem_of_In.
Qed.

(** X5. When the given instances have pairwise distinct keys, every
    instance that [clear_task_instances] resets is, as reset, a row of the
    session after the call ([session.merge]), and every row of the session
    whose key is not the key of a reset instance is still there. *)
Theorem clear_task_instances_merges_reset_instances
    (tis : list TaskInstance.t) (session : Session.t) (activate_dag_runs : bool)
    (dag : option DAG.t) (now : Z) :
  (forall d, dag = Some d -> keys_are_task_ids d) ->
  NoDup (map ti_key tis) ->
  exists tis' job_ids session',
    clear_task_instances tis session activate_dag_runs dag now
    = Ok (tis', job_ids, session')
    ∧ Forall2 (fun ti ti' =>
                 TaskInstance.state ti ≠ State.RUNNING ->
                 TaskInstance.state ti' = State.NONE
                 ∧ ti' ∈ Session.task_instances session')
              tis tis'
    ∧ (forall r, r ∈ Session.task_instances session ->
         (forall ti, ti ∈ tis -> TaskInstance.state ti ≠ State.RUNNING ->
            ti_key ti ≠ ti_key r) ->
         r ∈ Session.task_instances session').
Proof.
  intros Hk Hnd.
  destruct (clear_task_instances_result tis session activate_dag_runs dag now Hk)
    as (s' & Hc & Ht & _).
  eexists _, _, _. split; [exact Hc|]. rewrite Ht. split.
  - apply Forall2_fmap_r, Forall_Forall2_diag, Forall_forall.
    intros ti Hti Hr. split; [|by apply merged_rows_reset].
    unfold cleared. by rewrite decide_False.
  - intros r Hr Hne. by apply merged_rows_other.
Qed.

Lemma clear_task_instances_merges_reset_instances_witness :
  exists tis' job_ids session',
    clear_task_instances [running_ti (Some 7%Z); failed_ti] chain_runs_session
      true (Some chain_dag) 9 = Ok (tis', job_ids, session')
    ∧ map TaskInstance.state (Session.task_instances session')
      = [State.RUNNING; State.NONE; State.SUCCESS].
Proof.
  destruct (clear_task_instances_merges_reset_instances
              [running_ti (Some 7%Z); failed_ti] chain_runs_session true
              (Some chain_dag) 9 chain_dag_keys_opt)
    as (tis' & job_ids & session' & Hc & _).
  { apply (bool_decide_unpack _). vm_compute. exact I. }
  exists tis', job_ids, session'. split; [exact Hc|].
  vm_compute in Hc. injection Hc as _ _ <-. reflexivity.
Defined.

(** ** dag.py: has_task and get_task *)

(** X6. In a DAG whose dict keys are its task ids, [has_task] holds of an
    id exactly when [get_task] returns; the returned task has the requested
    id and is a task of the DAG; for any other id [get_task] raises the
    AirflowException "Task <id> not found". *)
Theorem has_task_agrees_with_get_task (d : DAG.t) (tid : string) :
  keys_are_task_ids d ->
  (DAG.has_task d tid = true ->
   exists task, DAG.get_task d tid = Ok task
     ∧ DAG.task_id task = tid ∧ task ∈ DAG.tasks d)
  ∧ (DAG.has_task d tid = false ->
     DAG.get_task d tid = Raise (AirflowException ("Task " +:+ tid +:+ " not found"))).
Proof.
  intros Hk. split; intros Hh.
  - apply (has_task_dict_get d tid Hk) in Hh as [task Hg].
    exists task. unfold DAG.get_task. rewrite Hg. split; [done|].
    apply dict_get_Some_elem_of in Hg. split.
    + unfold keys_are_task_ids in Hk. rewrite Forall_forall in Hk.
      exact (Hk _ Hg).
    + unfold DAG.tasks. apply list_elem_of_In, in_map_iff.
      exists (tid, task). split; [done | by apply list_elem_of_In].
  - unfold DAG.get_task.
    destruct (DAG.dict_get (DAG.task_dict d) tid) as [task|] eqn:Hg; [|done].
    assert (DAG.has_task d tid = true) as Ht
      by (apply (has_task_dict_get d tid Hk); rewrite Hg; eauto).
    congruence.
Qed.

Lemma has_task_agrees_with_get_task_witness :
  (exists task, DAG.get_task chain_dag "B" = Ok task ∧ DAG.task_id task = "B")
  ∧ DAG.get_task chain_dag "D" = Raise (AirflowException "Task D not found").
Proof.
  split.
  - destruct (proj1 (has_task_agrees_with_get_task chain_dag "B" chain_dag_keys)
                eq_refl) as (task & Hg & Hid & _).
    exists task. split; [exact Hg | exact Hid].
  - exact (proj2 (has_task_agrees_with_get_task chain_dag "D" chain_dag_keys)
             eq_refl).
Defined.

Example has_task_without_get_task :
  DAG.has_task miskeyed_dag "A" = true
  ∧ DAG.get_task miskeyed_dag "A" = Raise (AirflowException "Task A not found").
Proof. split; vm_compute; reflexivity. Qed.

(** ** dag.py: further properties of topological_sort *)

Section TopSortMore.
Variable dag : DAG.t.
Hypothesis Hwf : wf_dag dag.

Local Abbreviation ids := (map DAG.task_id).

(** The loop ends within its budget of passes, with all tasks sorted or
    with the cycle error; the error comes with a cycle. *)
Lemma sort_loop_outcome :
  forall fuel u s,
    sort_invariant dag u s -> length u ≤ fuel ->
    (exists sorted,
       TopSort.sort_loop dag fuel u s = Some (Ok sorted)
       ∧ sort_invariant dag [] sorted)
    ∨ (TopSort.sort_loop dag fuel u s = Some (Raise (TopSort.cycle_error dag))
       ∧ has_cycle dag).
Proof.
  induction fuel as [|fuel IH]; intros u s Hinv Hlen.
  - destruct u; [|simpl in Hlen; lia]. left. by exists s.
  - destruct u as [|x u0] eqn:Hu; [left; by exists s|]. rewrite <- Hu in *.
    destruct (sort_invariant_snapshot dag Hwf u s Hinv) as [Hsub Hnd].
    destruct (sort_pass_spec dag Hwf u false u s Hinv Hsub Hnd)
      as (flag' & u' & s' & Hrun & Hinv' & Hlen' & Hfalse & Htrue & _).
    assert (Hloop : TopSort.sort_loop dag (S fuel) u s
              = if flag' then TopSort.sort_loop dag fuel u' s'
                else Some (Raise (TopSort.cycle_error dag))).
    { rewrite Hu. cbn [TopSort.sort_loop]. rewrite <- Hu. by rewrite Hrun. }
    rewrite Hloop. destruct flag'.
    + destruct (Htrue eq_refl) as [|Hlt]; [done|]. apply IH; [done|lia].
    + right. split; [done|].
      destruct (Hfalse eq_refl) as (_ & _ & _ & Hwait).
      apply (no_minimal_cycle (tc (upstream_edge dag)) (ids u)).
      * rewrite Hu. done.
      * intros xid Hx.
        apply list_elem_of_In, in_map_iff in Hx as (node & <- & Hnode).
        apply list_elem_of_In in Hnode.
        rewrite Forall_forall in Hwait.
        destruct (Hwait node Hnode) as (y & Hy & Hyu).
        exists y. split; [done|]. apply tc_once. exists node. split; [|done].
        apply wf_task_in_dict; [done|]. destruct Hinv as [Hp _]. rewrite <- Hp.
        apply elem_of_app. by right.
Qed.

(** One pass over tasks that are registered after their upstream tasks
    resolves every one of them. *)
Lemma sort_pass_in_order (suffix : list DAG.BaseOperator) :
  forall flag prefix,
    prefix ++ suffix = DAG.tasks dag ->
    after_upstream (DAG.tasks dag) ->
    TopSort.sort_pass dag suffix flag suffix prefix
    = Ok (match suffix with [] => flag | _ :: _ => true end, [], prefix ++ suffix).
Proof.
  induction suffix as [|node rest IH]; intros flag prefix Hsplit Hord.
  - cbn. by rewrite app_nil_r.
  - assert (Hnt : node ∈ DAG.tasks dag).
    { rewrite <- Hsplit. apply elem_of_app. right. apply list_elem_of_here. }
    destruct (wf_upstream_list dag Hwf node Hnt) as (ups & Hups & Hupids).
    cbn [TopSort.sort_pass]. rewrite Hups. cbn [mbind result_bind].
    assert (Hnd : NoDup (ids (prefix ++ node :: rest))).
    { rewrite Hsplit, (wf_tasks_ids dag Hwf). apply Hwf. }
    assert (Hfree : existsb (fun edge => DAG.task_in edge (node :: rest)) ups = false).
    { apply not_true_is_false. intros Hb.
      apply blocked_iff in Hb as (y & Hy & Hyu). rewrite Hupids in Hy.
      assert (Hi : DAG.tasks dag !! length prefix = Some node).
      { rewrite <- Hsplit. by rewrite list_lookup_middle. }
      destruct (Hord _ _ _ Hi Hy) as (j & tu & Hj & Htu & Hid).
      rewrite <- Hsplit in Htu. rewrite lookup_app_l in Htu by done.
      rewrite map_app in Hnd. apply NoDup_app in Hnd as (_ & Hdisj & _).
      apply (Hdisj y); [|done].
      rewrite <- Hid. apply list_elem_of_In, in_map, list_elem_of_In.
      by eapply list_elem_of_lookup_2. }
    rewrite Hfree. cbn [DAG.list_remove]. rewrite decide_True by done.
    cbn [mbind result_bind].
    rewrite (IH true (prefix ++ [node])); [|by rewrite <- app_assoc|done].
    rewrite <- app_assoc. by destruct rest.
Qed.

End TopSortMore.

(** X7. On every well-formed DAG [topological_sort] ends within one pass
    per task and has one of two outcomes: it returns a permutation of the
    tasks in dependency order, and then the DAG has no cycle; or it raises
    the cycle error, and then the DAG has a cycle.  It raises no other
    exception. *)
Theorem topological_sort_sorts_or_finds_cycle (dag : DAG.t) :
  wf_dag dag ->
  (exists sorted,
     TopSort.topological_sort dag = Some (Ok sorted)
     ∧ sorted ≡ₚ DAG.tasks dag ∧ after_upstream sorted ∧ acyclic dag)
  ∨ (TopSort.topological_sort dag = Some (Raise (TopSort.cycle_error dag))
     ∧ has_cycle dag).
Proof.
  intros Hwf. destruct (DAG.tasks dag) as [|t0 ts] eqn:Ht.
  - left. exists []. assert (Hs : TopSort.topological_sort dag = Some (Ok [])).
    { unfold TopSort.topological_sort. by rewrite Ht. }
    split; [done|]. split; [done|]. split.
    + intros i t u Hi. by rewrite lookup_nil in Hi.
    + by apply (sorted_dag_acyclic dag []).
  - assert (Hne : DAG.tasks dag ≠ []) by (by rewrite Ht).
    rewrite (topological_sort_loop dag Hne), <- Ht.
    destruct (sort_loop_outcome dag Hwf (length (DAG.tasks dag)) (DAG.tasks dag) []
                (sort_invariant_init dag)) as [(sorted & Hs & Hp & Ha)|[Hr Hc]];
      [done| |by right].
    left. exists sorted. split; [done|]. rewrite app_nil_r in Hp.
    split; [done|]. split; [done|].
    apply (sorted_dag_acyclic dag sorted Hwf).
    by rewrite (topological_sort_loop dag Hne).
Qed.

Lemma topological_sort_sorts_or_finds_cycle_witness :
  (exists sorted, TopSort.topological_sort chain_dag = Some (Ok sorted))
  ∨ TopSort.topological_sort chain_dag
    = Some (Raise (TopSort.cycle_error chain_dag)).
Proof.
  destruct (topological_sort_sorts_or_finds_cycle chain_dag chain_dag_wf)
    as [(sorted & Hs & _)|[Hr _]].
  - left. exists sorted. exact Hs.
  - right. exact Hr.
Defined.

(** X8. When the tasks of a well-formed DAG are registered after their
    upstream tasks, [topological_sort] returns them in the order of
    registration. *)
Theorem topological_sort_keeps_registration_order (dag : DAG.t) :
  wf_dag dag -> after_upstream (DAG.tasks dag) ->
  TopSort.topological_sort dag = Some (Ok (DAG.tasks dag)).
Proof.
  intros Hwf Hord. unfold TopSort.topological_sort.
  pose proof (sort_pass_in_order dag Hwf (DAG.tasks dag) false [] eq_refl Hord)
    as Hpass.
  destruct (DAG.tasks dag) as [|t0 ts]; [done|].
  cbn [length Nat.eqb TopSort.sort_loop]. rewrite Hpass. by destruct (length ts).
Qed.

Lemma chain_dag_in_order : after_upstream (DAG.tasks chain_dag).
Proof.
  intros i t u Hi Hu.
  destruct i as [|[|[|i]]]; cbn in Hi; [| | |done]; injection Hi as <-; cbn in Hu.
  - by apply elem_of_nil in Hu.
  - apply list_elem_of_singleton in Hu as ->. exists 0, (DAG.mkBaseOperator "A" [] ["B"] 3 None).
    split; [lia|done].
  - apply list_elem_of_singleton in Hu as ->.
    exists 1, (DAG.mkBaseOperator "B" ["A"] ["C"] 3 None). split; [lia|done].
Qed.

Lemma topological_sort_keeps_registration_order_witness :
  TopSort.topological_sort chain_dag = Some (Ok (DAG.tasks chain_dag)).
Proof.
  exact (topological_sort_keeps_registration_order chain_dag chain_dag_wf
           chain_dag_in_order).
Defined.

(** ** dag.py: further properties of sub_dag *)

Lemma dict_set_elem {A : Type} (d : list (string * A)) k v kv :
  kv ∈ DAG.dict_set d k v -> kv = (k, v) ∨ kv ∈ d.
Proof.
  induction d as [|[k' v'] d IH]; simpl.
  - intros Hin. apply list_elem_of_singleton in Hin. by left.
  - case_decide as Hk; intros Hin; apply elem_of_cons in Hin as [->|Hin].
    + by left.
    + right. by apply list_elem_of_further.
    + right. apply list_elem_of_here.
    + destruct (IH Hin) as [->|Hd]; [by left|]. right. by apply list_elem_of_further.
Qed.

Lemma dict_set_keys {A : Type} (d : list (string * A)) k v :
  map fst (DAG.dict_set d k v)
  = if decide (k ∈ map fst d) then map fst d else map fst d ++ [k].
Proof.
  induction d as [|[k' v'] d IH]; simpl.
  - done.
  - destruct (decide (k' = k)) as [Hk|Hk].
    + subst k'. simpl. rewrite decide_True; [done | apply list_elem_of_here].
    + simpl. rewrite IH. destruct (decide (k ∈ map fst d)) as [Hin|Hin].
      * rewrite decide_True; [done | by apply list_elem_of_further].
      * rewrite decide_False; [done|]. rewrite not_elem_of_cons. split; congruence.
Qed.

Lemma dict_set_keys_NoDup {A : Type} (d : list (string * A)) k v :
  NoDup (map fst d) -> NoDup (map fst (DAG.dict_set d k v)).
Proof.
  intros Hnd. rewrite dict_set_keys. case_decide as Hk; [done|].
  apply NoDup_app. split; [done|]. split; [|apply NoDup_singleton].
  intros x Hx Hxk. apply list_elem_of_singleton in Hxk. congruence.
Qed.

Lemma dict_set_keys_in {A : Type} (d : list (string * A)) k v k' :
  k' ∈ map fst (DAG.dict_set d k v) <-> k' = k ∨ k' ∈ map fst d.
Proof.
  rewrite dict_set_keys. case_decide as Hk.
  - split; [by right|]. by intros [->|?].
  - rewrite elem_of_app, list_elem_of_singleton. tauto.
Qed.

(** The dict that [sub_dag] builds from a list of tasks. *)
Lemma dict_of_tasks_spec (l : list DAG.BaseOperator) :
  let d := SubDag.dict_of_tasks l in
  NoDup (map fst d)
  ∧ Forall (fun kv => DAG.task_id (snd kv) = fst kv) d
  ∧ (forall kv, kv ∈ d -> snd kv ∈ l)
  ∧ (forall t, t ∈ l -> DAG.task_id t ∈ map fst d).
Proof.
  unfold SubDag.dict_of_tasks.
  assert (Hgen : forall l (d0 : list (string * DAG.BaseOperator)),
            NoDup (map fst d0) ->
            Forall (fun kv => DAG.task_id (snd kv) = fst kv) d0 ->
            let d := fold_left (fun d t => DAG.dict_set d (DAG.task_id t) t) l d0 in
            NoDup (map fst d)
            ∧ Forall (fun kv => DAG.task_id (snd kv) = fst kv) d
            ∧ (forall kv, kv ∈ d -> kv ∈ d0 ∨ snd kv ∈ l)
            ∧ (forall k, k ∈ map fst d0 -> k ∈ map fst d)
            ∧ (forall t, t ∈ l -> DAG.task_id t ∈ map fst d)).
  { clear l. induction l as [|t l IH]; intros d0 Hnd Hk; cbn [fold_left].
    - split; [done|]. split; [done|]. split; [by left|]. split; [done|].
      intros t Ht. by apply elem_of_nil in Ht.
    - destruct (IH (DAG.dict_set d0 (DAG.task_id t) t)) as (H1 & H2 & H3 & H4 & H5).
      + by apply dict_set_keys_NoDup.
      + apply Forall_forall. intros kv Hkv.
        apply dict_set_elem in Hkv as [->|Hkv]; [done|].
        rewrite Forall_forall in Hk. by apply Hk.
      + split; [done|]. split; [done|]. split; [|split].
        * intros kv Hkv. destruct (H3 kv Hkv) as [Hd|Hl].
          -- apply dict_set_elem in Hd as [->|Hd]; [|by left].
             right. apply list_elem_of_here.
          -- right. by apply list_elem_of_further.
        * intros k Hk0. apply H4, dict_set_keys_in. by right.
        * intros t' Ht'. apply elem_of_cons in Ht' as [->|Ht']; [|by apply H5].
          apply H4, dict_set_keys_in. by left. }
  destruct (Hgen l [] (NoDup_nil_2) (Forall_nil_2 _)) as (H1 & H2 & H3 & _ & H5).
  split; [done|]. split; [done|]. split; [|done].
  intros kv Hkv. destruct (H3 kv Hkv) as [Hn|?]; [|done].
  by apply elem_of_nil in Hn.
Qed.

Section SubDagFacts.
Context `{Regex}.
Variable dag : DAG.t.
Hypothesis Hup : edges_closed dag.
Hypothesis Hdown : downstream_closed dag.

Lemma get_task_in_tasks tid task :
  DAG.get_task dag tid = Ok task -> task ∈ DAG.tasks dag.
Proof.
  unfold DAG.get_task.
  destruct (DAG.dict_get (DAG.task_dict dag) tid) as [t|] eqn:Hg; [|done].
  intros [= <-]. apply dict_get_Some_elem_of in Hg.
  unfold DAG.tasks. apply list_elem_of_In, in_map_iff.
  exists (tid, t). split; [done | by apply list_elem_of_In].
Qed.

Lemma mapM_get_task_in_tasks (l : list string) :
  Forall (fun u => u ∈ DAG.task_ids dag) l ->
  exists ts, mapM (DAG.get_task dag) l = Ok ts
    ∧ Forall (fun t => t ∈ DAG.tasks dag) ts.
Proof.
  induction 1 as [|u l Hu _ (ts & Hm & Hts)]; cbn [mapM].
  - exists []. by split.
  - apply dict_get_is_Some in Hu as [t Hg].
    assert (Hget : DAG.get_task dag u = Ok t) by (unfold DAG.get_task; by rewrite Hg).
    rewrite Hget, Hm. cbn. exists (t :: ts). split; [done|].
    constructor; [by eapply get_task_in_tasks | done].
Qed.

Lemma in_tasks_in_dict node :
  node ∈ DAG.tasks dag -> exists k, (k, node) ∈ DAG.task_dict dag.
Proof.
  unfold DAG.tasks. intros Hn.
  apply list_elem_of_In, in_map_iff in Hn as ([k v] & <- & Hin).
  exists k. by apply list_elem_of_In.
Qed.

Lemma direct_relatives_Ok (upstream : bool) node :
  node ∈ DAG.tasks dag ->
  exists l,
    (if upstream then DAG.upstream_list dag node else DAG.downstream_list dag node)
    = Ok l
    ∧ Forall (fun t => t ∈ DAG.tasks dag) l.
Proof.
  intros Hn. destruct (in_tasks_in_dict node Hn) as [k Hk].
  destruct upstream; apply mapM_get_task_in_tasks.
  - unfold edges_closed in Hup. rewrite Forall_forall in Hup. exact (Hup _ Hk).
  - unfold downstream_closed in Hdown. rewrite Forall_forall in Hdown.
    exact (Hdown _ Hk).
Qed.

(** The search for relatives returns, and returns tasks of the DAG. *)
Lemma flat_relatives_sound (fuel : nat) :
  forall upstream task l,
    task ∈ DAG.tasks dag -> Forall (fun t => t ∈ DAG.tasks dag) l ->
    exists l', SubDag.flat_relatives fuel dag upstream task l = Ok l'
      ∧ Forall (fun t => t ∈ DAG.tasks dag) l'.
Proof.
  induction fuel as [|fuel IH]; intros upstream task l Ht Hl.
  - exists l. by split.
  - cbn [SubDag.flat_relatives].
    destruct (direct_relatives_Ok upstream task Ht) as (direct & -> & Hdirect).
    cbn [mbind result_bind]. clear Ht. revert l Hl.
    induction Hdirect as [|t direct Ht _ IHd]; intros l Hl; cbn [foldM].
    + exists l. by split.
    + destruct (DAG.task_in t l).
      * cbn [mbind result_bind]. by apply IHd.
      * destruct (IH upstream t (l ++ [t]) Ht) as (l1 & -> & Hl1).
        { apply Forall_app. split; [done|]. by constructor. }
        cbn [mbind result_bind]. by apply IHd.
Qed.

Lemma also_include_sound (down up : bool) (matched : list DAG.BaseOperator) :
  Forall (fun t => t ∈ DAG.tasks dag) matched ->
  forall acc, Forall (fun t => t ∈ DAG.tasks dag) acc ->
  exists also,
    foldM (fun also_include t =>
             also_include ←
               (if down
                then r ← SubDag.get_flat_relatives dag false t; Ok (also_include ++ r)
                else Ok also_include);
             (if up
              then r ← SubDag.get_flat_relatives dag true t; Ok (also_include ++ r)
              else Ok also_include))
          acc matched = Ok also
    ∧ Forall (fun t => t ∈ DAG.tasks dag) also.
Proof.
  induction 1 as [|t matched Ht _ IH]; intros acc Hacc; cbn [foldM].
  - exists acc. by split.
  - assert (Hfl : forall b, exists r, SubDag.get_flat_relatives dag b t = Ok r
                             ∧ Forall (fun t => t ∈ DAG.tasks dag) r).
    { intros b. by apply flat_relatives_sound. }
    destruct (Hfl false) as (r1 & Hr1 & Hin1). destruct (Hfl true) as (r2 & Hr2 & Hin2).
    destruct down, up; rewrite ?Hr1, ?Hr2; cbn [mbind result_bind];
      rewrite ?Hr1, ?Hr2; cbn [mbind result_bind]; apply IH;
      repeat (apply Forall_app; split); done.
Qed.

End SubDagFacts.

Lemma only_ids_elem keep l u : u ∈ SubDag.only_ids keep l -> u ∈ keep ∧ u ∈ l.
Proof. unfold SubDag.only_ids. by rewrite list_elem_of_filter. Qed.

(** The shape of what [sub_dag] returns: the dict of the selected tasks,
    each with its relatives restricted to the selected ids. *)
Lemma sub_dag_result `{Regex} (dag : DAG.t) task_regex down up :
  edges_closed dag -> downstream_closed dag ->
  exists (l : list DAG.BaseOperator) (dag' : DAG.t),
    Forall (fun t => t ∈ DAG.tasks dag) l
    ∧ (forall t, t ∈ DAG.tasks dag ->
         re_findall task_regex (DAG.task_id t) = true -> t ∈ l)
    ∧ SubDag.sub_dag dag task_regex down up = Ok dag'
    ∧ DAG.task_dict dag'
      = map (fun kv : string * DAG.BaseOperator =>
               (fst kv,
                DAG.set_relatives
                  (SubDag.only_ids (map fst (SubDag.dict_of_tasks l))
                     (DAG._upstream_task_ids (snd kv)))
                  (SubDag.only_ids (map fst (SubDag.dict_of_tasks l))
                     (DAG._downstream_task_ids (snd kv)))
                  (snd kv)))
            (SubDag.dict_of_tasks l)
    ∧ DAG.dag_id dag' = DAG.dag_id dag
    ∧ DAG.partial dag'
      = if Nat.ltb (length (DAG.task_dict dag')) (length (DAG.tasks dag))
        then true else DAG.partial dag.
Proof.
  intros Hup Hdown.
  set (matched := filter (fun t => re_findall task_regex (DAG.task_id t) = true)
                         (DAG.tasks dag)).
  assert (Hm : Forall (fun t => t ∈ DAG.tasks dag) matched).
  { apply Forall_forall. intros t Ht. by apply list_elem_of_filter in Ht as [_ ?]. }
  destruct (also_include_sound dag Hup Hdown down up matched Hm [] (Forall_nil_2 _))
    as (also & Halso & Hin).
  unfold SubDag.sub_dag. fold matched. rewrite Halso. cbn [mbind result_bind].
  eexists (matched ++ also), _. split; [by apply Forall_app|]. split.
  { intros t Ht Hre. apply elem_of_app. left. by apply list_elem_of_filter. }
  split; [reflexivity|].
  set (d := SubDag.dict_of_tasks (matched ++ also)).
  match goal with
  | |- context [Nat.ltb (length (DAG.tasks ?x)) _] =>
      assert (Hlen : length (DAG.tasks x) = length d)
        by (unfold DAG.tasks; cbn; by rewrite !length_map)
  end.
  rewrite Hlen.
  destruct (Nat.ltb (length d) (length (DAG.tasks dag))) eqn:Hlt;
    cbn [DAG.task_dict DAG.dag_id DAG.partial DAG.set_partial DAG.set_task_dict
         DAG.task_ids];
    rewrite length_map, Hlt; done.
Qed.

(** Everything [sub_dag] guarantees on a DAG whose relatives are tasks of
    the DAG, in one statement for the results below. *)
Lemma sub_dag_spec `{Regex} (dag : DAG.t) task_regex down up :
  wf_dag dag -> downstream_closed dag ->
  exists dag' : DAG.t,
    SubDag.sub_dag dag task_regex down up = Ok dag'
    ∧ DAG.dag_id dag' = DAG.dag_id dag
    ∧ wf_dag dag' ∧ downstream_closed dag'
    ∧ (forall t, t ∈ DAG.tasks dag ->
         re_findall task_regex (DAG.task_id t) = true ->
         DAG.task_id t ∈ DAG.task_ids dag')
    ∧ (forall k t', (k, t') ∈ DAG.task_dict dag' ->
         exists t, (k, t) ∈ DAG.task_dict dag ∧ pruned (DAG.task_ids dag') t t')
    ∧ DAG.partial dag'
      = if Nat.ltb (length (DAG.tasks dag')) (length (DAG.tasks dag))
        then true else DAG.partial dag.
Proof.
  intros Hwf Hdown. pose proof Hwf as (Hnd & Hkeys & Hup).
  destruct (sub_dag_result dag task_regex down up Hup Hdown)
    as (l & dag' & Hl & Hmatch & Hrun & Hdict & Hid & Hpart).
  destruct (dict_of_tasks_spec l) as (Hdnd & Hdkeys & Hdin & Hdall).
  set (d := SubDag.dict_of_tasks l) in *.
  assert (Hids : DAG.task_ids dag' = map fst d).
  { unfold DAG.task_ids. rewrite Hdict, map_map. by apply map_ext. }
  exists dag'. split; [done|]. split; [done|].
  rewrite Hids. split; [|split; [|split; [|split]]].
  - split; [by rewrite Hids|]. split.
    + unfold keys_are_task_ids. rewrite Hdict. apply Forall_forall.
      intros kv Hkv. apply list_elem_of_In, in_map_iff in Hkv as (kv0 & <- & Hkv0).
      apply list_elem_of_In in Hkv0. rewrite Forall_forall in Hdkeys.
      cbn. by apply Hdkeys.
    + unfold edges_closed. rewrite Hdict, Hids. apply Forall_forall.
      intros kv Hkv. apply list_elem_of_In, in_map_iff in Hkv as (kv0 & <- & Hkv0).
      apply Forall_forall. intros u Hu. cbn in Hu.
      by apply only_ids_elem in Hu as [? _].
  - unfold downstream_closed. rewrite Hdict, Hids. apply Forall_forall.
    intros kv Hkv. apply list_elem_of_In, in_map_iff in Hkv as (kv0 & <- & Hkv0).
    apply Forall_forall. intros u Hu. cbn in Hu.
    by apply only_ids_elem in Hu as [? _].
  - intros t Ht Hre. apply Hdall. by apply Hmatch.
  - intros k t' Hkt. rewrite Hdict in Hkt.
    apply list_elem_of_In, in_map_iff in Hkt as ([k0 t] & Heq & Hkv0).
    cbn in Heq. injection Heq as -> <-. apply list_elem_of_In in Hkv0.
    exists t. split; [|done].
    rewrite Forall_forall in Hdkeys. pose proof (Hdkeys _ Hkv0) as Hk. cbn in Hk.
    rewrite <- Hk. apply (wf_task_in_dict dag Hwf).
    rewrite Forall_forall in Hl. apply Hl. by apply (Hdin _ Hkv0).
  - rewrite Hpart. unfold DAG.tasks at 2. by rewrite length_map.
Qed.



(** On a well-formed DAG without a cycle the sort returns an order. *)
Lemma topological_sort_acyclic (dag : DAG.t) :
  wf_dag dag -> acyclic dag ->
  exists sorted,
    TopSort.topological_sort dag = Some (Ok sorted)
    ∧ sorted ≡ₚ DAG.tasks dag ∧ after_upstream sorted.
Proof.
  intros Hwf Hac. destruct (DAG.tasks dag) as [|t0 ts] eqn:Ht.
  - exists []. split; [unfold TopSort.topological_sort; by rewrite Ht|].
    split; [done|]. intros i t u Hi. by rewrite lookup_nil in Hi.
  - assert (Hne : DAG.tasks dag ≠ []) by (by rewrite Ht).
    rewrite (topological_sort_loop dag Hne), <- Ht.
    destruct (sort_loop_outcome dag Hwf (length (DAG.tasks dag)) (DAG.tasks dag) []
                (sort_invariant_init dag)) as [(sorted & Hs & Hp & Ha)|[_ [t Hc]]];
      [done| |by destruct (Hac t)].
    exists sorted. rewrite app_nil_r in Hp. done.
Qed.



(** X10. What [sub_dag] keeps: every task whose id matches the regex is in
    the result, and every task of the result is a task of the original DAG
    under the same key, with its upstream and downstream ids restricted to
    the ids kept and nothing else changed. *)
Theorem sub_dag_keeps_matches_and_prunes `{Regex} (dag : DAG.t) task_regex
    (include_downstream include_upstream : bool) dag' :
  wf_dag dag -> downstream_closed dag ->
  SubDag.sub_dag dag task_regex include_downstream include_upstream = Ok dag' ->
  (forall t, t ∈ DAG.tasks dag ->
     re_findall task_regex (DAG.task_id t) = true ->
     DAG.task_id t ∈ DAG.task_ids dag')
  ∧ (forall k t', (k, t') ∈ DAG.task_dict dag' ->
       exists t, (k, t) ∈ DAG.task_dict dag ∧ pruned (DAG.task_ids dag') t t').
Proof.
  intros Hwf Hdown Hrun.
  destruct (sub_dag_spec dag task_regex include_downstream include_upstream
              Hwf Hdown) as (dag0 & Hrun0 & _ & _ & _ & Hm & Hp & _).
  rewrite Hrun in Hrun0. injection Hrun0 as <-. done.
Qed.

Lemma sub_dag_keeps_matches_and_prunes_witness :
  exists dag',
    SubDag.sub_dag (H := exact_regex) chain_dag "^B$" false true = Ok dag'
    ∧ "B" ∈ DAG.task_ids dag'.
Proof.
  destruct (SubDag.sub_dag (H := exact_regex) chain_dag "^B$" false true)
    as [dag'|e] eqn:Hrun; [|vm_compute in Hrun; discriminate].
  exists dag'. split; [reflexivity|].
  assert (Hd : downstream_closed chain_dag)
    by (apply (bool_decide_unpack _); vm_compute; exact I).
  destruct (sub_dag_keeps_matches_and_prunes (H := exact_regex) chain_dag "^B$"
              false true dag' chain_dag_wf Hd Hrun) as [Hm _].
  apply (Hm (DAG.mkBaseOperator "B" ["A"] ["C"] 3 None)).
  - apply list_elem_of_In. simpl. right. left. reflexivity.
  - reflexivity.
Defined.

(** X11. The result of [sub_dag] is not flagged partial exactly when the
    original DAG was not and no task was dropped: the result then has the
    task ids of the original.  As soon as one task is left out, the result
    is partial. *)
Theorem sub_dag_partial_flag `{Regex} (dag : DAG.t) task_regex
    (include_downstream include_upstream : bool) dag' :
  wf_dag dag -> downstream_closed dag ->
  SubDag.sub_dag dag task_regex include_downstream include_upstream = Ok dag' ->
  DAG.partial dag' = false
  <-> DAG.partial dag = false ∧ DAG.task_ids dag' ≡ₚ DAG.task_ids dag.
Proof.
  intros Hwf Hdown Hrun.
  destruct (sub_dag_spec dag task_regex include_downstream include_upstream
              Hwf Hdown) as (dag0 & Hrun0 & _ & Hwf' & _ & _ & Hpr & Hp).
  rewrite Hrun in Hrun0. injection Hrun0 as <-. rewrite Hp.
  unfold DAG.tasks. rewrite !length_map.
  assert (Hlen : length (DAG.task_ids dag') = length (DAG.task_dict dag'))
    by (unfold DAG.task_ids; by rewrite length_map).
  assert (Hlen0 : length (DAG.task_ids dag) = length (DAG.task_dict dag))
    by (unfold DAG.task_ids; by rewrite length_map).
  assert (Hsub : DAG.task_ids dag' ⊆+ DAG.task_ids dag).
  { apply NoDup_submseteq; [by destruct Hwf'|].
    intros k Hk. apply list_elem_of_In, in_map_iff in Hk as ([k0 t'] & <- & Hin).
    apply list_elem_of_In in Hin. destruct (Hpr _ _ Hin) as (t & Hin0 & _).
    apply list_elem_of_In, in_map_iff. exists (k0, t).
    split; [done|]. by apply list_elem_of_In. }
  destruct (Nat.ltb_spec (length (DAG.task_dict dag')) (length (DAG.task_dict dag)))
    as [Hlt|Hge].
  - split; [done|]. intros [_ Hperm]. apply Permutation_length in Hperm. lia.
  - split; [|by intros [? _]]. intros Hpartial. split; [done|].
    apply submseteq_length_Permutation; [done|lia].
Qed.

Lemma sub_dag_partial_flag_witness :
  exists dag',
    SubDag.sub_dag (H := exact_regex) chain_dag "^B$" true true = Ok dag'
    ∧ (DAG.partial dag' = false
       <-> DAG.partial chain_dag = false
           ∧ DAG.task_ids dag' ≡ₚ DAG.task_ids chain_dag).
Proof.
  destruct (SubDag.sub_dag (H := exact_regex) chain_dag "^B$" true true)
    as [dag'|e] eqn:Hrun; [|vm_compute in Hrun; discriminate].
  exists dag'. split; [reflexivity|].
  apply (sub_dag_partial_flag (H := exact_regex) chain_dag "^B$" true true dag').
  - exact chain_dag_wf.
  - apply (bool_decide_unpack _). vm_compute. exact I.
  - exact Hrun.
Defined.



(** ** XCom: [get_one] and its relation to [set] and [get_many] *)

Section XComMore.
Context {V : Type} `{XComCodec V}.

#[local] Existing Instance order_by_desc_total.
#[local] Existing Instance order_by_desc_trans.

Lemma get_one_filter_scope e key t d prior r :
  str_truthy key = true -> str_truthy t = true -> str_truthy d = true ->
  XCom.get_one_filter e (Some key) (Some t) (Some d) prior r = true ->
  XComRow.execution_date r = e ->
  XCom.in_scope (Some key) e t d r = true.
Proof.
  intros Hk Ht Hd Hf He. unfold XCom.get_one_filter in Hf. cbn in Hf.
  rewrite Hk, Ht, Hd in Hf. unfold XCom.in_scope, sql_eq in *.
  apply andb_prop in Hf as [Hf _]. apply andb_prop in Hf as [Hf H3].
  apply andb_prop in Hf as [H1 H2].
  apply bool_decide_eq_true_1 in H2, H3. injection H2 as H2. injection H3 as H3.
  rewrite H1. rewrite !bool_decide_eq_true_2 by done. done.
Qed.

Lemma get_one_filter_date e key t d prior r :
  XCom.get_one_filter e key t d prior r = true ->
  (XComRow.execution_date r <= e)%Z.
Proof.
  unfold XCom.get_one_filter. intros Hf. apply andb_prop in Hf as [_ Hf].
  destruct prior; apply bool_decide_eq_true_1 in Hf; lia.
Qed.

Lemma get_one_filter_new_row e key t d prior i b now :
  XCom.get_one_filter e (Some key) (Some t) (Some d) prior
    (XComRow.mk i (Some key) b now e t d) = true.
Proof.
  unfold XCom.get_one_filter, sql_eq. cbn.
  rewrite !bool_decide_eq_true_2 by done.
  destruct (str_truthy key), (str_truthy t), (str_truthy d), prior; cbn;
    by rewrite ?bool_decide_eq_true_2 by (done || lia).
Qed.

(** The first row of a query in [ORDER BY] order precedes every row. *)
Lemma head_merge_sort_first (l : list (XComRow.t bytes)) h r :
  head (merge_sort XCom.order_by_desc l) = Some h -> r ∈ l ->
  h ∈ l ∧ (r = h ∨ XCom.order_by_desc h r).
Proof.
  intros Hh Hr.
  pose proof (StronglySorted_merge_sort XCom.order_by_desc l) as Hs.
  pose proof (merge_sort_Permutation XCom.order_by_desc l) as Hp.
  destruct (merge_sort XCom.order_by_desc l) as [|h0 tl]; [done|].
  injection Hh as ->. split.
  - rewrite <- Hp. by left.
  - rewrite <- Hp in Hr. apply elem_of_cons in Hr as [?|Hr]; [by left|right].
    apply StronglySorted_inv in Hs as [_ Hall].
    rewrite Forall_forall in Hall. by apply Hall.
Qed.

(** X13. Round trip of [set] and [get_one]: after a value is stored under
    a non-empty key, task id and dag id, [get_one] with the same key, ids
    and logical time returns that value, with or without
    include_prior_dates, whatever the table held before, provided the
    serialiser chosen for reading decodes what the one chosen for writing
    produced. *)
Theorem xcom_set_then_get_one
    key (v : V) e t d pick pick' prior now (s s' : Session.t) :
  str_truthy key = true -> str_truthy t = true -> str_truthy d = true ->
  (forall b, XCom.serialize pick v = Ok b -> XCom.deserialize pick' b = Ok v) ->
  XCom.set (Some key) v e t d pick now s = Ok s' ->
  XCom.get_one e (Some key) (Some t) (Some d) prior pick' s' = Ok (Some v).
Proof.
  intros Hk Ht Hd Hcodec Hset.
  apply set_Ok_inv in Hset as (b & Hb & Hx).
  set (row := XComRow.mk (Session.xcom_seq s) (Some key) b now e t d) in *.
  unfold XCom.get_one.
  set (rows := filter _ (Session.xcoms s')).
  assert (Hrow : row ∈ rows).
  { apply list_elem_of_filter. split; [apply get_one_filter_new_row|].
    rewrite Hx. apply elem_of_app. right. by left. }
  destruct (head (merge_sort XCom.order_by_desc rows)) as [h|] eqn:Hh.
  2:{ apply head_None in Hh.
      pose proof (merge_sort_Permutation XCom.order_by_desc rows) as Hp.
      rewrite Hh in Hp. apply Permutation_nil in Hp. rewrite Hp in Hrow.
      by apply elem_of_nil in Hrow. }
  destruct (head_merge_sort_first rows h row Hh Hrow) as [Hin Hord].
  assert (Heq : h = row).
  { destruct Hord as [?|Hord]; [done|].
    apply list_elem_of_filter in Hin as [Hf Hin].
    pose proof (get_one_filter_date _ _ _ _ _ _ Hf) as Hle.
    assert (He : XComRow.execution_date h = e).
    { unfold XCom.order_by_desc in Hord. cbn in Hord. lia. }
    pose proof (get_one_filter_scope e key t d prior h Hk Ht Hd Hf He) as Hsc.
    assert (Hh1 : h ∈ filter (fun r => XCom.in_scope (Some key) e t d r = true)
                      (Session.xcoms s'))
      by (by apply list_elem_of_filter).
    rewrite Hx, (scope_of_kept_and_new (Some key) e t d _ row) in Hh1
      by apply in_scope_new_row.
    by apply list_elem_of_singleton in Hh1. }
  rewrite Heq. cbn. by rewrite (Hcodec b Hb).
Qed.

Lemma get_many_filter_one e key t d prior r :
  XCom.get_many_filter e key (as_ids t) (as_ids d) prior r
  = XCom.get_one_filter e key t d prior r.
Proof.
  unfold XCom.get_many_filter, XCom.get_one_filter, sql_eq.
  assert (Hid : forall (o : option string) (x : string),
            (if ids_truthy (as_ids o)
             then bool_decide (x ∈ as_tuple (as_ids o)) else true)
            = (if opt_str_truthy o then bool_decide (Some x = o) else true)).
  { intros [s0|] x; cbn; [|done]. destruct (str_truthy s0); [|done].
    apply bool_decide_ext. rewrite list_elem_of_singleton. split; congruence. }
  by rewrite !Hid.
Qed.

(** X14. [get_one] is the first result of [get_many]: with the same key,
    the task id and dag id passed as single identifiers, and limit 1,
    [get_many] returns the empty list exactly when [get_one] returns None,
    a one-row list whose value is the result of [get_one] otherwise, and
    raises what [get_one] raises. *)
Theorem get_one_is_first_of_get_many
    e key t d prior pick (session : Session.t) :
  XCom.get_one e key t d prior pick session
  = rows ← XCom.get_many e key (as_ids t) (as_ids d) prior (Some 1) pick session;
    Ok (XComRow.value <$> head rows).
Proof.
  unfold XCom.get_one, XCom.get_many, XCom.get_many_query.
  rewrite (list_filter_iff
             (fun r => XCom.get_many_filter e key (as_ids t) (as_ids d) prior r = true)
             (fun r => XCom.get_one_filter e key t d prior r = true))
    by (intros r; by rewrite get_many_filter_one).
  destruct (merge_sort _ _) as [|h tl]; [done|].
  cbn. destruct (XCom.deserialize pick (XComRow.value h)); done.
Qed.

(** X15. [get_many] with limit n returns min(n, m) rows, m being the number
    of stored rows that pass the filters; without a limit it returns all m
    of them. *)
Theorem get_many_length
    e key tids dids prior limit pick (session : Session.t)
    (results : list (XComRow.t V)) :
  XCom.get_many e key tids dids prior limit pick session = Ok results ->
  let m := length (filter (fun r => XCom.get_many_filter e key tids dids prior r = true)
                          (Session.xcoms session)) in
  length results = match limit with Some n => n `min` m | None => m end.
Proof.
  intros Hget m. unfold XCom.get_many in Hget.
  apply mapM_Ok_Forall2, Forall2_length in Hget. rewrite <- Hget.
  unfold XCom.get_many_query.
  assert (Hm : length (merge_sort XCom.order_by_desc
                 (filter (fun r => XCom.get_many_filter e key tids dids prior r = true)
                    (Session.xcoms session))) = m)
    by (by rewrite merge_sort_Permutation).
  destruct limit as [n|]; cbn; [|done]. by rewrite length_take, Hm.
Qed.

End XComMore.

Lemma xcom_set_then_get_one_witness :
  exists s',
    XCom.set (H := bytes_codec) (Some "rows") [Byte.x01] 7 "load" "etl" None 50
      example_xcom_session = Ok s'
    ∧ XCom.get_one (H := bytes_codec) 7 (Some "rows") (Some "load") (Some "etl")
        true None s' = Ok (Some [Byte.x01]).
Proof.
  eexists. split; [reflexivity|].
  apply (xcom_set_then_get_one (H := bytes_codec) "rows" [Byte.x01] 7 "load" "etl"
           None None true 50 example_xcom_session).
  - reflexivity.
  - reflexivity.
  - reflexivity.
  - intros b Hb. vm_compute in Hb. injection Hb as <-. reflexivity.
  - reflexivity.
Defined.

Lemma get_many_length_witness :
  exists results,
    XCom.get_many (H := bytes_codec) 200 (Some "rows") NoIds NoIds true (Some 7)
      None example_xcom_many = Ok results
    ∧ length results = 7.
Proof.
  destruct (XCom.get_many (H := bytes_codec) 200 (Some "rows") NoIds NoIds true
              (Some 7) None example_xcom_many) as [results|err] eqn:Hget;
    [|vm_compute in Hget; discriminate].
  exists results. split; [reflexivity|].
  rewrite (get_many_length (H := bytes_codec) 200 (Some "rows") NoIds NoIds true
             (Some 7) None example_xcom_many results Hget).
  vm_compute. reflexivity.
Defined.

(** With an empty key no key filter is built: [get_one] then returns the
    latest value of the task, whatever its key. *)
Example get_one_empty_key_ignores_key :
  XCom.get_one (H := bytes_codec) 7 (Some "") (Some "load") (Some "etl")
    false None example_xcom_session = Ok (Some [Byte.x0c]).
Proof. vm_compute. reflexivity. Qed.

(** ** Pool: how one instance weighs on [open_slots] *)

Lemma length_filter_cons_Z {A : Type} (P : A -> Prop) `{forall x, Decision (P x)}
    (a : A) (l : list A) :
  Z.of_nat (length (filter P (a :: l)))
  = (Z.of_nat (length (filter P l)) + (if bool_decide (P a) then 1 else 0))%Z.
Proof.
  rewrite filter_cons. case_decide.
  - rewrite bool_decide_eq_true_2 by done. cbn [length]. lia.
  - rewrite bool_decide_eq_false_2 by done. lia.
Qed.

(** X16. Every stored instance weighs on [open_slots] by itself: adding an
    instance to the table lowers the open slots of a pool by one when the
    instance is bound to the pool (the same name, or no pool for a pool
    without a name) and is RUNNING or QUEUED, and leaves them as they are
    otherwise, whatever the other instances are.  The three counts do not
    depend on the order of the rows. *)
Theorem open_slots_counts_each_instance_once
    (self : PoolRow.t) (session : Session.t) (ti : TaskInstance.t)
    (rows : list TaskInstance.t) :
  let bound := bool_decide (TaskInstance.pool ti = PoolRow.pool self) in
  let busy := bool_decide (TaskInstance.state ti = State.RUNNING
                           ∨ TaskInstance.state ti = State.QUEUED) in
  Pool.open_slots self
    (Session.set_task_instances (ti :: Session.task_instances session) session)
  = (Pool.open_slots self session - (if bound && busy then 1 else 0))%Z
  ∧ (rows ≡ₚ Session.task_instances session ->
     Pool.used_slots self (Session.set_task_instances rows session)
     = Pool.used_slots self session
     ∧ Pool.queued_slots self (Session.set_task_instances rows session)
       = Pool.queued_slots self session
     ∧ Pool.open_slots self (Session.set_task_instances rows session)
       = Pool.open_slots self session).
Proof.
  intros bound busy. split.
  - unfold Pool.open_slots, Pool.used_slots, Pool.queued_slots.
    rewrite !pool_count_nested. cbn [Session.task_instances Session.set_task_instances].
    rewrite !length_filter_cons_Z. subst bound busy.
    repeat case_bool_decide; cbn [andb]; try lia; exfalso; intuition congruence.
  - intros Hperm. unfold Pool.open_slots, Pool.used_slots, Pool.queued_slots.
    cbn [Session.task_instances Session.set_task_instances].
    by rewrite !Hperm.
Qed.

Lemma open_slots_counts_each_instance_once_witness :
  Pool.open_slots (example_pool 5)
    (Session.set_task_instances
       (rev (Session.task_instances example_pool_session)) example_pool_session)
  = Pool.open_slots (example_pool 5) example_pool_session.
Proof.
  apply (open_slots_counts_each_instance_once (example_pool 5) example_pool_session
           (example_ti "a" State.RUNNING None None)
           (rev (Session.task_instances example_pool_session))).
  apply Permutation_sym, Permutation_rev.
Defined.

(** ** Schedules: [normalize_schedule] and [get_run_dates] *)

Section RunDates.
Context `{Croniter}.

Lemma datetime_add_in_range dttm delta :
  (0 <= dttm + delta <= datetime_max)%Z ->
  datetime_add dttm delta = Ok (dttm + delta)%Z.
Proof. intros Hr. unfold datetime_add. cbn. by rewrite bool_decide_eq_true_2. Qed.

Lemma normalize_schedule_timedelta (self : DAG.t) delta dttm :
  DAG._schedule_interval self = Timedelta delta ->
  (0 <= dttm <= datetime_max)%Z -> (0 <= dttm + delta <= datetime_max)%Z ->
  Schedule.normalize_schedule self dttm = Ok dttm.
Proof.
  intros Hi Hd Hr.
  unfold Schedule.normalize_schedule, Schedule.following_schedule,
    Schedule.previous_schedule.
  rewrite Hi, (datetime_add_in_range _ _ Hr). cbn [mbind result_bind].
  rewrite datetime_add_in_range by lia. cbn [mbind result_bind].
  rewrite bool_decide_eq_false_2; [done|].
  intros Hne. apply Hne. f_equal. lia.
Qed.

Lemma run_dates_loop_timedelta (self : DAG.t) delta end_date :
  DAG._schedule_interval self = Timedelta delta ->
  (0 < delta)%Z -> (end_date + delta <= datetime_max)%Z ->
  forall n d acc fuel,
    n = Z.to_nat ((end_date - d) / delta + 1) -> n < fuel -> (0 <= d)%Z ->
    Schedule.run_dates_loop fuel self (Some d) end_date acc
    = Some (Ok (acc ++ every delta d end_date)).
Proof.
  intros Hi Hpos Hend. unfold every.
  induction n as [|n IH]; intros d acc fuel Hn Hfuel Hd;
    (destruct fuel as [|fuel]; [lia|]); rewrite <- Hn; cbn [Schedule.run_dates_loop].
  - assert (Hlt : (end_date < d)%Z).
    { destruct (Z.le_gt_cases d end_date) as [Hle|?]; [|done].
      assert (0 <= (end_date - d) / delta)%Z by (apply Z.div_pos; lia). lia. }
    rewrite bool_decide_eq_false_2 by lia. cbn. by rewrite app_nil_r.
  - assert (Hle : (d <= end_date)%Z).
    { destruct (Z.le_gt_cases d end_date) as [?|Hgt]; [done|].
      assert ((end_date - d) / delta < 0)%Z by (apply Z.div_lt_upper_bound; lia).
      lia. }
    rewrite bool_decide_eq_true_2 by done.
    unfold Schedule.following_schedule. rewrite Hi.
    rewrite datetime_add_in_range by lia. cbn [mbind result_bind].
    assert (Hdiv : ((end_date - (d + delta)) / delta
                    = (end_date - d) / delta - 1)%Z).
    { replace (end_date - (d + delta))%Z with (end_date - d + (-1) * delta)%Z by lia.
      rewrite Z.div_add by lia. lia. }
    rewrite (IH (d + delta)%Z (acc ++ [d]) fuel) by lia.
    rewrite Hdiv.
    replace (Z.to_nat ((end_date - d) / delta - 1 + 1)) with n by lia.
    rewrite <- app_assoc. do 3 f_equal. cbn [seq map app].
    f_equal; [lia|]. rewrite <- seq_shift, map_map. apply map_ext. intros k. lia.
Qed.

(** X17. For a DAG that runs every delta > 0, [get_run_dates] from
    [start_date] to [end_date] returns the instants start_date,
    start_date + delta, ... that are not after end_date, in increasing
    order (none when start_date is after end_date), for a sub-DAG as for
    any other DAG, provided start_date + delta and end_date + delta are
    still datetimes.  The loop ends after one round per run date. *)
Theorem get_run_dates_timedelta
    (self : DAG.t) (delta start_date end_date : Z)
    (min_task_start_date : result Z) (utcnow : Z) (fuel : nat) :
  DAG._schedule_interval self = Timedelta delta ->
  (0 < delta)%Z -> (0 <= start_date)%Z ->
  (start_date + delta <= datetime_max)%Z ->
  (end_date + delta <= datetime_max)%Z ->
  length (every delta start_date end_date) < fuel ->
  Schedule.get_run_dates fuel self (Some start_date) (Some end_date)
    min_task_start_date utcnow
  = Some (Ok (every delta start_date end_date)).
Proof.
  intros Hi Hpos Hs Hsd Hed Hfuel. unfold Schedule.get_run_dates. cbn [default].
  assert (Hn : Schedule.normalize_schedule self start_date = Ok start_date)
    by (apply (normalize_schedule_timedelta self delta); [done|lia|lia]).
  assert (Hnext : (if negb (DAG.is_subdag self)
                   then Schedule.normalize_schedule self start_date
                   else Ok start_date) = Ok start_date)
    by (by destruct (DAG.is_subdag self)).
  rewrite Hnext. cbv beta iota zeta. unfold id.
  unfold every in Hfuel. rewrite length_map, length_seq in Hfuel.
  by rewrite (run_dates_loop_timedelta self delta end_date Hi Hpos Hed
                _ start_date [] fuel eq_refl Hfuel Hs).
Qed.

(** X18. For a DAG whose schedule interval is neither a cron expression
    nor a timedelta (such as the interval of "@once"), [get_run_dates]
    returns the start date alone when it is not after the end date and no
    date otherwise; when no end date is passed the current time bounds the
    interval, and when no start date is passed the earliest start date of
    the tasks is used, whose exception, if any, is the result. *)
Theorem get_run_dates_without_interval
    (self : DAG.t) (start_date end_date : option Z)
    (min_task_start_date : result Z) (utcnow : Z) (fuel : nat) :
  DAG._schedule_interval self = OtherInterval ->
  2 ≤ fuel ->
  Schedule.get_run_dates fuel self start_date end_date min_task_start_date utcnow
  = match (match start_date with Some d => Ok d | None => min_task_start_date end)
    with
    | Raise e => Some (Raise e)
    | Ok s => Some (Ok (if bool_decide (s <= default utcnow end_date)%Z
                        then [s] else []))
    end.
Proof.
  intros Hi Hfuel. unfold Schedule.get_run_dates.
  destruct (match start_date with Some d => Ok d | None => min_task_start_date end)
    as [s|e]; [|done].
  assert (Hn : (if negb (DAG.is_subdag self)
                then Schedule.normalize_schedule self s else Ok s) = Ok s).
  { destruct (DAG.is_subdag self); [done|]. cbn [negb].
    unfold Schedule.normalize_schedule, Schedule.following_schedule.
    by rewrite Hi. }
  rewrite Hn. destruct fuel as [|[|fuel]]; [lia|lia|].
  cbn [Schedule.run_dates_loop]. unfold Schedule.following_schedule. rewrite Hi.
  by case_bool_decide.
Qed.

End RunDates.

Lemma get_run_dates_timedelta_witness :
  Schedule.get_run_dates (H := hourly_croniter) 5 (timedelta_dag one_day false)
    (Some 0%Z) (Some (3 * one_day + 5)%Z) (Raise (ValueError "min() arg")) 0
  = Some (Ok [0; one_day; 2 * one_day; 3 * one_day]%Z).
Proof.
  apply (get_run_dates_timedelta (H := hourly_croniter) (timedelta_dag one_day false)
           one_day 0 (3 * one_day + 5) (Raise (ValueError "min() arg")) 0 5).
  - reflexivity.
  - reflexivity.
  - vm_compute. discriminate.
  - vm_compute. discriminate.
  - vm_compute. discriminate.
  - vm_compute. lia.
Defined.

Lemma get_run_dates_without_interval_witness :
  Schedule.get_run_dates (H := hourly_croniter) 2
    (DAG.mk "once" [] false OtherInterval utc "/dags/once.py" "/dags/once.py"
       false None 0)
    (Some 10%Z) None (Raise (ValueError "min() arg")) 20
  = Some (Ok [10%Z]).
Proof.
  apply (get_run_dates_without_interval (H := hourly_croniter)
           (DAG.mk "once" [] false OtherInterval utc "/dags/once.py" "/dags/once.py"
              false None 0)
           (Some 10%Z) None (Raise (ValueError "min() arg")) 20 2).
  - reflexivity.
  - lia.
Defined.

(** The loop asks for the instant after the last run date before it
    compares it with the end date: an end date within one interval of
    [datetime.max] makes [get_run_dates] raise OverflowError. *)
Example get_run_dates_overflow :
  Schedule.get_run_dates (H := hourly_croniter) 3 (timedelta_dag one_day true)
    (Some (datetime_max - 5)%Z) (Some datetime_max) (Ok 0%Z) 0
  = Some (Raise (OverflowError "date value out of range")).
Proof. vm_compute. reflexivity. Qed.

(** With a zero interval the loop never ends. *)
Example get_run_dates_zero_interval (fuel : nat) :
  Schedule.get_run_dates (H := hourly_croniter) fuel (timedelta_dag 0 true)
    (Some 0%Z) (Some 0%Z) (Ok 0%Z) 0 = None.
Proof.
  unfold Schedule.get_run_dates. cbn.
  generalize (@nil Z). induction fuel as [|fuel IH]; intros acc; [done|].
  cbn. apply IH.
Qed.

(** ** The stats table: [DagStat.create], [set_dirty] and [update] *)

Lemma stat_merge_unfold row r rows :
  DagStat.merge row (r :: rows)
  = if decide (stat_key r = stat_key row) then row :: rows
    else r :: DagStat.merge row rows.
Proof.
  cbn [DagStat.merge]. unfold stat_key.
  destruct (decide _) as [[= H1 H2]|Hne].
  - by rewrite !bool_decide_eq_true_2.
  - do 2 case_bool_decide; cbn [andb]; try done. destruct Hne. congruence.
Qed.

Lemma stat_merge_new row rows :
  stat_key row ∉ map stat_key rows -> DagStat.merge row rows = rows ++ [row].
Proof.
  induction rows as [|r rows IH]; intros Hk; [done|].
  rewrite stat_merge_unfold. cbn [map] in Hk. apply not_elem_of_cons in Hk as [Hne Hk].
  rewrite decide_False by done. cbn. by rewrite IH.
Qed.

Lemma stat_merge_elem row rows r :
  NoDup (map stat_key rows) ->
  r ∈ DagStat.merge row rows
  <-> r = row ∨ (r ∈ rows ∧ stat_key r ≠ stat_key row).
Proof.
  induction rows as [|r0 rows IH]; intros Hnd.
  - cbn. rewrite list_elem_of_singleton. split; [by left|].
    intros [?|[Hin _]]; [done|]. by apply elem_of_nil in Hin.
  - cbn [map] in Hnd. apply NoDup_cons in Hnd as [Hr0 Hnd].
    rewrite stat_merge_unfold. destruct (decide _) as [Heq|Hne].
    + rewrite !elem_of_cons. split.
      * intros [?|Hin]; [by left|right]. split; [by right|].
        intros Hk. apply Hr0. rewrite Heq, <- Hk.
        apply list_elem_of_In, in_map, list_elem_of_In, Hin.
      * intros [?|[[->|Hin] Hk]]; [by left|done|by right].
    + rewrite !elem_of_cons, (IH Hnd). split.
      * intros [->|[?|[Hin Hk]]]; [right; split; [by left|done]|by left|].
        right. split; [by right|done].
      * intros [?|[[->|Hin] Hk]]; [right; by left|by left|].
        right. right. done.
Qed.

Lemma stat_merge_NoDup row rows :
  NoDup (map stat_key rows) -> NoDup (map stat_key (DagStat.merge row rows)).
Proof.
  induction rows as [|r0 rows IH]; intros Hnd.
  - cbn. apply NoDup_singleton.
  - pose proof Hnd as Hnd0. cbn [map] in Hnd. apply NoDup_cons in Hnd as [Hr0 Hnd].
    rewrite stat_merge_unfold. destruct (decide _) as [Heq|Hne].
    + cbn [map]. by rewrite <- Heq.
    + cbn [map]. apply NoDup_cons. split; [|by apply IH].
      intros Hin. apply list_elem_of_In, in_map_iff in Hin as (r & Hk & Hin).
      apply list_elem_of_In, (stat_merge_elem row rows r Hnd) in Hin
        as [->|[Hin _]]; [by destruct Hne|].
      apply Hr0. rewrite <- Hk. apply list_elem_of_In, in_map, list_elem_of_In, Hin.
Qed.

(** What a loop of merges leaves in the table. *)
Lemma stat_fold_merge {X : Type} (mkrow : X -> DagStatRow.t)
    (L : list X) (rows : list DagStatRow.t) :
  (forall x y, stat_key (mkrow x) = stat_key (mkrow y) -> mkrow x = mkrow y) ->
  NoDup (map stat_key rows) ->
  let rows' := fold_left (fun rows x => DagStat.merge (mkrow x) rows) L rows in
  NoDup (map stat_key rows')
  ∧ forall r, r ∈ rows'
      <-> (exists x, x ∈ L ∧ r = mkrow x)
          ∨ (r ∈ rows ∧ stat_key r ∉ map (fun x => stat_key (mkrow x)) L).
Proof.
  intros Hinj. revert rows.
  induction L as [|x L IH]; intros rows Hnd; cbn [fold_left map].
  - split; [done|]. intros r. split.
    + intros Hr. right. split; [done|]. apply not_elem_of_nil.
    + intros [(x & Hx & _)|[? _]]; [by apply elem_of_nil in Hx|done].
  - destruct (IH _ (stat_merge_NoDup (mkrow x) rows Hnd)) as [Hnd' Hiff].
    split; [done|]. intros r. rewrite Hiff, (stat_merge_elem _ _ _ Hnd). split.
    + intros [(x' & Hx' & ->)|[[->|[Hin Hk]] HL]].
      * left. exists x'. split; [by right|done].
      * left. exists x. split; [by left|done].
      * right. split; [done|]. apply not_elem_of_cons. done.
    + intros [(x' & Hx' & ->)|[Hin Hk]].
      * destruct (decide (stat_key (mkrow x')
                          ∈ map (fun x => stat_key (mkrow x)) L)) as [HinL|HnL].
        -- apply elem_of_cons in Hx' as [->|Hx'].
           ++ apply list_elem_of_In, in_map_iff in HinL as (y & Hy & HyL).
              left. exists y. split; [by apply list_elem_of_In|].
              symmetry. by apply Hinj.
           ++ left. by exists x'.
        -- apply elem_of_cons in Hx' as [->|Hx'].
           ++ right. split; [by left|done].
           ++ destruct HnL. apply list_elem_of_In, in_map_iff. exists x'.
              split; [done|by apply list_elem_of_In].
      * apply not_elem_of_cons in Hk as [Hk HL]. right. split; [|done].
        right. done.
Qed.

Lemma stat_rows_same_key (rows : list DagStatRow.t) r1 r2 :
  NoDup (map stat_key rows) -> r1 ∈ rows -> r2 ∈ rows ->
  stat_key r1 = stat_key r2 -> r1 = r2.
Proof.
  induction rows as [|r rows IH]; intros Hnd H1 H2 Hk;
    [by apply elem_of_nil in H1|].
  cbn [map] in Hnd. apply NoDup_cons in Hnd as [Hr Hnd].
  assert (Hkey : forall x, x ∈ rows -> stat_key x ∈ map stat_key rows)
    by (intros x Hx; apply list_elem_of_In, in_map, list_elem_of_In, Hx).
  apply elem_of_cons in H1 as [->|H1]; apply elem_of_cons in H2 as [->|H2].
  - done.
  - destruct Hr. rewrite Hk. by apply Hkey.
  - destruct Hr. rewrite <- Hk. by apply Hkey.
  - by apply IH.
Qed.

Lemma update_selects (dag_ids : list string) (dirty_only : bool)
    (session : Session.t) (id : string) :
  let qry := Session.dag_stats session in
  let qry :=
    match dag_ids with
    | [] => qry
    | _ :: _ => filter (fun r => DagStatRow.dag_id r ∈ dag_ids) qry
    end in
  let qry :=
    if dirty_only then filter (fun r => DagStatRow.dirty r = true) qry else qry in
  id ∈ remove_dups (map DagStatRow.dag_id qry)
  <-> refreshed dag_ids dirty_only session id.
Proof.
  cbv zeta. rewrite elem_of_remove_dups. unfold refreshed. split.
  - intros Hin. apply list_elem_of_In, in_map_iff in Hin as (r & <- & Hin).
    apply list_elem_of_In in Hin. exists r.
    assert (Hsel : r ∈ (match dag_ids with
                        | [] => Session.dag_stats session
                        | _ :: _ => filter (fun r => DagStatRow.dag_id r ∈ dag_ids)
                                      (Session.dag_stats session)
                        end) ∧ (dirty_only = true -> DagStatRow.dirty r = true)).
    { destruct dirty_only; [|done].
      apply list_elem_of_filter in Hin as [? ?]. done. }
    destruct Hsel as [Hsel Hd]. destruct dag_ids as [|d ds].
    + split; [done|]. split; [done|]. split; [by left|done].
    + apply list_elem_of_filter in Hsel as [? ?].
      split; [done|]. split; [done|]. split; [by right|done].
  - intros (r & Hin & <- & Hids & Hd).
    apply list_elem_of_In, in_map, list_elem_of_In.
    assert (Hsel : r ∈ (match dag_ids with
                        | [] => Session.dag_stats session
                        | _ :: _ => filter (fun r => DagStatRow.dag_id r ∈ dag_ids)
                                      (Session.dag_stats session)
                        end)).
    { destruct dag_ids as [|d ds]; [done|]. apply list_elem_of_filter.
      split; [|done]. by destruct Hids. }
    destruct dirty_only; [|done]. apply list_elem_of_filter. split; [by apply Hd|done].
Qed.

(** The stats table after [update]. *)
Lemma update_rows dag_ids dirty_only (session : Session.t) :
  NoDup (map stat_key (Session.dag_stats session)) ->
  let rows' := Session.dag_stats (DagStat.update dag_ids dirty_only session) in
  NoDup (map stat_key rows')
  ∧ forall r, r ∈ rows'
      <-> (exists id st, refreshed dag_ids dirty_only session id
             ∧ st ∈ State.dag_states
             ∧ r = DagStatRow.mk id st (run_count session id st) false)
          ∨ (r ∈ Session.dag_stats session
             ∧ ¬ (refreshed dag_ids dirty_only session (DagStatRow.dag_id r)
                  ∧ DagStatRow.state r ∈ State.dag_states)).
Proof.
  intros Hnd. cbv zeta. unfold DagStat.update.
  pose proof (update_selects dag_ids dirty_only session) as Hsel. cbv zeta in Hsel.
  match goal with
  | |- context [remove_dups ?l] => set (ids := remove_dups l) in *
  end.
  destruct (Nat.eqb (length ids) 0) eqn:Hlen.
  - apply Nat.eqb_eq, nil_length_inv in Hlen.
    assert (Hno : forall id, ¬ refreshed dag_ids dirty_only session id).
    { intros id Hr. apply Hsel in Hr. rewrite Hlen in Hr. by apply elem_of_nil in Hr. }
    split; [done|]. intros r. split.
    + intros Hr. right. split; [done|]. intros [Hr' _]. by apply (Hno _ Hr').
    + intros [(id & st & Hr & _)|[? _]]; [by destruct (Hno id)|done].
  - cbn [Session.dag_stats Session.set_dag_stats].
    destruct (stat_fold_merge
                (fun key : string * State.t =>
                   DagStatRow.mk (fst key) (snd key)
                     (run_count session (fst key) (snd key)) false)
                (list_prod ids State.dag_states) (Session.dag_stats session))
      as [Hnd' Hiff]; [|done|].
    { intros [a b] [c d]. unfold stat_key. cbn. by intros [= -> ->]. }
    split; [exact Hnd'|]. intros r.
    assert (Hmap : map (fun x : string * State.t =>
                     stat_key (DagStatRow.mk (fst x) (snd x)
                                 (run_count session (fst x) (snd x)) false))
                     (list_prod ids State.dag_states)
                   = list_prod ids State.dag_states).
    { rewrite <- (map_id (list_prod ids State.dag_states)) at 2.
      apply map_ext. by intros [a b]. }
    etransitivity; [apply Hiff|]. rewrite Hmap.
    assert (Hprod : forall a b, (a, b) ∈ list_prod ids State.dag_states
              <-> refreshed dag_ids dirty_only session a ∧ b ∈ State.dag_states).
    { intros a b. rewrite list_elem_of_In, in_prod_iff, <- !list_elem_of_In.
      by rewrite Hsel. }
    split.
    + intros [([a b] & Hx & ->)|[Hin Hk]].
      * apply Hprod in Hx as [? ?]. left. by exists a, b.
      * right. split; [done|]. intros Hr. apply Hk. by apply Hprod.
    + intros [(a & b & Hr & Hst & ->)|[Hin Hk]].
      * left. exists (a, b). split; [by apply Hprod|done].
      * right. split; [done|]. intros Hr. apply Hk. by apply Hprod in Hr.
Qed.

(** X19. On a stats table with one row per (dag_id, state), [update]
    refreshes every DAG that has a selected row (any row when dirty_only is
    off, a dirty row otherwise, of one of dag_ids when these are given):
    for each DagRun state the table then holds the row of the DAG with the
    number of its runs in that state and dirty off, and no other row of
    that key.  All other rows are kept as they are, among them the rows of
    a refreshed DAG whose state is not a DagRun state, which stay dirty.
    The table still has one row per key and no other table changes. *)
Theorem dag_stat_update_refreshes_selected
    (dag_ids : list string) (dirty_only : bool) (session : Session.t) :
  NoDup (map stat_key (Session.dag_stats session)) ->
  let session' := DagStat.update dag_ids dirty_only session in
  (forall id st, refreshed dag_ids dirty_only session id ->
     st ∈ State.dag_states ->
     DagStatRow.mk id st (run_count session id st) false
       ∈ Session.dag_stats session')
  ∧ (forall r, r ∈ Session.dag_stats session' ->
       refreshed dag_ids dirty_only session (DagStatRow.dag_id r) ->
       DagStatRow.state r ∈ State.dag_states ->
       DagStatRow.count r
         = run_count session (DagStatRow.dag_id r) (DagStatRow.state r)
       ∧ DagStatRow.dirty r = false)
  ∧ (forall r, ¬ (refreshed dag_ids dirty_only session (DagStatRow.dag_id r)
                  ∧ DagStatRow.state r ∈ State.dag_states) ->
       r ∈ Session.dag_stats session' <-> r ∈ Session.dag_stats session)
  ∧ NoDup (map stat_key (Session.dag_stats session'))
  ∧ Session.dag_runs session' = Session.dag_runs session
  ∧ Session.task_instances session' = Session.task_instances session.
Proof.
  intros Hnd session'.
  destruct (update_rows dag_ids dirty_only session Hnd) as [Hnd' Hiff].
  fold session' in Hnd', Hiff.
  split; [|split; [|split; [|split; [done|]]]].
  - intros id st Hr Hst. apply Hiff. left. by exists id, st.
  - intros r Hin Hr Hst. apply Hiff in Hin as [(id & st & _ & _ & ->)|[_ Hk]].
    + done.
    + by destruct Hk.
  - intros r Hk. rewrite Hiff. split.
    + intros [(id & st & Hr & Hst & ->)|[? _]]; [|done]. by destruct Hk.
    + intros Hin. by right.
  - subst session'. unfold DagStat.update.
    by destruct (Nat.eqb _ _).
Qed.

Lemma dag_stat_update_refreshes_selected_witness :
  DagStatRow.mk "etl" State.SUCCESS 2 false
    ∈ Session.dag_stats (DagStat.update [] true example_stat_session)
  ∧ DagStatRow.mk "web" State.FAILED 7 false
    ∈ Session.dag_stats (DagStat.update [] true example_stat_session).
Proof.
  assert (Hnd : NoDup (map stat_key (Session.dag_stats example_stat_session)))
    by (apply (bool_decide_unpack _); vm_compute; exact I).
  destruct (dag_stat_update_refreshes_selected [] true example_stat_session Hnd)
    as (Hnew & _ & Hold & _).
  split.
  - apply (Hnew "etl" State.SUCCESS).
    + exists (DagStatRow.mk "etl" State.SUCCESS 0 true).
      split; [apply list_elem_of_In; simpl; left; reflexivity|].
      split; [reflexivity|]. split; [left; reflexivity|reflexivity].
    + apply list_elem_of_In. simpl. left. reflexivity.
  - apply Hold.
    + intros [(r & Hin & Hid & _ & Hd) _].
      apply list_elem_of_In in Hin. simpl in Hin.
      destruct Hin as [<-|[<-|[]]]; [discriminate Hid|].
      specialize (Hd eq_refl). discriminate Hd.
    + apply list_elem_of_In. simpl. right. left. reflexivity.
Defined.


Lemma filter_none {A : Type} (P : A -> Prop) `{forall x, Decision (P x)}
    (l : list A) :
  Forall (fun x => ¬ P x) l -> filter P l = [].
Proof.
  induction 1 as [|x l Hx _ IH]; [done|].
  by rewrite filter_cons, decide_False.
Qed.

Lemma create_fold (dag_id : string) (states L : list State.t)
    (rows : list DagStatRow.t) :
  NoDup L ->
  (forall st, st ∈ L -> st ∉ states -> (dag_id, st) ∉ map stat_key rows) ->
  fold_left
    (fun rows state =>
       if bool_decide (state ∉ states)
       then DagStat.merge (DagStatRow.mk dag_id state 0 false) rows
       else rows) L rows
  = rows ++ map (fun st => DagStatRow.mk dag_id st 0 false)
              (filter (fun st => st ∉ states) L).
Proof.
  revert rows. induction L as [|st L IH]; intros rows Hnd Hnew; cbn [fold_left].
  - by rewrite app_nil_r.
  - apply NoDup_cons in Hnd as [Hst Hnd]. rewrite filter_cons.
    case_bool_decide as Hin.
    + rewrite decide_True by done.
      rewrite stat_merge_new by (apply Hnew; [by left|done]).
      rewrite IH; [by rewrite <- app_assoc|done|].
      intros st' Hst' Hn. rewrite map_app. apply not_elem_of_app. split.
      * apply Hnew; [by right|done].
      * cbn. rewrite list_elem_of_singleton. unfold stat_key. cbn.
        intros [= ->]. done.
    + rewrite decide_False by (intros Hn; by apply Hn). apply IH; [done|].
      intros st' Hst' Hn. apply Hnew; [by right|done].
Qed.

(** The stats table after [create]: the rows it had, followed by one row
    for every DagRun state that the DAG had no row of. *)
Lemma create_rows (dag_id : string) (session : Session.t) :
  Session.dag_stats (DagStat.create dag_id session)
  = Session.dag_stats session
    ++ map (fun st => DagStatRow.mk dag_id st 0 false)
         (filter (fun st => (dag_id, st) ∉ map stat_key (Session.dag_stats session))
                 State.dag_states).
Proof.
  unfold DagStat.create. cbn [Session.dag_stats Session.set_dag_stats].
  set (states := map DagStatRow.state _).
  assert (Hst : forall st, st ∈ states
            <-> (dag_id, st) ∈ map stat_key (Session.dag_stats session)).
  { intros st. unfold states. rewrite !list_elem_of_In, !in_map_iff. split.
    - intros (r & <- & Hin). apply list_elem_of_In, list_elem_of_filter in Hin as [<- Hin].
      exists r. split; [done|by apply list_elem_of_In].
    - intros (r & [= <- <-] & Hin). exists r. split; [done|].
      apply list_elem_of_In, list_elem_of_filter. split; [done|by apply list_elem_of_In]. }
  rewrite create_fold.
  - f_equal. f_equal. apply list_filter_iff. intros st. by rewrite Hst.
  - apply (bool_decide_unpack _). vm_compute. exact I.
  - intros st _ Hn. by rewrite <- Hst.
Qed.

Lemma set_dag_stats_twice rows rows' (session : Session.t) :
  Session.set_dag_stats rows (Session.set_dag_stats rows' session)
  = Session.set_dag_stats rows session.
Proof. reflexivity. Qed.

Lemma create_covers (dag_id : string) (session : Session.t) st :
  st ∈ State.dag_states ->
  (dag_id, st) ∈ map stat_key (Session.dag_stats (DagStat.create dag_id session)).
Proof.
  intros Hst. rewrite create_rows, map_app, elem_of_app.
  destruct (decide ((dag_id, st) ∈ map stat_key (Session.dag_stats session)))
    as [?|Hn]; [by left|right].
  rewrite map_map. apply list_elem_of_In, in_map_iff. exists st. split; [done|].
  apply list_elem_of_In, list_elem_of_filter. done.
Qed.

Lemma create_NoDup (dag_id : string) (session : Session.t) :
  NoDup (map stat_key (Session.dag_stats session)) ->
  NoDup (map stat_key (Session.dag_stats (DagStat.create dag_id session))).
Proof.
  intros Hnd. rewrite create_rows, map_app, map_map. apply NoDup_app.
  split; [done|]. split.
  - intros k Hk Hin. apply list_elem_of_In, in_map_iff in Hin as (st & <- & Hin).
    by apply list_elem_of_In, list_elem_of_filter in Hin as [Hn _].
  - apply NoDup_fmap_2; [by intros a b [= ->]|].
    apply NoDup_filter. apply (bool_decide_unpack _). vm_compute. exact I.
Qed.

(** X20. [DagStat.create] keeps every row of the stats table and appends,
    with count 0 and dirty off, one row for each DagRun state of which the
    DAG has no row; afterwards the DAG has a row for every DagRun state, a
    second call changes nothing, and a table with one row per key stays
    so. *)
Theorem dag_stat_create_adds_missing_states (dag_id : string) (session : Session.t) :
  let session' := DagStat.create dag_id session in
  (exists added,
     Session.dag_stats session' = Session.dag_stats session ++ added
     ∧ forall r, r ∈ added
         <-> (exists st, st ∈ State.dag_states
                ∧ ((dag_id, st) ∉ map stat_key (Session.dag_stats session))
                ∧ r = DagStatRow.mk dag_id st 0 false))
  ∧ (forall st, st ∈ State.dag_states ->
       exists r, r ∈ Session.dag_stats session' ∧ stat_key r = (dag_id, st))
  ∧ DagStat.create dag_id session' = session'
  ∧ (NoDup (map stat_key (Session.dag_stats session)) ->
     NoDup (map stat_key (Session.dag_stats session'))).
Proof.
  intros session'. split; [|split; [|split]].
  - eexists. split; [apply create_rows|]. intros r.
    rewrite list_elem_of_In, in_map_iff. split.
    + intros (st & <- & Hin). apply list_elem_of_In, list_elem_of_filter in Hin as [? ?].
      by exists st.
    + intros (st & Hst & Hn & ->). exists st. split; [done|].
      by apply list_elem_of_In, list_elem_of_filter.
  - intros st Hst. pose proof (create_covers dag_id session st Hst) as Hin.
    apply list_elem_of_In, in_map_iff in Hin as (r & Hk & Hin).
    exists r. split; [by apply list_elem_of_In|done].
  - assert (Hrows : Session.dag_stats (DagStat.create dag_id session')
                    = Session.dag_stats session').
    { rewrite (create_rows dag_id session').
      rewrite filter_none; [by rewrite app_nil_r|].
      apply Forall_forall. intros st Hst Hn. apply Hn.
      by apply create_covers. }
    unfold DagStat.create at 1. unfold DagStat.create at 1 in Hrows.
    cbn [Session.dag_stats Session.set_dag_stats] in Hrows. rewrite Hrows.
    subst session'. unfold DagStat.create. by rewrite set_dag_stats_twice.
  - apply create_NoDup.
Qed.


Lemma dag_stat_create_adds_missing_states_witness :
  DagStat.create "etl" (DagStat.create "etl" example_stat_session)
  = DagStat.create "etl" example_stat_session
  ∧ NoDup (map stat_key
             (Session.dag_stats (DagStat.create "etl" example_stat_session))).
Proof.
  destruct (dag_stat_create_adds_missing_states "etl" example_stat_session)
    as (_ & _ & Hidem & Hnd).
  split; [exact Hidem|]. apply Hnd.
  apply (bool_decide_unpack _). vm_compute. exact I.
Defined.

(** The stats table after [set_dirty]: the table after [create], with the
    rows of the DAG marked dirty. *)
Lemma set_dirty_rows (dag_id : string) (session : Session.t) :
  Session.dag_stats (DagStat.set_dirty dag_id session)
  = map (fun stat =>
           if bool_decide (DagStatRow.dag_id stat = dag_id)
           then DagStatRow.mk (DagStatRow.dag_id stat) (DagStatRow.state stat)
                  (DagStatRow.count stat) true
           else stat)
        (Session.dag_stats (DagStat.create dag_id session)).
Proof. reflexivity. Qed.

Lemma set_dirty_keys (dag_id : string) (session : Session.t) :
  map stat_key (Session.dag_stats (DagStat.set_dirty dag_id session))
  = map stat_key (Session.dag_stats (DagStat.create dag_id session)).
Proof.
  rewrite set_dirty_rows, map_map. apply map_ext. intros r.
  by case_bool_decide.
Qed.

Lemma set_dirty_other (dag_id : string) (session : Session.t) r :
  DagStatRow.dag_id r ≠ dag_id ->
  r ∈ Session.dag_stats (DagStat.set_dirty dag_id session)
  <-> r ∈ Session.dag_stats session.
Proof.
  intros Hne. rewrite set_dirty_rows, create_rows.
  rewrite list_elem_of_In, in_map_iff. split.
  - intros (r0 & Hr & Hin). case_bool_decide as Hd.
    + subst r. cbn in Hne. done.
    + subst r0. apply list_elem_of_In, elem_of_app in Hin as [?|Hin]; [done|].
      apply list_elem_of_In, in_map_iff in Hin as (st & <- & _). done.
  - intros Hin. exists r. rewrite bool_decide_eq_false_2 by done.
    split; [done|]. apply list_elem_of_In, elem_of_app. by left.
Qed.

Lemma set_dirty_refreshed (dag_id : string) (session : Session.t) id :
  refreshed [dag_id] true (DagStat.set_dirty dag_id session) id <-> id = dag_id.
Proof.
  split.
  - intros (r & _ & _ & [?|Hin] & _); [done|].
    by apply list_elem_of_singleton in Hin.
  - intros ->.
    assert (Hs : State.SUCCESS ∈ State.dag_states) by (by left).
    pose proof (create_covers dag_id session _ Hs) as Hin.
    apply list_elem_of_In, in_map_iff in Hin as (r & [= Hid Hst] & Hin).
    exists (DagStatRow.mk (DagStatRow.dag_id r) (DagStatRow.state r)
              (DagStatRow.count r) true).
    split; [|split; [done|split; [right; by left|done]]].
    rewrite set_dirty_rows. apply list_elem_of_In, in_map_iff. exists r.
    rewrite bool_decide_eq_true_2 by done. done.
Qed.

(** X21. [set_dirty] followed by [update] for the same DAG brings the
    stats of the DAG up to date, whatever the table held: for every DagRun
    state the table then holds the row of the DAG with the number of its
    runs in that state and dirty off, and no other row of that key, and the
    rows of the other DAGs are the ones the table had. *)
Theorem set_dirty_then_update_refreshes_dag (dag_id : string) (session : Session.t) :
  NoDup (map stat_key (Session.dag_stats session)) ->
  let session' := DagStat.update [dag_id] true (DagStat.set_dirty dag_id session) in
  (forall st, st ∈ State.dag_states ->
     DagStatRow.mk dag_id st (run_count session dag_id st) false
       ∈ Session.dag_stats session')
  ∧ (forall r, r ∈ Session.dag_stats session' ->
       DagStatRow.dag_id r = dag_id -> DagStatRow.state r ∈ State.dag_states ->
       DagStatRow.count r = run_count session dag_id (DagStatRow.state r)
       ∧ DagStatRow.dirty r = false)
  ∧ (forall r, DagStatRow.dag_id r ≠ dag_id ->
       r ∈ Session.dag_stats session' <-> r ∈ Session.dag_stats session)
  ∧ NoDup (map stat_key (Session.dag_stats session')).
Proof.
  intros Hnd session'.
  assert (Hnd1 : NoDup (map stat_key
                          (Session.dag_stats (DagStat.set_dirty dag_id session))))
    by (rewrite set_dirty_keys; by apply create_NoDup).
  destruct (update_rows [dag_id] true _ Hnd1) as [Hnd' Hiff].
  fold session' in Hnd', Hiff.
  assert (Hcount : forall id st,
            run_count (DagStat.set_dirty dag_id session) id st
            = run_count session id st) by reflexivity.
  split; [|split; [|split; [|done]]].
  - intros st Hst. apply Hiff. left. exists dag_id, st.
    split; [by apply set_dirty_refreshed|]. by rewrite Hcount.
  - intros r Hin Hid Hst. apply Hiff in Hin as [(id & st & Hr & _ & ->)|[_ Hk]].
    + cbn in *. by rewrite Hcount, Hid.
    + destruct Hk. split; [by apply set_dirty_refreshed|done].
  - intros r Hne. rewrite Hiff. split.
    + intros [(id & st & Hr & _ & ->)|[Hin _]].
      * apply set_dirty_refreshed in Hr. by destruct Hne.
      * by apply set_dirty_other in Hin.
    + intros Hin. right. split; [by apply set_dirty_other|].
      intros [Hr _]. by apply set_dirty_refreshed in Hr.
Qed.

Lemma set_dirty_then_update_refreshes_dag_witness :
  DagStatRow.mk "web" State.FAILED 1 false
    ∈ Session.dag_stats
        (DagStat.update ["web"] true (DagStat.set_dirty "web" example_stat_session)).
Proof.
  assert (Hnd : NoDup (map stat_key (Session.dag_stats example_stat_session)))
    by (apply (bool_decide_unpack _); vm_compute; exact I).
  destruct (set_dirty_then_update_refreshes_dag "web" example_stat_session Hnd)
    as [Hnew _].
  apply (Hnew State.FAILED).
  apply list_elem_of_In. simpl. right. right. left. reflexivity.
Defined.

(** ** DAG.clear: what a real clear leaves in the table *)

Lemma ti_rows_same_key (rows : list TaskInstance.t) r1 r2 :
  NoDup (map ti_key rows) -> r1 ∈ rows -> r2 ∈ rows ->
  ti_key r1 = ti_key r2 -> r1 = r2.
Proof.
  induction rows as [|r rows IH]; intros Hnd H1 H2 Hk;
    [by apply elem_of_nil in H1|].
  cbn [map] in Hnd. apply NoDup_cons in Hnd as [Hr Hnd].
  assert (Hkey : forall x, x ∈ rows -> ti_key x ∈ map ti_key rows)
    by (intros x Hx; apply list_elem_of_In, in_map, list_elem_of_In, Hx).
  apply elem_of_cons in H1 as [->|H1]; apply elem_of_cons in H2 as [->|H2].
  - done.
  - destruct Hr. rewrite Hk. by apply Hkey.
  - destruct Hr. rewrite <- Hk. by apply Hkey.
  - by apply IH.
Qed.

(** Merging an instance whose key is in the table replaces the row of that
    key. *)
Lemma merge_ti_replace (c : TaskInstance.t -> TaskInstance.t) x rows :
  (forall r, ti_key (c r) = ti_key r) ->
  NoDup (map ti_key rows) -> ti_key x ∈ map ti_key rows ->
  Session.merge_ti x (map c rows)
  = map (fun r => if decide (ti_key r = ti_key x) then x else c r) rows.
Proof.
  intros Hc. induction rows as [|r rows IH]; intros Hnd Hin;
    [by apply elem_of_nil in Hin|].
  cbn [map] in Hnd. apply NoDup_cons in Hnd as [Hr Hnd].
  cbn [map Session.merge_ti].
  destruct (TaskInstance.same_key (c r) x) eqn:Hs.
  - apply same_key_iff in Hs. rewrite Hc in Hs. rewrite decide_True by done.
    f_equal. apply map_ext_in. intros r' Hr'.
    rewrite decide_False; [done|]. intros Hk. apply Hr. rewrite Hs, <- Hk.
    by apply list_elem_of_In, in_map.
  - assert (Hne : ti_key r ≠ ti_key x).
    { intros Hk. rewrite <- (Hc r) in Hk. apply same_key_iff in Hk. congruence. }
    rewrite decide_False by done. f_equal. apply IH; [done|].
    cbn [map] in Hin. apply elem_of_cons in Hin as [?|?]; [congruence|done].
Qed.

(** A loop of merges of instances of the table, each changed by [h]. *)
Lemma fold_merge_ti_map (p : TaskInstance.t -> bool)
    (h : TaskInstance.t -> TaskInstance.t) (rows : list TaskInstance.t) :
  (forall t, ti_key (h t) = ti_key t) ->
  NoDup (map ti_key rows) ->
  forall (tis : list TaskInstance.t) (c : TaskInstance.t -> TaskInstance.t),
    (forall t, ti_key (c t) = ti_key t) ->
    (forall t, t ∈ tis -> t ∈ rows) ->
    fold_left (fun cur t => if p t then Session.merge_ti (h t) cur else cur)
      tis (map c rows)
    = map (fun r => if decide (ti_key r ∈ map ti_key (filter (fun t => p t = true) tis))
                    then h r else c r) rows.
Proof.
  intros Hh Hnd. induction tis as [|t tis IH]; intros c Hc Hsub; cbn [fold_left].
  - apply map_ext. intros r. rewrite decide_False; [done|]. apply not_elem_of_nil.
  - assert (Ht : t ∈ rows) by (apply Hsub; by left).
    assert (Hsub' : forall t', t' ∈ tis -> t' ∈ rows)
      by (intros t' Ht'; apply Hsub; by right).
    rewrite filter_cons. destruct (p t) eqn:Hp.
    + rewrite decide_True by done.
      rewrite (merge_ti_replace c (h t) rows Hc Hnd)
        by (rewrite Hh; apply list_elem_of_In, in_map, list_elem_of_In, Ht).
      rewrite IH; [|intros r; case_decide; [done|apply Hc]|done].
      apply map_ext_in. intros r Hr. apply list_elem_of_In in Hr. cbn [map].
      destruct (decide (ti_key r ∈ map ti_key (filter (fun t0 => p t0 = true) tis)))
        as [Hin|Hnin].
      * rewrite decide_True by (by right). done.
      * rewrite Hh. destruct (decide (ti_key r = ti_key t)) as [Hk|Hk].
        -- rewrite decide_True by (rewrite Hk; by left).
           by rewrite (ti_rows_same_key rows r t Hnd Hr Ht Hk).
        -- rewrite decide_False; [done|].
           intros Hin. apply elem_of_cons in Hin as [?|?]; done.
    + rewrite decide_False by done. by apply IH.
Qed.

Lemma merged_rows_fold dag tis rows :
  merged_rows dag tis rows
  = fold_left
      (fun cur t =>
         if negb (bool_decide (TaskInstance.state t = State.RUNNING))
         then Session.merge_ti (cleared dag t) cur else cur) tis rows.
Proof.
  unfold merged_rows. revert rows.
  induction tis as [|t tis IH]; intros rows; [done|]. cbn [fold_left].
  rewrite IH. f_equal. case_decide.
  - by rewrite bool_decide_eq_true_2.
  - by rewrite bool_decide_eq_false_2.
Qed.

Lemma write_back_fold (h : TaskInstance.t -> TaskInstance.t) tis rows :
  fold_left (fun rows ti => Session.merge_ti ti rows) (map h tis) rows
  = fold_left (fun cur t => if true then Session.merge_ti (h t) cur else cur)
      tis rows.
Proof. revert rows. induction tis as [|t tis IH]; intros rows; [done|]. apply IH. Qed.

Lemma update_task_instances dag_ids dirty_only session :
  Session.task_instances (DagStat.update dag_ids dirty_only session)
  = Session.task_instances session.
Proof. unfold DagStat.update. by destruct (Nat.eqb _ _). Qed.

Lemma update_jobs dag_ids dirty_only session :
  Session.jobs (DagStat.update dag_ids dirty_only session) = Session.jobs session.
Proof. unfold DagStat.update. by destruct (Nat.eqb _ _). Qed.

Section ClearFacts.
Context `{SqlLike} `{Console}.

(** What [clear] does when it is not a dry run and the user, if asked,
    agrees. *)
Lemma clear_for_real (self : DAG.t) start_date end_date
    (only_failed only_running confirm_prompt include_subdags reset_dag_runs : bool)
    (now : Z) (session : Session.t) :
  keys_are_task_ids self ->
  let tis :=
    filter (fun ti => DagClear.selected self start_date end_date only_failed
                        only_running include_subdags ti = true)
           (Session.task_instances session) in
  tis ≠ [] ->
  (confirm_prompt = true -> ask_yesno tis = true) ->
  exists session1,
    clear_task_instances tis session true (Some self) now
    = Ok (map (cleared (Some self)) tis, collected_job_ids tis, session1)
    ∧ Session.task_instances session1
      = merged_rows (Some self) tis (Session.task_instances session)
    ∧ DagClear.clear self start_date end_date only_failed only_running
        confirm_prompt include_subdags reset_dag_runs false now session
      = Ok (DagClear.Count (Z.of_nat (length tis)),
            let session2 :=
              DagClear.write_back (map (cleared (Some self)) tis) session1 in
            if reset_dag_runs
            then DagClear.set_dag_runs_state self State.RUNNING session2
            else session2).
Proof.
  intros Hk tis Hne Hyes.
  destruct (clear_task_instances_result tis session true (Some self) now)
    as (session1 & Hrun & Hrows & _).
  { intros d [= <-]. done. }
  exists session1. split; [done|]. split; [done|].
  unfold DagClear.clear. fold tis. cbn [negb].
  assert (Hlen : Z.eqb (Z.of_nat (length tis)) 0 = false).
  { apply Z.eqb_neq. destruct tis; [done|]. cbn [length]. lia. }
  cbv zeta. rewrite Hlen.
  assert (Hdo : (if confirm_prompt then ask_yesno tis else true) = true)
    by (destruct confirm_prompt; [by apply Hyes|done]).
  rewrite Hdo, Hrun. cbn [mbind result_bind]. done.
Qed.

End ClearFacts.


Section ClearEffects.
Context `{SqlLike} `{Console}.

(** X22. [clear] never raises on a DAG whose dict keys are its task ids.
    The count it returns is the number of instances that the dry run with
    the same arguments returns, unless the user declined at the prompt, in
    which case it is 0; when the user declined or nothing is selected, the
    session is left as it was. *)
Theorem clear_count_agrees_with_dry_run (self : DAG.t) start_date end_date
    (only_failed only_running confirm_prompt include_subdags reset_dag_runs : bool)
    (now : Z) (session : Session.t) :
  keys_are_task_ids self ->
  exists tis session',
    DagClear.clear self start_date end_date only_failed only_running
      confirm_prompt include_subdags reset_dag_runs true now session
    = Ok (DagClear.Selection tis, session)
    ∧ let declined := confirm_prompt && negb (ask_yesno tis) in
      DagClear.clear self start_date end_date only_failed only_running
        confirm_prompt include_subdags reset_dag_runs false now session
      = Ok (DagClear.Count (if declined then 0 else Z.of_nat (length tis)),
            session')
      ∧ (declined = true ∨ tis = [] -> session' = session).
Proof.
  intros Hk.
  set (tis := filter (fun ti => DagClear.selected self start_date end_date
                                  only_failed only_running include_subdags ti = true)
                     (Session.task_instances session)).
  destruct (decide (tis = [])) as [Hnil|Hne].
  - exists tis, session. split; [done|]. cbv zeta. unfold DagClear.clear.
    fold tis. rewrite Hnil. cbn. split; [|done].
    by destruct (confirm_prompt && negb (ask_yesno [])).
  - destruct (confirm_prompt && negb (ask_yesno tis)) eqn:Hd.
    + exists tis, session. split; [done|]. cbv zeta. rewrite Hd.
      apply andb_prop in Hd as [-> Hno]. apply negb_true_iff in Hno.
      split; [|done]. unfold DagClear.clear. fold tis. cbv zeta.
      assert (Hlen : Z.eqb (Z.of_nat (length tis)) 0 = false).
      { apply Z.eqb_neq. destruct tis; [done|]. cbn [length]. lia. }
      by rewrite Hlen, Hno.
    + assert (Hyes : confirm_prompt = true -> ask_yesno tis = true).
      { intros ->. cbn in Hd. by apply negb_false_iff in Hd. }
      destruct (clear_for_real self start_date end_date only_failed only_running
                  confirm_prompt include_subdags reset_dag_runs now session
                  Hk Hne Hyes) as (session1 & _ & _ & Hclear).
      eexists tis, _. split; [done|]. cbv zeta. rewrite Hd.
      split; [exact Hclear|]. intros [?|?]; done.
Qed.

(** X23. A clear that is carried out (no dry run, and a yes when the user
    is asked) on a table with one row per key replaces every selected row
    by the row cleared according to the rule of [clear_task_instances]
    (SHUTDOWN for a RUNNING instance with a job, NONE with the recomputed
    max_tries for an instance that is not RUNNING) and leaves every other
    row as it is, in place; no row is added or removed. *)
Theorem clear_rewrites_selected_rows (self : DAG.t) start_date end_date
    (only_failed only_running confirm_prompt include_subdags reset_dag_runs : bool)
    (now : Z) (session : Session.t) :
  keys_are_task_ids self ->
  NoDup (map ti_key (Session.task_instances session)) ->
  let sel := fun ti => DagClear.selected self start_date end_date only_failed
                         only_running include_subdags ti in
  (confirm_prompt = true ->
   ask_yesno (filter (fun ti => sel ti = true) (Session.task_instances session))
   = true) ->
  exists count session',
    DagClear.clear self start_date end_date only_failed only_running
      confirm_prompt include_subdags reset_dag_runs false now session
    = Ok (DagClear.Count count, session')
    ∧ Session.task_instances session'
      = map (fun ti => if sel ti then cleared (Some self) ti else ti)
            (Session.task_instances session).
Proof.
  intros Hk Hnd sel Hyes.
  set (rows := Session.task_instances session) in *.
  set (tis := filter (fun ti => DagClear.selected self start_date end_date
                                  only_failed only_running include_subdags ti = true)
                     rows).
  change (confirm_prompt = true -> ask_yesno tis = true) in Hyes.
  assert (Hsub : forall t, t ∈ tis -> t ∈ rows)
    by (intros t Ht; by apply list_elem_of_filter in Ht as [_ ?]).
  assert (Hkeys : forall r, r ∈ rows ->
            ti_key r ∈ map ti_key tis <-> sel r = true).
  { intros r Hr. split.
    - intros Hin. apply list_elem_of_In, in_map_iff in Hin as (t & Hkt & Ht).
      apply list_elem_of_In in Ht. pose proof Ht as Ht'.
      apply list_elem_of_filter in Ht' as [Hsel Htr].
      by rewrite <- (ti_rows_same_key rows t r Hnd Htr Hr Hkt).
    - intros Hsel. apply list_elem_of_In, in_map, list_elem_of_In.
      by apply list_elem_of_filter. }
  destruct (decide (tis = [])) as [Hnil|Hne].
  - exists 0%Z, session. split.
    + unfold DagClear.clear. fold rows. fold tis. by rewrite Hnil.
    + fold rows. rewrite <- (map_id rows) at 1. apply map_ext_in.
      intros r Hr. apply list_elem_of_In in Hr.
      destruct (sel r) eqn:Hsel; [|done].
      apply (Hkeys r Hr) in Hsel. rewrite Hnil in Hsel. by apply elem_of_nil in Hsel.
  - destruct (clear_for_real self start_date end_date only_failed only_running
                confirm_prompt include_subdags reset_dag_runs now session
                Hk Hne Hyes) as (session1 & _ & Hrows1 & Hclear).
    eexists _, _. split; [exact Hclear|].
    assert (Hcleared : forall t, ti_key (cleared (Some self) t) = ti_key t)
      by (intros t; apply cleared_keeps_identity).
    assert (Hti : Session.task_instances
                    (DagClear.write_back (map (cleared (Some self)) tis) session1)
                  = map (fun ti => if sel ti then cleared (Some self) ti else ti) rows).
    { unfold DagClear.write_back. cbn [Session.task_instances Session.set_task_instances].
      rewrite Hrows1. fold rows. fold tis. rewrite merged_rows_fold.
      pose proof (fold_merge_ti_map
                    (fun t => negb (bool_decide (TaskInstance.state t = State.RUNNING)))
                    (cleared (Some self)) rows Hcleared Hnd tis id
                    (fun _ => eq_refl) Hsub) as Hfirst.
      rewrite map_id in Hfirst. rewrite Hfirst.
      rewrite write_back_fold.
      rewrite (fold_merge_ti_map (fun _ => true) (cleared (Some self)) rows
                 Hcleared Hnd tis); [|intros t; case_decide; done|done].
      apply map_ext_in. intros r Hr. apply list_elem_of_In in Hr.
      assert (Hall : filter (fun _ : TaskInstance.t => true = true) tis = tis).
      { clear. induction tis as [|t l IH]; [done|].
        by rewrite filter_cons, decide_True, IH. }
      rewrite Hall. destruct (sel r) eqn:Hsel.
      - rewrite decide_True by (by apply Hkeys). done.
      - assert (Hno : ti_key r ∉ map ti_key tis).
        { intros Hin. apply (Hkeys r Hr) in Hin. congruence. }
        rewrite decide_False by done. rewrite decide_False; [done|].
        intros Hin. apply Hno.
        apply list_elem_of_In, in_map_iff in Hin as (t & Hkt & Ht).
        apply list_elem_of_In, list_elem_of_filter in Ht as [_ Ht].
        rewrite <- Hkt. apply list_elem_of_In, in_map, list_elem_of_In, Ht. }
    destruct reset_dag_runs; [|exact Hti].
    unfold DagClear.set_dag_runs_state. by rewrite update_task_instances.
Qed.

End ClearEffects.

Lemma clear_count_agrees_with_dry_run_witness :
  exists tis session',
    DagClear.clear (H := plain_like) (H0 := no_console) chain_dag None None
      false false true true true true 50 (chain_session 7)
    = Ok (DagClear.Selection tis, chain_session 7)
    ∧ DagClear.clear (H := plain_like) (H0 := no_console) chain_dag None None
        false false true true true false 50 (chain_session 7)
      = Ok (DagClear.Count 0, session')
    ∧ session' = chain_session 7.
Proof.
  destruct (clear_count_agrees_with_dry_run (H := plain_like) (H0 := no_console)
              chain_dag None None false false true true true 50 (chain_session 7)
              chain_dag_keys) as (tis & session' & Hdry & Hreal & Hsame).
  exists tis, session'. split; [exact Hdry|]. split; [exact Hreal|].
  apply Hsame. left. reflexivity.
Defined.

Lemma clear_rewrites_selected_rows_witness :
  exists count session',
    DagClear.clear (H := plain_like) (H0 := yes_console) chain_dag None None
      true false true true true false 50 (chain_session 7)
    = Ok (DagClear.Count count, session')
    ∧ Session.task_instances session'
      = [ running_ti (Some 7%Z);
          TaskInstance.mk "chain" "B" 0 State.NONE 2 4 None None ].
Proof.
  assert (Hnd : NoDup (map ti_key (Session.task_instances (chain_session 7))))
    by (apply (bool_decide_unpack _); vm_compute; exact I).
  destruct (clear_rewrites_selected_rows (H := plain_like) (H0 := yes_console)
              chain_dag None None true false true true true 50 (chain_session 7)
              chain_dag_keys Hnd (fun _ => eq_refl))
    as (count & session' & Hclear & Hrows).
  exists count, session'. split; [exact Hclear|]. rewrite Hrows. reflexivity.
Defined.

(** ** DagBag: what loading keeps *)

Section DagBagMore.
Context `{Settings} `{Regex}.

Lemma loaded_refl path self : loaded path self self.
Proof. by repeat split. Qed.

Lemma loaded_trans path s1 s2 s3 :
  loaded path s1 s2 -> loaded path s2 s3 -> loaded path s1 s3.
Proof.
  intros [(Hd1 & Hi1 & Hf1 & Hfo1) (Hs1 & Hp1)] [(Hd2 & Hi2 & Hf2 & Hfo2) (Hs2 & Hp2)].
  split; [split; [|split; [|split]]|split].
  - by transitivity (dom (DagBag.dags s2)).
  - by transitivity (dom (DagBag.import_errors s2)).
  - by transitivity (dom (DagBag.file_last_changed s2)).
  - congruence.
  - congruence.
  - intros p Hp. destruct (Hp1 p Hp) as [<- <-]. by apply Hp2.
Qed.

Lemma loaded_extends path self self' : bag_extends self self' -> loaded path self self'.
Proof.
  intros (Hie & Hflc & Hfo & Hst & Hdom).
  split; [split; [done|split; [by rewrite Hie|split; [by rewrite Hflc|done]]]|].
  split; [done|]. intros p _. by rewrite Hie, Hflc.
Qed.

Lemma loaded_time path mtime self :
  loaded path self
    (DagBag.set_file_last_changed
       (<[path := mtime]> (DagBag.file_last_changed self)) self).
Proof.
  split; [split; [done|split; [done|split; [|done]]]|split; [done|]].
  - cbn. rewrite dom_insert. set_solver.
  - intros p Hp. cbn. by rewrite lookup_insert_ne.
Qed.

Lemma loaded_error path msg self :
  loaded path self
    (DagBag.set_import_errors (<[path := msg]> (DagBag.import_errors self)) self).
Proof.
  split; [split; [done|split; [|split; [done|done]]]|split; [done|]].
  - cbn. rewrite dom_insert. set_solver.
  - intros p Hp. cbn. by rewrite lookup_insert_ne.
Qed.

Lemma scan_zip_loaded path safe_mode mtime members : forall mods self,
  match DagBag.scan_zip path safe_mode mtime members mods self with
  | DagBag.ZipReturn self' =>
      loaded path self self' ∧ DagBag.file_last_changed self' !! path = Some mtime
  | DagBag.ZipMods _ self' => loaded path self self'
  end.
Proof.
  induction members as [|m members IH]; intros mods self; cbn [DagBag.scan_zip].
  - apply loaded_refl.
  - destruct (negb (str_truthy (zm_head m)) && _); [|apply IH].
    destruct (safe_mode && negb (zm_markers m)).
    + split; [apply loaded_time|]. cbn. by rewrite lookup_insert_eq.
    + destruct (zm_import m) as [msg|ds]; [|apply IH].
      match goal with
      | |- match DagBag.scan_zip _ _ _ _ _ ?s with _ => _ end =>
          pose proof (IH mods s) as Hs;
          assert (Hl : loaded path self s)
            by (eapply loaded_trans; [apply loaded_error|apply loaded_time])
      end.
      destruct (DagBag.scan_zip _ _ _ _ _ _) as [s'|mods' s'].
      * destruct Hs as [Hs ?]. split; [by eapply loaded_trans|done].
      * by eapply loaded_trans.
Qed.

(** The end of [process_file]: the DAGs of the imported modules are bagged
    and the modification time is recorded. *)
Lemma process_file_finish path now mtime (ds : list DAG.t) self :
  exists found self',
    ('(found_dags, self) ← foldl (DagBag.bag_module path now) (Some ([], self)) ds;
     Some (found_dags,
           DagBag.set_file_last_changed
             (<[path := mtime]> (DagBag.file_last_changed self)) self))
    = Some (found, self')
    ∧ loaded path self self'
    ∧ DagBag.file_last_changed self' !! path = Some mtime.
Proof.
  destruct (bag_modules_spec path now ds [] self) as (found & self1 & -> & Hext & _).
  cbn [mbind option_bind]. eexists _, _. split; [reflexivity|]. split.
  - eapply loaded_trans; [by apply loaded_extends|apply loaded_time].
  - cbn. by rewrite lookup_insert_eq.
Qed.

(** [process_file] returns on every file; see the statements below. *)
Lemma process_file_spec (os : OS) (self : DagBag.t) (filepath : option string)
    (only_if_updated safe_mode : bool) (now : Z) :
  exists found self',
    DagBag.process_file os self filepath only_if_updated safe_mode now
    = Some (found, self')
    ∧ (forall path, filepath = Some path -> loaded path self self')
    ∧ (filepath = None -> self' = self)
    ∧ (forall path file mtime,
         filepath = Some path -> os_files os !! path = Some file ->
         f_mtime file = Some mtime ->
         DagBag.file_last_changed self' !! path = Some mtime).
Proof.
  unfold DagBag.process_file. destruct filepath as [path|].
  2:{ exists [], self. split; [done|]. split; [done|]. split; [done|]. done. }
  destruct (os_files os !! path) as [file|] eqn:Hfile.
  2:{ exists [], self. split; [done|].
      split; [intros ? _; apply loaded_refl|]. split; [done|].
      intros p f m [= <-] Hf. congruence. }
  destruct (f_mtime file) as [mtime|] eqn:Hm.
  2:{ exists [], self. split; [done|].
      split; [intros ? _; apply loaded_refl|]. split; [done|].
      intros p f m [= <-] Hf Hfm. rewrite Hfile in Hf. injection Hf as <-.
      congruence. }
  assert (Hgoal : forall self',
            loaded path self self' ->
            DagBag.file_last_changed self' !! path = Some mtime ->
            (forall p, Some path = Some p -> loaded p self self')
            ∧ (Some path = None -> self' = self)
            ∧ (forall p f m, Some path = Some p -> os_files os !! p = Some f ->
                 f_mtime f = Some m ->
                 DagBag.file_last_changed self' !! p = Some m)).
  { intros self' Hl Ht. split; [by intros p [= <-]|]. split; [done|].
    intros p f m [= <-] Hf Hfm. rewrite Hfile in Hf. injection Hf as <-. congruence. }
  destruct (only_if_updated
            && bool_decide (DagBag.file_last_changed self !! path = Some mtime))
    eqn:Hsame.
  { exists [], self. split; [done|]. apply Hgoal; [apply loaded_refl|].
    apply andb_prop in Hsame as [_ Hsame]. by apply bool_decide_eq_true_1 in Hsame. }
  cbv zeta. destruct (negb (f_is_zipfile file)).
  - destruct (safe_mode && negb (f_markers file)).
    + eexists _, _. split; [reflexivity|]. apply Hgoal; [apply loaded_time|].
      cbn. by rewrite lookup_insert_eq.
    + destruct (f_load_source file) as [msg|ds].
      * cbn [concat].
        match goal with
        | |- context [foldl _ (Some ([], ?s)) []] =>
            destruct (process_file_finish path now mtime [] s)
              as (found & self' & Hf & Hl & Ht)
        end.
        exists found, self'. split; [exact Hf|]. apply Hgoal; [|done].
        eapply loaded_trans; [|exact Hl].
        eapply loaded_trans; [apply loaded_error|apply loaded_time].
      * destruct (process_file_finish path now mtime (concat [ds]) self)
          as (found & self' & Hf & Hl & Ht).
        exists found, self'. split; [exact Hf|]. by apply Hgoal.
  - pose proof (scan_zip_loaded path safe_mode mtime (f_infolist file) [] self) as Hz.
    destruct (DagBag.scan_zip _ _ _ _ _ _) as [s'|mods s'].
    + destruct Hz as [Hl Ht]. exists [], s'. split; [done|]. by apply Hgoal.
    + destruct (process_file_finish path now mtime (concat mods) s')
        as (found & self' & Hf & Hl & Ht).
      exists found, self'. split; [exact Hf|]. apply Hgoal; [|done].
      by eapply loaded_trans.
Qed.


(** X25. Loading a file a second time does nothing: whatever the first
    call of [process_file] found, on a source or on an archive, imported or
    not, a following call for the same path with only_if_updated returns no
    DAG and leaves the bag as it is, as long as the file on disk is the
    same.  A file whose import failed is thus not imported again until its
    modification time changes. *)
Theorem process_file_twice (os : OS) (self self' : DagBag.t)
    (filepath : option string) (only_if_updated safe_mode safe_mode' : bool)
    (now now' : Z) (found : list DAG.t) :
  DagBag.process_file os self filepath only_if_updated safe_mode now
  = Some (found, self') ->
  DagBag.process_file os self' filepath true safe_mode' now' = Some ([], self').
Proof.
  intros Hp.
  destruct (process_file_spec os self filepath only_if_updated safe_mode now)
    as (found0 & self0 & Hp0 & _ & _ & Ht).
  rewrite Hp in Hp0. injection Hp0 as <- <-.
  unfold DagBag.process_file. destruct filepath as [path|]; [|done].
  destruct (os_files os !! path) as [file|] eqn:Hfile; [|done].
  destruct (f_mtime file) as [mtime|] eqn:Hm; [|done].
  rewrite (Ht path file mtime eq_refl Hfile Hm).
  by rewrite bool_decide_eq_true_2.
Qed.

End DagBagMore.

Lemma process_file_twice_witness :
  exists found self',
    DagBag.process_file (H := no_policy) example_zip (DagBag.new "/dags")
      (Some "/dags/pack.zip") true true 50 = Some (found, self')
    ∧ DagBag.process_file (H := no_policy) example_zip self'
        (Some "/dags/pack.zip") true true 60 = Some ([], self').
Proof.
  destruct (DagBag.process_file (H := no_policy) example_zip (DagBag.new "/dags")
              (Some "/dags/pack.zip") true true 50) as [[found self']|] eqn:Hp;
    [|vm_compute in Hp; discriminate].
  exists found, self'. split; [reflexivity|].
  exact (process_file_twice (H := no_policy) example_zip (DagBag.new "/dags") self'
           (Some "/dags/pack.zip") true true true 50 60 found Hp).
Defined.

(** The archive above: the failing module leaves its message, the other
    one its DAG. *)
Example process_file_archive :
  exists found self',
    DagBag.process_file (H := no_policy) example_zip (DagBag.new "/dags")
      (Some "/dags/pack.zip") true true 50 = Some (found, self')
    ∧ map DAG.dag_id found = ["chain"]
    ∧ DagBag.import_errors self' !! "/dags/pack.zip" = Some "boom"
    ∧ is_Some (DagBag.dags self' !! "chain").
Proof.
  eexists _, _. split; [vm_compute; reflexivity|].
  split; [reflexivity|]. split; [by vm_compute|].
  vm_compute. eexists. reflexivity.
Qed.



Section CollectFacts.
Context `{Settings} `{Regex}.







End CollectFacts.


(** A DAG nested in a nested sub-DAG is a nested sub-DAG. *)
Lemma subdags_closed_depth (n : nat) :
  forall d, DAG.depth d ≤ n ->
    forall sd' sd, sd' ∈ DAG.subdags d -> sd ∈ DAG.subdags sd' -> sd ∈ DAG.subdags d.
Proof.
  induction n as [|n IH]; intros d Hd sd' sd Hsd' Hsd.
  - pose proof (subdags_depth_lt 0 d Hd sd' Hsd'). lia.
  - rewrite subdags_unfold in Hsd'. rewrite subdags_unfold.
    apply list_elem_of_In, in_flat_map in Hsd' as (kv & Hkv & Hin).
    apply list_elem_of_In, in_flat_map. exists kv. split; [done|].
    destruct (DAG.subdag (snd kv)) as [s|] eqn:Hs; [|by destruct Hin].
    pose proof (nested_depth_le _ kv s (proj2 (list_elem_of_In _ _) Hkv) Hs) as Hle.
    rewrite <- depth_unfold in Hle.
    destruct Hin as [<-|Hin].
    + right. by apply list_elem_of_In.
    + right. apply list_elem_of_In. apply (IH s) with sd'; [lia| |done].
      by apply list_elem_of_In.
Qed.

Lemma subdags_closed (d sd' sd : DAG.t) :
  sd' ∈ DAG.subdags d -> sd ∈ DAG.subdags sd' -> sd ∈ DAG.subdags d.
Proof. apply (subdags_closed_depth (DAG.depth d)). lia. Qed.

Section BaggedFacts.
Context `{Settings} `{Regex}.

#[local] Existing Instance bag_extends_refl.
#[local] Existing Instance bag_extends_trans.

Lemma bag_extends_dom self self' k :
  bag_extends self self' -> k ∈ dom (DagBag.dags self) -> k ∈ dom (DagBag.dags self').
Proof. intros (_ & _ & _ & _ & Hdom) Hk. by apply Hdom. Qed.

(** [bag_dag] registers the DAG and every sub-DAG nested in it. *)
Lemma bag_dag_subdags (fuel : nat) self dag now :
  DAG.depth dag < fuel ->
  exists self',
    DagBag.bag_dag fuel self dag now = Some self'
    ∧ bag_extends self self'
    ∧ DAG.dag_id dag ∈ dom (DagBag.dags self')
    ∧ forall sd, sd ∈ DAG.subdags dag -> DAG.dag_id sd ∈ dom (DagBag.dags self').
Proof.
  intros Hd. destruct fuel as [|fuel]; [lia|].
  cbn [DagBag.bag_dag].
  set (dag1 := DAG.set_task_dict _ (DAG.set_last_loaded now dag)).
  set (self0 := DagBag.set_dags _ self).
  assert (Hsub : DAG.subdags dag1 = DAG.subdags dag).
  { rewrite (subdags_unfold dag1), (subdags_unfold dag). apply subdags_policy. }
  assert (Hext0 : bag_extends self self0).
  { repeat split. unfold self0. simpl. rewrite dom_insert. set_solver. }
  assert (Hin0 : DAG.dag_id dag ∈ dom (DagBag.dags self0)).
  { unfold self0. simpl. rewrite dom_insert. set_solver. }
  assert (Hfold : forall l self1,
            (forall sd, sd ∈ l -> DAG.depth sd < fuel) ->
            exists self',
              foldl (fun acc subdag =>
                       self ← acc;
                       DagBag.bag_dag fuel self
                         (DAG.set_is_subdag true
                            (DAG.set_parent_dag (Some (DAG.dag_id dag1))
                               (DAG.set_full_filepath (DAG.full_filepath dag1) subdag)))
                         now)
                    (Some self1) l = Some self'
              ∧ bag_extends self1 self'
              ∧ forall sd, sd ∈ l -> DAG.dag_id sd ∈ dom (DagBag.dags self')).
  { induction l as [|sd l IHl]; intros self1 Hl.
    - exists self1. split; [done|]. split; [done|].
      intros sd Hsd. by apply elem_of_nil in Hsd.
    - cbn [foldl mbind option_bind].
      destruct (bag_dag_spec fuel self1
                  (DAG.set_is_subdag true
                     (DAG.set_parent_dag (Some (DAG.dag_id dag1))
                        (DAG.set_full_filepath (DAG.full_filepath dag1) sd))) now)
        as (self2 & -> & Hext2 & Hin2).
      { rewrite depth_unfold. simpl. rewrite <- depth_unfold.
        apply Hl, list_elem_of_here. }
      destruct (IHl self2) as (self' & Hf & Hext' & Hall).
      { intros sd' Hsd'. by apply Hl, list_elem_of_further. }
      exists self'. split; [done|]. split; [by transitivity self2|].
      intros sd' Hsd'. apply elem_of_cons in Hsd' as [->|Hsd']; [|by apply Hall].
      by apply (bag_extends_dom self2). }
  destruct (Hfold (DAG.subdags dag1) self0) as (self' & Hf & Hext' & Hall).
  { intros sd Hsd. rewrite Hsub in Hsd.
    pose proof (subdags_depth_lt (DAG.depth dag) dag (le_n _) sd Hsd). lia. }
  exists self'. split; [exact Hf|]. split; [by transitivity self0|].
  split; [by apply (bag_extends_dom self0)|].
  intros sd Hsd. apply Hall. by rewrite Hsub.
Qed.

Lemma bag_modules_found filepath now (ds : list DAG.t) :
  forall found self found' self',
    foldl (DagBag.bag_module filepath now) (Some (found, self)) ds
    = Some (found', self') ->
    (forall d, d ∈ found -> DAG.dag_id d ∈ dom (DagBag.dags self)) ->
    (forall d, d ∈ found' -> DAG.dag_id d ∈ dom (DagBag.dags self'))
    ∧ exists rest, found' = found ++ rest.
Proof.
  induction ds as [|d ds IH]; intros found self found' self' Hf Hall.
  - cbn in Hf. injection Hf as <- <-. split; [done|]. exists []. by rewrite app_nil_r.
  - cbn [foldl] in Hf. unfold DagBag.bag_module at 2 in Hf.
    cbn [mbind option_bind] in Hf.
    set (d1 := DAG.set_is_subdag false _) in Hf.
    destruct (bag_dag_subdags (S (DAG.depth d1)) self d1 now)
      as (self1 & Hb & Hext1 & Hin1 & Hsub1); [lia|].
    rewrite Hb in Hf. cbn [mbind option_bind] in Hf.
    destruct (IH _ _ _ _ Hf) as [Hall' (rest & ->)].
    + intros d' Hd'. apply elem_of_app in Hd' as [Hd'|Hd'].
      * by apply (bag_extends_dom self), Hall.
      * apply elem_of_cons in Hd' as [->|Hd']; [done|by apply Hsub1].
    + split; [done|]. exists (([d1] ++ DAG.subdags d1) ++ rest).
      by rewrite !app_assoc.
Qed.

(** X27. Every DAG that [process_file] returns is registered in the bag
    under its dag_id: the DAGs found in the modules of the file and, with
    them, every sub-DAG nested in one of them at any depth. *)
Theorem process_file_bags_what_it_returns (os : OS) (self self' : DagBag.t)
    (filepath : option string) (only_if_updated safe_mode : bool) (now : Z)
    (found : list DAG.t) :
  DagBag.process_file os self filepath only_if_updated safe_mode now
  = Some (found, self') ->
  forall dag, dag ∈ found ->
    DAG.dag_id dag ∈ dom (DagBag.dags self')
    ∧ forall sd, sd ∈ DAG.subdags dag -> sd ∈ found.
Proof.
  unfold DagBag.process_file.
  assert (Hnil : forall s : DagBag.t, Some ([], s) = Some (found, self') ->
            forall dag, dag ∈ found ->
              DAG.dag_id dag ∈ dom (DagBag.dags self')
              ∧ forall sd, sd ∈ DAG.subdags dag -> sd ∈ found).
  { intros s [= <- _] dag Hdag. by apply elem_of_nil in Hdag. }
  destruct filepath as [path|]; [|apply Hnil].
  destruct (os_files os !! path) as [file|]; [|apply Hnil].
  destruct (f_mtime file) as [mtime|]; [|apply Hnil].
  destruct (only_if_updated && _); [apply Hnil|].
  cbv zeta.
  assert (Hfinish : forall (ds : list DAG.t) (s : DagBag.t),
            ('(found_dags, self) ← foldl (DagBag.bag_module path now)
                                      (Some ([], s)) ds;
             Some (found_dags,
                   DagBag.set_file_last_changed
                     (<[path := mtime]> (DagBag.file_last_changed self)) self))
            = Some (found, self') ->
            forall dag, dag ∈ found ->
              DAG.dag_id dag ∈ dom (DagBag.dags self')
              ∧ forall sd, sd ∈ DAG.subdags dag -> sd ∈ found).
  { intros ds s Hf dag Hdag.
    destruct (foldl (DagBag.bag_module path now) (Some ([], s)) ds)
      as [[found1 self1]|] eqn:Hfold; [|done].
    cbn [mbind option_bind] in Hf. injection Hf as <- <-.
    split.
    - destruct (bag_modules_found path now ds [] s found1 self1 Hfold) as [Hall _].
      { intros d Hd. by apply elem_of_nil in Hd. }
      by apply Hall.
    - clear -Hfold Hdag. revert Hfold Hdag.
      assert (Hgen : forall ds acc s found1 self1,
                foldl (DagBag.bag_module path now) (Some (acc, s)) ds
                = Some (found1, self1) ->
                (forall d, d ∈ acc -> forall sd, sd ∈ DAG.subdags d -> sd ∈ acc) ->
                forall d, d ∈ found1 -> forall sd, sd ∈ DAG.subdags d -> sd ∈ found1).
      { clear. induction ds as [|d ds IH]; intros acc s found1 self1 Hf Hacc.
        - cbn in Hf. by injection Hf as <- <-.
        - cbn [foldl] in Hf. unfold DagBag.bag_module at 2 in Hf.
          cbn [mbind option_bind] in Hf.
          set (d1 := DAG.set_is_subdag false _) in Hf.
          destruct (DagBag.bag_dag _ s d1 now) as [s1|]; cbn [mbind option_bind] in Hf.
          2:{ clear -Hf. exfalso. induction ds as [|? ? IHds]; [done|]. by apply IHds. }
          apply (IH _ _ _ _ Hf).
          intros d' Hd' sd Hsd. apply elem_of_app in Hd' as [Hd'|Hd'].
          + apply elem_of_app. left. by apply (Hacc d').
          + apply elem_of_app. right.
            apply elem_of_cons in Hd' as [->|Hd']; [by right|].
            right. by apply (subdags_closed d1 d'). }
      intros Hfold Hdag. apply (Hgen ds [] s found1 self1 Hfold); [|done].
      intros d Hd. by apply elem_of_nil in Hd. }
  destruct (negb (f_is_zipfile file)).
  - destruct (safe_mode && negb (f_markers file)); [apply Hnil|].
    destruct (f_load_source file); apply Hfinish.
  - destruct (DagBag.scan_zip _ _ _ _ _ _); [apply Hnil|apply Hfinish].
Qed.

End BaggedFacts.

Lemma process_file_bags_what_it_returns_witness :
  exists found self',
    DagBag.process_file (H := no_policy) example_zip (DagBag.new "/dags")
      (Some "/dags/pack.zip") true true 50 = Some (found, self')
    ∧ forall dag, dag ∈ found -> DAG.dag_id dag ∈ dom (DagBag.dags self').
Proof.
  destruct (DagBag.process_file (H := no_policy) example_zip (DagBag.new "/dags")
              (Some "/dags/pack.zip") true true 50) as [[found self']|] eqn:Hp;
    [|vm_compute in Hp; discriminate].
  exists found, self'. split; [reflexivity|]. intros dag Hdag.
  exact (proj1 (process_file_bags_what_it_returns (H := no_policy) example_zip
                  (DagBag.new "/dags") self' (Some "/dags/pack.zip") true true 50
                  found Hp dag Hdag)).
Defined.

(** ** The static queries of DAG *)

(** X28. [get_num_task_instances] counts the instances of the DAG whose
    task id is among task_ids and, when states is given, whose state is one
    of states, the missing state None being a state like the others: it is
    counted exactly when None is listed.  Without states every instance of
    the listed tasks is counted. *)
Theorem get_num_task_instances_counts_listed_states
    (dag_id : string) (task_ids : list string) (states : option (list State.t))
    (session : Session.t) :
  DagQuery.get_num_task_instances dag_id task_ids states session
  = Z.of_nat (length
      (filter (fun ti => TaskInstance.dag_id ti = dag_id
                         ∧ TaskInstance.task_id ti ∈ task_ids
                         ∧ state_listed states (TaskInstance.state ti))
              (Session.task_instances session))).
Proof.
  unfold DagQuery.get_num_task_instances, state_listed. f_equal. f_equal.
  induction (Session.task_instances session) as [|ti rows IH].
  - by destruct states as [l|]; [destruct (bool_decide _)|].
  - destruct states as [l|].
    + destruct (bool_decide (State.NONE ∈ l)) eqn:Hn.
      * apply bool_decide_eq_true_1 in Hn. rewrite !filter_cons.
        destruct (decide (TaskInstance.dag_id ti = dag_id
                          ∧ TaskInstance.task_id ti ∈ task_ids)) as [Hk|Hk].
        -- rewrite filter_cons.
           destruct (decide (TaskInstance.state ti ∈ l)) as [Hs|Hs].
           ++ rewrite decide_True.
              ** rewrite decide_True by (destruct Hk; done). by rewrite IH.
              ** destruct (decide (TaskInstance.state ti = State.NONE));
                   [by right|by left].
           ++ rewrite decide_False.
              ** rewrite decide_False by (intros (_ & _ & ?); done). exact IH.
              ** intros [[_ ?]|He]; [done|]. apply Hs. by rewrite He.
        -- rewrite decide_False by (intros (? & ? & _); by apply Hk). exact IH.
      * apply bool_decide_eq_false_1 in Hn. rewrite !filter_cons.
        destruct (decide (TaskInstance.dag_id ti = dag_id
                          ∧ TaskInstance.task_id ti ∈ task_ids)) as [Hk|Hk].
        -- rewrite filter_cons.
           destruct (decide (TaskInstance.state ti ∈ l)) as [Hs|Hs].
           ++ rewrite decide_True.
              ** rewrite decide_True by (destruct Hk; done). by rewrite IH.
              ** split; [|done]. intros He. apply Hn. by rewrite <- He.
           ++ rewrite decide_False by (intros [_ ?]; done).
              rewrite decide_False by (intros (_ & _ & ?); done). exact IH.
        -- rewrite decide_False by (intros (? & ? & _); by apply Hk). exact IH.
    + rewrite !filter_cons.
      destruct (decide (TaskInstance.dag_id ti = dag_id
                        ∧ TaskInstance.task_id ti ∈ task_ids)) as [Hk|Hk].
      * rewrite decide_True by (destruct Hk; done). by rewrite IH.
      * rewrite decide_False by (intros (? & ? & _); by apply Hk). exact IH.
Qed.

(** The instance without a pool and without a state is counted when None
    is listed, and only then. *)
Example get_num_task_instances_none_state :
  let session :=
    Session.set_task_instances
      [ example_ti "a" State.NONE None None;
        example_ti "a" State.RUNNING (Some 1%Z) None ] empty_session in
  DagQuery.get_num_task_instances "etl" ["a"] (Some [State.RUNNING]) session = 1%Z
  ∧ DagQuery.get_num_task_instances "etl" ["a"]
      (Some [State.RUNNING; State.NONE]) session = 2%Z
  ∧ DagQuery.get_num_task_instances "etl" ["a"] (Some [State.NONE]) session = 1%Z
  ∧ DagQuery.get_num_task_instances "etl" [] None session = 0%Z.
Proof. by vm_compute. Qed.

(** X29. With a non-empty list of known ids, [deactivate_unknown_dags]
    leaves as active exactly the DAG records that were active and whose id
    is in the list; it changes no other column, keeps the records of the
    listed ids as they are, adds and removes no record, and a second call
    changes nothing.  With an empty list it changes nothing at all, so
    every active record stays active. *)
Theorem deactivate_unknown_dags_keeps_known
    (active_dag_ids : list string) (session : Session.t) :
  let session' := DagQuery.deactivate_unknown_dags active_dag_ids session in
  (active_dag_ids = [] -> session' = session)
  ∧ (active_dag_ids ≠ [] ->
     Forall2 (fun m m' =>
                DagModel.dag_id m' = DagModel.dag_id m
                ∧ DagModel.is_paused m' = DagModel.is_paused m
                ∧ DagModel.is_subdag m' = DagModel.is_subdag m
                ∧ DagModel.fileloc m' = DagModel.fileloc m
                ∧ DagModel.is_active m'
                  = DagModel.is_active m
                    && bool_decide (DagModel.dag_id m ∈ active_dag_ids)
                ∧ (DagModel.dag_id m ∈ active_dag_ids -> m' = m))
             (Session.dag_models session) (Session.dag_models session'))
  ∧ DagQuery.deactivate_unknown_dags active_dag_ids session' = session'.
Proof.
  cbv zeta. unfold DagQuery.deactivate_unknown_dags.
  destruct active_dag_ids as [|a ids]; [done|]. cbn [length Nat.eqb].
  set (ids' := a :: ids). split; [done|]. split.
  - intros _. cbn [Session.dag_models Session.set_dag_models].
    induction (Session.dag_models session) as [|m ms IH]; [constructor|].
    cbn [map]. constructor; [|exact IH].
    case_bool_decide as Hin.
    + cbn. rewrite bool_decide_eq_false_2 by done. rewrite andb_false_r.
      repeat split. intros ?. done.
    + rewrite bool_decide_eq_true_2 by done.
      rewrite andb_true_r. done.
  - cbn [Session.dag_models Session.set_dag_models].
    unfold Session.set_dag_models. cbn. f_equal.
    rewrite map_map. apply map_ext. intros m.
    destruct (decide (DagModel.dag_id m ∈ ids')) as [Hin|Hin].
    + rewrite (bool_decide_eq_false_2 (DagModel.dag_id m ∉ ids'))
        by (intros Hn; by apply Hn).
      cbn iota. by rewrite bool_decide_eq_false_2 by (intros Hn; by apply Hn).
    + rewrite (bool_decide_eq_true_2 (DagModel.dag_id m ∉ ids')) by done.
      cbn. by rewrite bool_decide_eq_true_2.
Qed.

Lemma deactivate_unknown_dags_keeps_known_witness :
  DagQuery.deactivate_unknown_dags [] example_models_session
  = example_models_session
  ∧ map DagModel.is_active
      (Session.dag_models
         (DagQuery.deactivate_unknown_dags ["web"] example_models_session))
    = [false; true; false].
Proof.
  split.
  - destruct (deactivate_unknown_dags_keeps_known [] example_models_session)
      as [Hempty _].
    exact (Hempty eq_refl).
  - reflexivity.
Defined.

(** ** The roots of a DAG *)

Lemma chain_dag_mirrored : mirrored chain_dag.
Proof.
  intros k t d Hin Hd. apply list_elem_of_In in Hin. simpl in Hin.
  destruct Hin as [[= <- <-]|[[= <- <-]|[[= <- <-]|[]]]]; simpl in Hd.
  - apply list_elem_of_singleton in Hd as ->.
    exists (DAG.mkBaseOperator "B" ["A"] ["C"] 3 None).
    split; [|by left]. apply list_elem_of_In. simpl. right. by left.
  - apply list_elem_of_singleton in Hd as ->.
    exists (DAG.mkBaseOperator "C" ["B"] [] 3 None).
    split; [|by left]. apply list_elem_of_In. simpl. right. right. by left.
  - by apply elem_of_nil in Hd.
Qed.

Lemma foldM_filter {A : Type} (P : A -> Prop) `{forall x, Decision (P x)}
    (f : list A -> A -> result (list A)) (l : list A) :
  (forall acc x, x ∈ l -> f acc x = Ok (if decide (P x) then acc ++ [x] else acc)) ->
  forall acc, foldM f acc l = Ok (acc ++ filter P l).
Proof.
  induction l as [|x l IH]; intros Hf acc; cbn [foldM].
  - by rewrite app_nil_r.
  - rewrite Hf by (by left). cbn [mbind result_bind].
    rewrite IH by (intros acc' y Hy; apply Hf; by right).
    rewrite filter_cons. destruct (decide (P x)); [|done].
    by rewrite <- app_assoc.
Qed.

(** X30. On a well-formed DAG whose downstream ids name tasks of the DAG,
    [roots] raises nothing and returns, in registration order, the tasks
    without downstream ids.  When the DAG has a task, has no cycle and its
    downstream lists mirror the upstream lists, it has a root. *)
Theorem roots_of_acyclic_dag (dag : DAG.t) :
  wf_dag dag -> downstream_closed dag ->
  DAG.roots dag
  = Ok (filter (fun t => DAG._downstream_task_ids t = []) (DAG.tasks dag))
  ∧ (acyclic dag -> mirrored dag -> DAG.tasks dag ≠ [] ->
     exists t, t ∈ DAG.tasks dag ∧ DAG._downstream_task_ids t = []).
Proof.
  intros Hwf Hdown. split.
  - unfold DAG.roots.
    rewrite (foldM_filter (fun t => DAG._downstream_task_ids t = [])); [done|].
    intros acc t Ht. unfold DAG.downstream_list.
    assert (Hclosed : Forall (fun u => u ∈ DAG.task_ids dag)
                        (DAG._downstream_task_ids t)).
    { unfold downstream_closed in Hdown. rewrite Forall_forall in Hdown.
      exact (Hdown _ (wf_task_in_dict dag Hwf t Ht)). }
    destruct (wf_mapM_get_task dag Hwf _ Hclosed) as (l & -> & Hids).
    cbn [mbind result_bind]. destruct (DAG._downstream_task_ids t) as [|d ds].
    + destruct l; [|done]. by rewrite decide_True.
    + destruct l; [done|]. by rewrite decide_False.
  - intros Hac Hmir Hne.
    destruct (topological_sort_acyclic dag Hwf Hac) as (sorted & _ & Hperm & Hafter).
    assert (Hnd : NoDup (map DAG.task_id sorted)).
    { rewrite (Permutation_map DAG.task_id Hperm), (wf_tasks_ids dag Hwf).
      apply Hwf. }
    destruct (last sorted) as [t|] eqn:Hlast.
    2:{ apply last_None in Hlast. rewrite Hlast in Hperm.
        apply Permutation_nil in Hperm. done. }
    assert (Ht : t ∈ DAG.tasks dag).
    { rewrite <- Hperm. apply last_Some in Hlast as [l' ->].
      apply elem_of_app. right. by left. }
    exists t. split; [done|].
    destruct (DAG._downstream_task_ids t) as [|d ds] eqn:Hds; [done|]. exfalso.
    destruct (Hmir _ t d (wf_task_in_dict dag Hwf t Ht)) as (td & Htd & Hup).
    { rewrite Hds. by left. }
    assert (Htd' : td ∈ sorted).
    { rewrite Hperm. unfold DAG.tasks. apply list_elem_of_In, in_map_iff.
      exists (d, td). split; [done|by apply list_elem_of_In]. }
    apply list_elem_of_lookup in Htd' as [i Hi].
    destruct (Hafter i td (DAG.task_id t) Hi Hup) as (j & tu & Hji & Hj & Hid).
    rewrite last_lookup in Hlast.
    pose proof (lookup_lt_Some _ _ _ Hi) as Hilt.
    assert (Heq : j = pred (length sorted)).
    { apply (NoDup_lookup (map DAG.task_id sorted) j (pred (length sorted))
               (DAG.task_id t) Hnd).
      - by rewrite list_lookup_fmap, Hj; cbn; rewrite Hid.
      - by rewrite list_lookup_fmap, Hlast. }
    lia.
Qed.

Lemma roots_of_acyclic_dag_witness :
  DAG.roots chain_dag = Ok [DAG.mkBaseOperator "C" ["B"] [] 3 None]
  ∧ exists t, t ∈ DAG.tasks chain_dag ∧ DAG._downstream_task_ids t = [].
Proof.
  assert (Hd : downstream_closed chain_dag)
    by (apply (bool_decide_unpack _); vm_compute; exact I).
  destruct (roots_of_acyclic_dag chain_dag chain_dag_wf Hd) as [Hroots Hex].
  split; [rewrite Hroots; reflexivity|].
  apply Hex.
  - apply (sorted_dag_acyclic chain_dag (DAG.tasks chain_dag) chain_dag_wf).
    reflexivity.
  - exact chain_dag_mirrored.
  - discriminate.
Defined.
